(** * Flipper desktop build utilities ([desktop/scripts/build-utils.ts])

    A shallow embedding of the build orchestration script: default-plugin
    selection, entry-point generation, per-plugin build and link, the three
    bundle compilations and the source-map clean-up.

    The script is effectful throughout.  It is embedded in a small monad
    that threads the process state (file system and environment), collects
    the calls made to the outside world together with their outcome, and
    distinguishes a normal return, a thrown error and process termination. *)

From Stdlib Require Import String Ascii List Bool Arith ZArith Lia DecimalString.
Import ListNotations.
Open Scope list_scope.
Open Scope string_scope.

Set Implicit Arguments.

(** ** Paths *)

(** A path in resolved form: the segments leading from the root. *)
Definition path := list string.

Fixpoint segments_from (s cur : string) : list string :=
  match s with
  | EmptyString => [cur]
  | String c rest =>
      if Ascii.eqb c "/" then cur :: segments_from rest EmptyString
      else segments_from rest (cur ++ String c EmptyString)
  end.

Definition segments (s : string) : list string := segments_from s EmptyString.

(** One step of normalisation: empty and [.] segments are dropped, [..]
    goes to the parent, any other segment is entered. *)
Definition enter (p : path) (seg : string) : path :=
  if seg =? "" then p
  else if seg =? "." then p
  else if seg =? ".." then removelast p
  else (p ++ [seg])%list.

(** [path.join(base, s)] for an already resolved [base]. *)
Definition path_join (base : path) (s : string) : path :=
  fold_left enter (segments s) base.

Definition is_absolute (s : string) : bool :=
  match s with
  | String c _ => Ascii.eqb c "/"
  | EmptyString => false
  end.

(** Resolution of a path string against the working directory. *)
Definition path_resolve (cwd : path) (s : string) : path :=
  if is_absolute s then path_join [] s else path_join cwd s.

Fixpoint path_eqb (p q : path) : bool :=
  match p, q with
  | [], [] => true
  | a :: p', b :: q' => (a =? b) && path_eqb p' q'
  | _, _ => false
  end.

(** [is_prefix p q]: [q] is [p] itself or lies below it. *)
Fixpoint is_prefix (p q : path) : bool :=
  match p, q with
  | [], _ => true
  | a :: p', b :: q' => (a =? b) && is_prefix p' q'
  | _ :: _, [] => false
  end.

(** [below p q]: [q] lies strictly below [p]. *)
Definition below (p q : path) : bool := is_prefix p q && negb (path_eqb p q).

(** The remainder of [q] after the prefix [p]. *)
Fixpoint strip_prefix (p q : path) : option path :=
  match p, q with
  | [], _ => Some q
  | a :: p', b :: q' => if a =? b then strip_prefix p' q' else None
  | _ :: _, [] => None
  end.

Definition dirname (p : path) : path := removelast p.

(** All ancestors of [p], the root first and [p] itself last. *)
Fixpoint ancestors (p : path) : list path :=
  match p with
  | [] => [[]]
  | a :: p' => [] :: map (cons a) (ancestors p')
  end.

(** Where a path string starts from: the root when it is absolute, the
    working directory otherwise. *)
Definition path_base (cwd : path) (s : string) : path :=
  if is_absolute s then [] else cwd.

(** The places a path string names on the way when it is read segment by
    segment from [base], one per segment: [maps/out/..] names [maps],
    [maps/out] and [maps] again. *)
Fixpoint named_from (base : path) (segs : list string) : list path :=
  match segs with
  | [] => []
  | seg :: rest => enter base seg :: named_from (enter base seg) rest
  end.

Definition path_named (cwd : path) (s : string) : list path :=
  named_from (path_base cwd s) (segments s).

(** A segment that names an entry. *)
Definition is_name (seg : string) : bool :=
  negb ((seg =? "") || (seg =? ".") || (seg =? "..")).

(** ** JavaScript values used as conditions *)

(** An environment variable or optional string argument is truthy when it
    is defined and not the empty string. *)
Definition truthy (v : option string) : bool :=
  match v with
  | Some s => negb (s =? "")
  | None => false
  end.

Definition string_of_bool (b : bool) : string := if b then "true" else "false".

Definition string_of_nat (n : nat) : string :=
  NilZero.string_of_uint (Nat.to_uint n).

(** [Array.prototype.join] on strings. *)
Fixpoint join (sep : string) (l : list string) : string :=
  match l with
  | [] => ""
  | [x] => x
  | x :: rest => x ++ sep ++ join sep rest
  end.

(** ** Results of calls *)

Definition Error := string.

Inductive result (A : Type) : Type :=
| Ok (a : A)
| Err (e : Error).
Arguments Ok {A} a.
Arguments Err {A} e.

Definition failure {A} (r : result A) : option Error :=
  match r with
  | Ok _ => None
  | Err e => Some e
  end.

(** ** The file system *)

Inductive Entry : Type :=
| File (data : string)
| Dir
| Link (target : path) (kind : string).

(** The file system maps resolved paths to entries.  An entry is addressed
    by its literal path and a link is a leaf; the calls that read through
    links, [emptyDir] and [copy] with [dereference], follow them to their
    target.  Failures for reasons the entries do not show (permissions,
    busy files) are outside the model. *)
Definition FS := path -> option Entry.

Definition is_dir (e : option Entry) : bool :=
  match e with Some Dir => true | _ => false end.

Definition is_file (e : option Entry) : bool :=
  match e with Some (File _) => true | _ => false end.

Definition exists_entry (e : option Entry) : bool :=
  match e with Some _ => true | None => false end.

Module fs.

(** A path cannot become a directory when it, or one of its ancestors,
    exists and is not a directory. *)
Definition blocked (f : FS) (p : path) : bool :=
  existsb (fun a => exists_entry (f a) && negb (is_dir (f a))) (ancestors p).

(** [mkdirs]/[ensureDir], also [fs.promises.mkdir] with [recursive]. *)
Definition ensureDir (p : path) (f : FS) : result unit * FS :=
  if blocked f p then (Err "EEXIST: not a directory", f)
  else (Ok tt, fun q => if is_prefix q p then Some Dir else f q).

(** [ensureDir] on a path string as it is given: each place the string
    names on the way is made a directory in turn. *)
Fixpoint ensureDirs (ps : list path) (f : FS) : result unit * FS :=
  match ps with
  | [] => (Ok tt, f)
  | p :: rest =>
      match ensureDir p f with
      | (Ok _, f1) => ensureDirs rest f1
      | (Err e, f1) => (Err e, f1)
      end
  end.

(** [remove]: deletes the entry and everything below it.  A missing
    entry is not an error; a path that leads through something that is
    not a directory is. *)
Definition remove_tree (p : path) (f : FS) : FS :=
  fun q => if is_prefix p q then None else f q.

Definition remove (p : path) (f : FS) : result unit * FS :=
  if blocked f (dirname p) then (Err "ENOTDIR: not a directory", f)
  else (Ok tt, remove_tree p f).

(** Where [p] leads when the links at [p] are followed, at most [fuel]
    of them. *)
Fixpoint follow (fuel : nat) (f : FS) (p : path) : path :=
  match fuel with
  | O => p
  | S n =>
      match f p with
      | Some (Link t _) => follow n f t
      | _ => p
      end
  end.

(** The platform follows forty links at most. *)
Definition lead (f : FS) (p : path) : path := follow 40 f p.

(** [emptyDir]: the directory at [p], or the one a link at [p] leads to,
    loses its content; when there is none to read, [p] is created as a
    directory. *)
Definition emptyDir (p : path) (f : FS) : result unit * FS :=
  if is_dir (f (lead f p))
  then (Ok tt, fun q => if below (lead f p) q then None else f q)
  else ensureDir p f.

(** One step of a reader that follows links: from the directory [cur]
    the segment leads to [cur] itself, to its parent, or to the entry of
    that name with the links at it followed. *)
Definition step (f : FS) (cur : path) (seg : string) : path :=
  if seg =? "" then cur
  else if seg =? "." then cur
  else if seg =? ".." then removelast cur
  else lead f (cur ++ [seg])%list.

(** Where the segments lead from [cur]; every place that is left for the
    next one must be a directory. *)
Fixpoint reach (f : FS) (cur : path) (segs : list string) : option path :=
  match segs with
  | [] => Some cur
  | seg :: rest => if is_dir (f cur) then reach f (step f cur seg) rest else None
  end.

(** [stat]: the entry the segments lead to; a link that leads nowhere,
    or in a circle, shows no entry. *)
Definition stat (f : FS) (cur : path) (segs : list string) : option Entry :=
  match reach f cur segs with
  | Some p => match f p with
              | Some (Link _ _) => None
              | e => e
              end
  | None => None
  end.

(** [writeFile]: the parent must be a directory and the target must not
    be a directory or a link. *)
Definition writeFile (p : path) (data : string) (f : FS) : result unit * FS :=
  if negb (is_dir (f (dirname p))) then (Err "ENOENT: no such directory", f)
  else match f p with
       | Some Dir => (Err "EISDIR: is a directory", f)
       | Some (Link _ _) => (Err "EISDIR: is a link to a directory", f)
       | _ => (Ok tt, fun q => if path_eqb q p then Some (File data) else f q)
       end.

(** The checks of [move]: the source exists, differs from the
    destination, has the destination's type when that exists, and the
    destination is not inside a source directory. *)
Definition checkPaths (src dst : path) (f : FS) : option Error :=
  match f src with
  | None => Some "ENOENT: no such file or directory"
  | Some e =>
      if path_eqb src dst then Some "Source and destination must not be the same."
      else if exists_entry (f dst) && negb (Bool.eqb (is_dir (Some e)) (is_dir (f dst)))
           then Some "Cannot overwrite directory with non-directory or conversely."
      else if is_dir (Some e) && is_prefix src dst
           then Some "Cannot move or copy to a subdirectory of itself."
      else None
  end.

(** What [copy] reads at the names [r] below its source.  The source is
    a path string, read from [base]; with [dereference] it is read through
    the links on the way and below, without it entry by entry. *)
Definition source (dereference : bool) (f : FS) (base : path) (src : list string)
    (r : list string) : option Entry :=
  if forallb is_name r then
    if dereference then stat f base (src ++ r)%list
    else f (fold_left enter src base ++ r)%list
  else None.

(** The entries read from the source placed at [dst].  An entry that is
    there is kept without [overwrite]; so is the destination itself when
    a directory is copied onto it. *)
Definition graft (from : list string -> option Entry) (dst : path) (overwrite : bool)
    (onto : FS) : FS :=
  fun q =>
    match strip_prefix dst q with
    | Some r =>
        match from r with
        | Some e =>
            if exists_entry (onto q)
               && (negb overwrite
                   || (is_dir (Some e) && match r with [] => true | _ => false end))
            then onto q
            else Some e
        | None => onto q
        end
    | None => onto q
    end.

(** The place of the source of [copy]. *)
Definition origin (dereference : bool) (f : FS) (base : path) (src : list string) : path :=
  if dereference then
    match reach f base src with
    | Some p => p
    | None => fold_left enter src base
    end
  else fold_left enter src base.

(** [copy]: the source exists, is not the destination, has the
    destination's type when that exists, and the destination is not
    inside a source directory; then the destination's parent is made and
    the tree is placed.  There is no [recursive] option, a directory is
    always copied with its content.  A link below the source that leads
    nowhere shows no entry here and is left out; the platform reports it. *)
Definition copy (base : path) (src : list string) (dst : path)
    (overwrite dereference : bool) (f : FS) : result unit * FS :=
  let from := source dereference f base src in
  let there := if dereference then f (lead f dst) else f dst in
  match from [] with
  | None => (Err "ENOENT: no such file or directory", f)
  | Some e =>
      if exists_entry there
         && path_eqb (origin dereference f base src)
                     (if dereference then lead f dst else dst)
      then (Err "Source and destination must not be the same.", f)
      else if exists_entry there && negb (Bool.eqb (is_dir (Some e)) (is_dir there))
      then (Err "Cannot overwrite directory with non-directory or conversely.", f)
      else if is_dir (Some e) && is_prefix (fold_left enter src base) dst
      then (Err "Cannot copy to a subdirectory of itself.", f)
      else
        match ensureDir (dirname dst) f with
        | (Err e', _) => (Err e', f)
        | (Ok _, f1) => (Ok tt, graft from dst overwrite f1)
        end
  end.

(** The rename at the end of [move]: a directory moves with its tree,
    any other entry moves alone. *)
Definition rename (src dst : path) (f : FS) : FS :=
  if is_dir (f src) then
    fun q => match strip_prefix dst q with
             | Some r => f (src ++ r)%list
             | None => if is_prefix src q then None else f q
             end
  else
    fun q => if path_eqb q dst then f src
             else if path_eqb q src then None
             else f q.

(** [move]: with [overwrite] the destination is removed first. *)
Definition move (src dst : path) (overwrite : bool) (f : FS) : result unit * FS :=
  match checkPaths src dst f with
  | Some e => (Err e, f)
  | None =>
      match ensureDir (dirname dst) f with
      | (Err e, _) => (Err e, f)
      | (Ok _, f1) =>
          if exists_entry (f1 dst) && negb overwrite then (Err "dest already exists.", f)
          else
            let f2 := remove_tree dst f1 in
            if exists_entry (f2 src) then (Ok tt, rename src dst f2)
            else (Err "ENOENT: no such file or directory", f2)
      end
  end.

(** [ensureSymlink]: an existing link to the same source is kept; else
    the source must exist and the destination must be free. *)
Definition ensureSymlink (src dst : path) (kind : string) (f : FS) : result unit * FS :=
  match f dst with
  | Some (Link t _) =>
      if path_eqb t src then (Ok tt, f) else (Err "EEXIST: file already exists", f)
  | Some _ => (Err "EEXIST: file already exists", f)
  | None =>
      if negb (exists_entry (f src)) then (Err "ENOENT: no such file or directory", f)
      else match ensureDir (dirname dst) f with
           | (Err e, _) => (Err e, f)
           | (Ok _, f1) =>
               (Ok tt, fun q => if path_eqb q dst then Some (Link src kind) else f1 q)
           end
  end.

End fs.

(** ** Plugin descriptors *)

Module Installed.

(** [InstalledPluginDetails]: the fields the script reads, and the rest of
    the descriptor carried along as it is. *)
Record t : Type := mk {
  id : string;
  name : string;
  version : string;
  flipperSDKVersion : option string;
  dir : string;
  entry : string;
  details : list (string * string)
}.

End Installed.

Module Bundled.

(** The object built by [generateDefaultPluginEntryPoints] and cast to
    [BundledPluginDetails]; an [undefined] field is [None]. *)
Record t : Type := mk {
  id : string;
  name : string;
  version : string;
  flipperSDKVersion : option string;
  isBundled : bool;
  dir : option string;
  entry : option string;
  details : list (string * string)
}.

End Bundled.

(** ** The bundling engine's interface *)

Module Metro.

Record TerserOptions : Type := {
  keep_fnames : bool;
  module : bool;
  warnings : bool;
  mangle : bool;
  compress : bool
}.

Record Minifier : Type := {
  minifierPath : string;
  minifierConfig : TerserOptions
}.

Record Transformer : Type := {
  babelTransformerPath : path;
  minifier : Minifier
}.

Record Resolver : Type := {
  resolverMainFields : list string;
  blacklistRE : option string;
  sourceExts : list string
}.

(** What [Metro.loadConfig] yields: settings the script does not look at. *)
Definition LoadedConfig := list (string * string).

(** The configuration object; every target installs the silent reporter.
    [loaded] is the configuration the object was assigned over, and
    [serializer] tells whether an (empty) serializer section is given. *)
Record Config : Type := {
  loaded : option LoadedConfig;
  projectRoot : path;
  watchFolders : option (list path);
  serializer : bool;
  transformer : Transformer;
  resolver : Resolver
}.

Record Options : Type := {
  platform : option string;
  entry : path;
  out : path;
  dev : bool;
  minify : bool;
  resetCache : bool;
  sourceMap : bool;
  sourceMapUrl : option string;
  inlineSourceMap : bool
}.

End Metro.

(** ** Calls, events and the process state *)

Inductive Call : Type :=
| EmptyDir (d : path)
| Copy (src dst : path) (recursive overwrite dereference : bool)
| WriteJSON (file : path) (obj : list Bundled.t)
| EnsureDir (d : path)
| WriteFile (file : path) (data : string)
| EnsureSymlink (src dst : path) (kind : string)
| Move (src dst : path) (overwrite : bool)
| Remove (p : path)
| Mkdir (p : path) (recursive : bool)
| GetSourcePlugins
| GetPluginSourceFolders
| GetAppWatchFolders
| GetWatchFolders (d : path)
| RunBuild (pluginDir : path) (dev : bool)
| StripSourceMapComment (out : path)
| LoadConfig
| MetroRunBuild (config : Metro.Config) (options : Metro.Options).

(** What the process does to the outside, in order.  A call is recorded
    with its outcome: [None] when it returned, the error when it threw. *)
Inductive Event : Type :=
| Logged (msg : string)
| LoggedError (msg : string) (err : Error)
| Called (c : Call) (threw : option Error)
| ProcessExited (code : Z).

Record State : Type := mkState {
  files : FS;
  env : string -> option string
}.

(** How a computation ends: it returns, throws, or ends the process. *)
Inductive outcome (A : Type) : Type :=
| Returned (a : A)
| Thrown (e : Error)
| Exited (code : Z).
Arguments Returned {A} a.
Arguments Thrown {A} e.
Arguments Exited {A} code.

Record Run (A : Type) : Type := mkRun {
  result_of : outcome A;
  final : State;
  events : list Event
}.

Definition M (A : Type) : Type := State -> Run A.

Definition ret {A} (a : A) : M A :=
  fun s => mkRun (Returned a) s [].

Definition bind {A B} (m : M A) (k : A -> M B) : M B :=
  fun s =>
    let r := m s in
    match result_of r with
    | Returned a =>
        let r' := k a (final r) in
        mkRun (result_of r') (final r') (events r ++ events r')%list
    | Thrown e => mkRun (Thrown e) (final r) (events r)
    | Exited c => mkRun (Exited c) (final r) (events r)
    end.

(** [try { m } catch (err) { handler err }]: only a thrown error is caught. *)
Definition try_catch {A} (m : M A) (handler : Error -> M A) : M A :=
  fun s =>
    let r := m s in
    match result_of r with
    | Thrown e =>
        let r' := handler e (final r) in
        mkRun (result_of r') (final r') (events r ++ events r')%list
    | _ => r
    end.

Notation "x <- m ;; k" := (bind m (fun x => k))
  (at level 61, m at next level, right associativity).
Notation "m ;; k" := (bind m (fun _ => k))
  (at level 61, right associativity).

(** [for (const x of l) body]. *)
Fixpoint for_of {A} (l : list A) (body : A -> M unit) : M unit :=
  match l with
  | [] => ret tt
  | x :: rest => body x ;; for_of rest body
  end.

Definition when (b : bool) (m : M unit) : M unit :=
  if b then m else ret tt.

(** A call to the outside: it acts on the file system and is recorded. *)
Definition call {A} (c : Call) (sem : FS -> result A * FS) : M A :=
  fun s =>
    let (r, f) := sem (files s) in
    mkRun (match r with Ok a => Returned a | Err e => Thrown e end)
          (mkState f (env s))
          [Called c (failure r)].

Definition console_log (msg : string) : M unit :=
  fun s => mkRun (Returned tt) s [Logged msg].

Definition console_error (msg : string) (err : Error) : M unit :=
  fun s => mkRun (Returned tt) s [LoggedError msg err].

Definition process_exit (code : Z) : M unit :=
  fun s => mkRun (Exited code) s [ProcessExited code].

Definition process_env (var : string) : M (option string) :=
  fun s => mkRun (Returned (env s var)) s [].

Definition process_env_set (var value : string) : M unit :=
  fun s => mkRun (Returned tt)
                 (mkState (files s) (fun v => if v =? var then Some value else env s v))
                 [].

(** ** The host: module constants and outside collaborators

    [./paths], [../package.json], the environment at load time and the
    imported functions are not part of the script.  The constants are
    taken as they are; every collaborator is a function on the file
    system that returns or throws. *)

Class Host : Type := {
  (* const {version} = require('../package.json') *)
  version : string;
  (* process.env.NODE_ENV when the module is loaded *)
  NODE_ENV : option string;
  (* require.resolve('metro-minify-terser') *)
  terserPath : string;
  (* require('electron/package.json').version *)
  electronVersion : string;
  cwd : path;
  (* ./paths *)
  appDir : path;
  staticDir : path;
  defaultPluginsDir : path;
  babelTransformationsDir : path;
  serverDir : path;
  rootDir : path;
  browserUiDir : path;
  (* JSON.stringify on one descriptor object *)
  JSON_stringify : Bundled.t -> string;
  (* flipper-plugin-lib, flipper-pkg-lib, ./get-app-watch-folders, metro *)
  ext_getSourcePlugins : FS -> result (list Installed.t) * FS;
  ext_getPluginSourceFolders : FS -> result (list path) * FS;
  ext_getAppWatchFolders : FS -> result (list path) * FS;
  ext_getWatchFolders : path -> FS -> result (list path) * FS;
  ext_runBuild : path -> bool -> FS -> result unit * FS;
  ext_stripSourceMapComment : path -> FS -> result unit * FS;
  ext_Metro_loadConfig : FS -> result Metro.LoadedConfig * FS;
  ext_Metro_runBuild : Metro.Config -> Metro.Options -> FS -> result unit * FS
}.

Definition dquote : string := String (ascii_of_nat 34) EmptyString.
Definition newline : string := String (ascii_of_nat 10) EmptyString.

Section Script.

Context {host : Host}.

(** *** The calls the script makes *)

Definition fs_emptyDir (d : path) : M unit :=
  call (EmptyDir d) (fs.emptyDir d).

(** [fs.copy] is given its source as a path string. *)
Definition fs_copy (src : string) (dst : path) (recursive overwrite dereference : bool)
  : M unit :=
  call (Copy (path_resolve cwd src) dst recursive overwrite dereference)
       (fs.copy (path_base cwd src) (segments src) dst overwrite dereference).

Definition fs_ensureDir (d : path) : M unit :=
  call (EnsureDir d) (fs.ensureDir d).

(** [fs.ensureDir] on a path string as it is given. *)
Definition fs_ensureDir_at (dir : string) : M unit :=
  call (EnsureDir (path_resolve cwd dir)) (fs.ensureDirs (path_named cwd dir)).

Definition fs_mkdir (d : path) (recursive : bool) : M unit :=
  call (Mkdir d recursive) (fs.ensureDir d).

Definition fs_writeFile (file : path) (data : string) : M unit :=
  call (WriteFile file data) (fs.writeFile file data).

Definition fs_ensureSymlink (src dst : path) (kind : string) : M unit :=
  call (EnsureSymlink src dst kind) (fs.ensureSymlink src dst kind).

Definition fs_move (src dst : path) (overwrite : bool) : M unit :=
  call (Move src dst overwrite) (fs.move src dst overwrite).

Definition fs_remove (p : path) : M unit :=
  call (Remove p) (fs.remove p).

(** [fs.writeJSON] writes the array's serialisation and a final newline. *)
Definition manifest_text (l : list Bundled.t) : string :=
  "[" ++ join "," (map JSON_stringify l) ++ "]" ++ newline.

Definition fs_writeJSON (file : path) (obj : list Bundled.t) : M unit :=
  call (WriteJSON file obj) (fs.writeFile file (manifest_text obj)).

Definition getSourcePlugins : M (list Installed.t) :=
  call GetSourcePlugins ext_getSourcePlugins.

Definition getPluginSourceFolders : M (list path) :=
  call GetPluginSourceFolders ext_getPluginSourceFolders.

Definition getAppWatchFolders : M (list path) :=
  call GetAppWatchFolders ext_getAppWatchFolders.

Definition getWatchFolders (d : path) : M (list path) :=
  call (GetWatchFolders d) (ext_getWatchFolders d).

Definition runBuild (pluginDir : path) (dev : bool) : M unit :=
  call (RunBuild pluginDir dev) (ext_runBuild pluginDir dev).

(** The script calls [stripSourceMapComment] as a statement. *)
Definition stripSourceMapComment (out : path) : M unit :=
  call (StripSourceMapComment out) (ext_stripSourceMapComment out).

Definition Metro_loadConfig : M Metro.LoadedConfig :=
  call LoadConfig ext_Metro_loadConfig.

Definition Metro_runBuild (config : Metro.Config) (options : Metro.Options) : M unit :=
  call (MetroRunBuild config options) (ext_Metro_runBuild config options).

(** *** The script *)

Definition dev : bool :=
  negb (match NODE_ENV with Some v => v =? "production" | None => false end).

(** For insiders builds: the top five device plugins and the top ten
    universal plugins. *)
Definition hardcodedPlugins : list string :=
  [ "DeviceLogs"; "CrashReporter"; "MobileBuilds"; "Hermesdebuggerrn"; "React";
    "Inspector"; "Network"; "AnalyticsLogging"; "GraphQL"; "UIPerf";
    "MobileConfig"; "Databases"; "FunnelLogger"; "Navigation"; "Fresco";
    "Preferences" ].

(** [Set.prototype.has]. *)
Definition has (set : list string) (x : string) : bool :=
  existsb (String.eqb x) set.

Definition die (err : Error) : M unit :=
  console_error "Script termnated." err ;;
  process_exit 1.

(** The value an optional string shows inside a template string. *)
Definition shown (v : option string) : string :=
  match v with Some s => s | None => "undefined" end.

(** The object literal of [generateDefaultPluginEntryPoints]. *)
Definition bundledPlugin (p : Installed.t) : Bundled.t :=
  {| Bundled.id := Installed.id p;
     Bundled.name := Installed.name p;
     Bundled.details := Installed.details p;
     Bundled.isBundled := true;
     Bundled.version :=
       if Installed.version p =? "0.0.0" then version else Installed.version p;
     Bundled.flipperSDKVersion :=
       match Installed.flipperSDKVersion p with
       | Some v => if v =? "0.0.0" then Some version else Some v
       | None => None
       end;
     Bundled.dir := None;
     Bundled.entry := None |}.

Definition pluginRequire (x : Bundled.t) : string :=
  "  '" ++ Bundled.name x ++ "': tryRequire('" ++ Bundled.name x
  ++ "', () => require('" ++ Bundled.name x ++ "'))".

Definition generatedIndex (pluginRequres : string) : string :=
  join newline
    [ "";
      "  /* eslint-disable */";
      "  // THIS FILE IS AUTO-GENERATED by function " ++ dquote
        ++ "generateDefaultPluginEntryPoints" ++ dquote ++ " in " ++ dquote
        ++ "build-utils.ts" ++ dquote ++ ".";
      "";
      "  declare const require: any;";
      "";
      "  // This function exists to make sure that if one require fails in its module initialisation, not everything fails";
      "  function tryRequire(module: string, fn: () => any): any {";
      "    try {";
      "      return fn();";
      "    } catch (e) {";
      "      console.error(`Could not require ${module}: `, e)";
      "      return {};";
      "    }";
      "  }";
      "";
      "  export default {";
      pluginRequres;
      "} as any";
      "  " ].

Definition bundled_json : path := path_join defaultPluginsDir "bundled.json".

Definition defaultPlugins_src (tree : path) : path :=
  path_join (path_join tree "src") "defaultPlugins".

Definition index_tsx (tree : path) : path :=
  path_join (defaultPlugins_src tree) "index.tsx".

Definition generateDefaultPluginEntryPoints (defaultPlugins : list Installed.t) : M unit :=
  console_log ("⚙️  Generating entry points for "
               ++ string_of_nat (length defaultPlugins) ++ " bundled plugins...") ;;
  let bundledPlugins := map bundledPlugin defaultPlugins in
  fs_writeJSON bundled_json bundledPlugins ;;
  let pluginRequres := join ("," ++ newline) (map pluginRequire bundledPlugins) in
  let generatedIndex := generatedIndex pluginRequres in
  fs_ensureDir (defaultPlugins_src appDir) ;;
  fs_writeFile (index_tsx appDir) generatedIndex ;;
  fs_ensureDir (defaultPlugins_src browserUiDir) ;;
  fs_writeFile (index_tsx browserUiDir) generatedIndex ;;
  console_log "✅  Generated bundled plugin entry points.".

Definition buildDefaultPlugins (defaultPlugins : list Installed.t) : M unit :=
  noRebuild <- process_env "FLIPPER_NO_REBUILD_PLUGINS" ;;
  when (truthy noRebuild)
    (console_log ("⚙️  Including " ++ string_of_nat (length defaultPlugins)
       ++ " plugins into the default plugins list. Skipping rebuilding because "
       ++ dquote ++ "no-rebuild-plugins" ++ dquote
       ++ " option provided. List of default plugins: "
       ++ join ", " (map Installed.id defaultPlugins))) ;;
  for_of defaultPlugins (fun plugin =>
    try_catch
      (noRebuild <- process_env "FLIPPER_NO_REBUILD_PLUGINS" ;;
       when (negb (truthy noRebuild))
         (console_log ("⚙️  Building plugin " ++ Installed.id plugin
            ++ " to include it into the default plugins list...") ;;
          runBuild (path_resolve cwd (Installed.dir plugin)) dev) ;;
       fs_ensureSymlink (path_resolve cwd (Installed.dir plugin))
                        (path_join defaultPluginsDir (Installed.name plugin))
                        "junction")
      (fun err => console_error ("✖ Failed to build plugin " ++ Installed.id plugin) err)).

(** The plugins [prepareDefaultPlugins] keeps of the source plugins. *)
Definition defaultPlugins_of (isInsidersBuild : bool) (sourcePlugins : list Installed.t)
  : list Installed.t :=
  filter (fun p => negb isInsidersBuild || has hardcodedPlugins (Installed.id p))
         sourcePlugins.

Definition prepareDefaultPlugins (isInsidersBuild : bool) : M unit :=
  console_log ("⚙️  Preparing default plugins (isInsidersBuild="
               ++ string_of_bool isInsidersBuild ++ ")...") ;;
  fs_emptyDir defaultPluginsDir ;;
  forcedDefaultPluginsDir <- process_env "FLIPPER_DEFAULT_PLUGINS_DIR" ;;
  (if truthy forcedDefaultPluginsDir then
     console_log ("⚙️  Copying the provided default plugins dir " ++ dquote
                  ++ shown forcedDefaultPluginsDir ++ dquote ++ "...") ;;
     fs_copy (shown forcedDefaultPluginsDir) defaultPluginsDir true true true ;;
     console_log "✅  Copied the provided default plugins dir." ;;
     generateDefaultPluginEntryPoints []
   else
     noDefaultPlugins <- process_env "FLIPPER_NO_DEFAULT_PLUGINS" ;;
     sourcePlugins <- (if truthy noDefaultPlugins then ret []
                       else getSourcePlugins) ;;
     let defaultPlugins := defaultPlugins_of isInsidersBuild sourcePlugins in
     noBundledPlugins <- process_env "FLIPPER_NO_BUNDLED_PLUGINS" ;;
     if truthy noBundledPlugins then
       buildDefaultPlugins defaultPlugins ;;
       generateDefaultPluginEntryPoints []
     else
       generateDefaultPluginEntryPoints defaultPlugins) ;;
  console_log "✅  Prepared default plugins.".

Definition minifierConfig : Metro.Minifier :=
  {| Metro.minifierPath := terserPath;
     Metro.minifierConfig :=
       {| Metro.keep_fnames := true;
          Metro.module := true;
          Metro.warnings := true;
          Metro.mangle := false;
          Metro.compress := false |} |}.

Definition compile (buildFolder : string) (projectRoot : path)
    (watchFolders : list path) (entry : path) : M unit :=
  let out := path_join (path_resolve cwd buildFolder) "bundle.js" in
  Metro_runBuild
    {| Metro.loaded := None;
       Metro.projectRoot := projectRoot;
       Metro.watchFolders := Some watchFolders;
       Metro.serializer := true;
       Metro.transformer :=
         {| Metro.babelTransformerPath := path_join babelTransformationsDir "transform-app";
            Metro.minifier := minifierConfig |};
       Metro.resolver :=
         {| Metro.resolverMainFields := ["flipperBundlerEntry"; "module"; "main"];
            Metro.blacklistRE := Some "\.native\.js$";
            Metro.sourceExts := ["js"; "jsx"; "ts"; "tsx"; "json"; "mjs"; "cjs"] |} |}
    {| Metro.platform := None;
       Metro.dev := dev;
       Metro.minify := negb dev;
       Metro.resetCache := negb dev;
       Metro.sourceMap := true;
       Metro.sourceMapUrl := if dev then Some "bundle.map" else None;
       Metro.inlineSourceMap := false;
       Metro.entry := entry;
       Metro.out := out |} ;;
  when (negb dev) (stripSourceMapComment out).

Definition compileRenderer (buildFolder : string) : M unit :=
  console_log "⚙️  Compiling renderer bundle..." ;;
  appWatchFolders <- getAppWatchFolders ;;
  pluginSourceFolders <- getPluginSourceFolders ;;
  let watchFolders := (appWatchFolders ++ pluginSourceFolders)%list in
  try_catch
    (compile buildFolder appDir watchFolders
             (path_join (path_join appDir "src") "init.tsx") ;;
     console_log "✅  Compiled renderer bundle.")
    die.

Definition moveSourceMaps (buildFolder : string) (sourceMapFolder : option string) : M unit :=
  console_log "⚙️  Moving source maps..." ;;
  let mainBundleMap := path_join (path_resolve cwd buildFolder) "bundle.map" in
  let rendererBundleMap := path_join staticDir "main.bundle.map" in
  if truthy sourceMapFolder then
    fs_ensureDir_at (shown sourceMapFolder) ;;
    fs_move mainBundleMap
            (path_join (path_resolve cwd (shown sourceMapFolder)) "bundle.map") true ;;
    fs_move rendererBundleMap
            (path_join (path_resolve cwd (shown sourceMapFolder)) "main.bundle.map") true ;;
    console_log ("✅  Moved to " ++ shown sourceMapFolder ++ ".")
  else
    fs_remove mainBundleMap ;;
    fs_remove rendererBundleMap ;;
    console_log "⏭  Removing source maps.".

Definition compileMain : M unit :=
  let out := path_join staticDir "main.bundle.js" in
  process_env_set "FLIPPER_ELECTRON_VERSION" electronVersion ;;
  console_log "⚙️  Compiling main bundle..." ;;
  try_catch
    (loadedConfig <- Metro_loadConfig ;;
     watchFolders <- getWatchFolders staticDir ;;
     let config :=
       {| Metro.loaded := Some loadedConfig;
          Metro.projectRoot := staticDir;
          Metro.watchFolders := Some watchFolders;
          Metro.serializer := false;
          Metro.transformer :=
            {| Metro.babelTransformerPath :=
                 path_join babelTransformationsDir "transform-main";
               Metro.minifier := minifierConfig |};
          Metro.resolver :=
            {| Metro.sourceExts := ["tsx"; "ts"; "js"];
               Metro.resolverMainFields := ["flipperBundlerEntry"; "module"; "main"];
               Metro.blacklistRE := Some "\.native\.js$" |} |} in
     Metro_runBuild config
       {| Metro.platform := Some "web";
          Metro.entry := path_join staticDir "main.ts";
          Metro.out := out;
          Metro.dev := dev;
          Metro.minify := negb dev;
          Metro.sourceMap := true;
          Metro.sourceMapUrl := if dev then Some "main.bundle.map" else None;
          Metro.inlineSourceMap := false;
          Metro.resetCache := negb dev |} ;;
     console_log "✅  Compiled main bundle." ;;
     when (negb dev) (stripSourceMapComment out))
    die.

Definition compileServerMain : M unit :=
  fs_mkdir (path_join serverDir "dist") true ;;
  let out := path_join (path_join serverDir "dist") "index.js" in
  console_log "⚙️  Compiling server bundle..." ;;
  loadedConfig <- Metro_loadConfig ;;
  let config :=
    {| Metro.loaded := Some loadedConfig;
       Metro.projectRoot := rootDir;
       Metro.watchFolders := None;
       Metro.serializer := false;
       Metro.transformer :=
         {| Metro.babelTransformerPath :=
              path_join babelTransformationsDir "transform-server";
            Metro.minifier := minifierConfig |};
       Metro.resolver :=
         {| Metro.sourceExts := ["tsx"; "ts"; "js"; "json"];
            Metro.resolverMainFields := ["flipperBundlerEntry"; "module"; "main"];
            Metro.blacklistRE := None |} |} in
  Metro_runBuild config
    {| Metro.platform := Some "node";
       Metro.entry := path_join (path_join serverDir "src") "index.tsx";
       Metro.out := out;
       Metro.dev := dev;
       Metro.minify := negb dev;
       Metro.sourceMap := true;
       Metro.sourceMapUrl := if dev then Some "index.map" else None;
       Metro.inlineSourceMap := false;
       Metro.resetCache := negb dev |} ;;
  console_log "✅  Compiled server bundle." ;;
  when (negb dev) (stripSourceMapComment out).

End Script.

(** ** A concrete host

    A small repository layout with three source plugins, used to run the
    script on concrete states. *)

Module Demo.

Definition root : path := ["repo"; "desktop"].

Definition plugin (id dir sdk : string) : Installed.t :=
  {| Installed.id := id;
     Installed.name := "flipper-plugin-" ++ id;
     Installed.version := "0.0.0";
     Installed.flipperSDKVersion := Some sdk;
     Installed.dir := dir;
     Installed.entry := dir ++ "/dist/bundle.js";
     Installed.details := [("title", id)] |}.

Definition plugins : list Installed.t :=
  [ plugin "Network" "/repo/plugins/network" "0.0.0";
    plugin "Sandbox" "/repo/plugins/sandbox" "0.99.0";
    plugin "Inspector" "/repo/plugins/layout" "0.0.0" ].

(** The engine fails when [engineError] is given; the plugin build fails
    for the plugin in [/repo/plugins/network] when [brokenBuild] is set. *)
Definition host (node_env : option string) (engineError : option Error)
    (brokenBuild : bool) : Host :=
  {| version := "0.150.0";
     NODE_ENV := node_env;
     terserPath := "/repo/node_modules/metro-minify-terser/src/index.js";
     electronVersion := "18.2.0";
     cwd := (root ++ ["scripts"])%list;
     appDir := (root ++ ["app"])%list;
     staticDir := (root ++ ["static"])%list;
     defaultPluginsDir := (root ++ ["static"; "defaultPlugins"])%list;
     babelTransformationsDir := (root ++ ["babel-transformer"; "src"])%list;
     serverDir := (root ++ ["flipper-server"])%list;
     rootDir := root;
     browserUiDir := (root ++ ["flipper-ui-browser"])%list;
     JSON_stringify := fun b =>
       "{" ++ dquote ++ "id" ++ dquote ++ ":" ++ dquote ++ Bundled.id b ++ dquote
       ++ "," ++ dquote ++ "version" ++ dquote ++ ":" ++ dquote ++ Bundled.version b
       ++ dquote ++ "}";
     ext_getSourcePlugins := fun f => (Ok plugins, f);
     ext_getPluginSourceFolders := fun f => (Ok [["repo"; "plugins"]], f);
     ext_getAppWatchFolders := fun f => (Ok [(root ++ ["app"])%list], f);
     ext_getWatchFolders := fun d f => (Ok [d], f);
     ext_runBuild := fun d _ f =>
       if brokenBuild && path_eqb d ["repo"; "plugins"; "network"]
       then (Err "plugin build failed", f)
       else (Ok tt, f);
     ext_stripSourceMapComment := fun _ f => (Ok tt, f);
     ext_Metro_loadConfig := fun f => (Ok [("maxWorkers", "4")], f);
     ext_Metro_runBuild := fun _ o f =>
       match engineError with
       | Some e => (Err e, f)
       | None =>
           (Ok tt, fun q => if path_eqb q (Metro.out o) then Some (File "bundle") else f q)
       end |}.

(** Directories of the layout, the three plugin directories, a manifest
    of an earlier run, and the two source maps left behind by a build in
    [/tmp/flipper-build-1]. *)
Definition disk : FS :=
  fun q =>
    if existsb (path_eqb q)
         [ ["tmp"; "flipper-build-1"; "bundle.map"];
           (root ++ ["static"; "main.bundle.map"])%list;
           (root ++ ["static"; "defaultPlugins"; "bundled.json"])%list ]
    then Some (File "old")
    else if existsb (path_eqb q)
         [ []; ["tmp"]; ["tmp"; "flipper-build-1"]; ["repo"]; root;
           (root ++ ["app"])%list; (root ++ ["static"])%list;
           (root ++ ["static"; "defaultPlugins"])%list; (root ++ ["flipper-server"])%list;
           (root ++ ["flipper-ui-browser"])%list; ["repo"; "plugins"];
           ["repo"; "plugins"; "network"]; ["repo"; "plugins"; "sandbox"];
           ["repo"; "plugins"; "layout"]; ["prebuilt"] ]
    then Some Dir
    else None.

Definition environment (vars : list (string * string)) : string -> option string :=
  fun v => option_map snd (find (fun kv => fst kv =? v) vars).

Definition state (vars : list (string * string)) : State :=
  mkState disk (environment vars).

End Demo.

(** ** Hosts of the concrete runs *)

(** A development host whose collaborators all succeed. *)
Definition devHost : Host := Demo.host None None false.

(** A production host whose collaborators all succeed. *)
Definition productionHost : Host := Demo.host (Some "production") None false.

(** A host on which the engine throws. *)
Definition failingEngineHost : Host := Demo.host None (Some "engine failed") false.

(** A host on which the build of the first plugin throws. *)
Definition brokenPluginHost : Host := Demo.host None None true.

(** ** The rest of the script

    The workspace provisioner, the version number and the revision
    lookup.  [tmp.dir] and [spawn] are taken like the other collaborators;
    they act on the file system and leave no event of their own. *)

(** [String.prototype.split] on a one-character separator. *)
Fixpoint split_from (sep : ascii) (s cur : string) : list string :=
  match s with
  | EmptyString => [cur]
  | String c rest =>
      if Ascii.eqb c sep then cur :: split_from sep rest EmptyString
      else split_from sep rest (cur ++ String c EmptyString)
  end.

Definition split (sep : ascii) (s : string) : list string :=
  split_from sep s EmptyString.

(** A JavaScript number, by what a script can see of it without doing
    arithmetic: whether it is falsy, as [0], [-0] and [NaN] are, and the
    string it converts to, [1e+21] for ten to the power 21 and [1.5] for
    one and a half. *)
Record Number : Type := {
  is_falsy : bool;
  toString : string
}.

Definition string_of_Z (z : Z) : string :=
  NilZero.string_of_int (Z.to_int z).

(** The number an integer is whose magnitude is at most 2^53: it is
    falsy when it is zero and converts to its plain decimal form. *)
Definition Number_of_Z (z : Z) : Number :=
  {| is_falsy := Z.eqb z 0; toString := string_of_Z z |}.

(** What a child process wrote: a string, a buffer, or nothing. *)
Inductive Output : Type :=
| Text (s : string)
| Buffer (bytes : string)
| NoOutput.

Record ChildProcess : Type := {
  stdout : Output;
  stderr : Output
}.

Class Tools : Type := {
  (* tmp.dir({prefix}, callback) *)
  ext_tmp_dir : string -> FS -> result string * FS;
  (* spawn(command, args, {encoding: 'utf8'}) *)
  ext_spawn : string -> list string -> FS -> result (option ChildProcess) * FS
}.

(** An action of a collaborator that is not recorded. *)
Definition outside {A} (sem : FS -> result A * FS) : M A :=
  fun s =>
    let (r, f) := sem (files s) in
    mkRun (match r with Ok a => Returned a | Err e => Thrown e end)
          (mkState f (env s))
          [].

Section Workspace.

Context {host : Host} {tools : Tools}.

Definition tmp_dir (prefix : string) : M string :=
  outside (ext_tmp_dir prefix).

Definition spawn (command : string) (args : list string) : M (option ChildProcess) :=
  outside (ext_spawn command args).

Definition buildFolder : M string :=
  console_log "Creating build directory" ;;
  try_catch (tmp_dir "flipper-build-")
            (fun e => die e ;; ret "").

(** [buildNumber] is a number or [undefined].  The condition looks at
    whether the number is falsy, [join] at the string it converts to. *)
Definition getVersionNumber (buildNumber : option Number) : string :=
  match buildNumber with
  | Some n =>
      if is_falsy n then version
      else join "." (firstn 2 (split "." version) ++ [toString n])%list
  | None => version
  end.

(** [typeof res.stdout === 'string' ? res.stdout : res.stdout?.toString()]. *)
Definition stdout_string (res : ChildProcess) : option string :=
  match stdout res with
  | Text s => Some s
  | Buffer bytes => Some bytes
  | NoOutput => None
  end.

Definition genMercurialRevision : M (option string) :=
  try_catch
    (res <- spawn "hg" ["log"; "-r"; "."; "-T"; "{node}"] ;;
     ret (match res with
          | Some r => if truthy (stdout_string r) then stdout_string r else None
          | None => None
          end))
    (fun _ => ret None).

End Workspace.

(** A host on which the watch folders of the application cannot be found. *)
Definition lostFoldersHost : Host :=
  {| version := @version devHost;
     NODE_ENV := @NODE_ENV devHost;
     terserPath := @terserPath devHost;
     electronVersion := @electronVersion devHost;
     cwd := @cwd devHost;
     appDir := @appDir devHost;
     staticDir := @staticDir devHost;
     defaultPluginsDir := @defaultPluginsDir devHost;
     babelTransformationsDir := @babelTransformationsDir devHost;
     serverDir := @serverDir devHost;
     rootDir := @rootDir devHost;
     browserUiDir := @browserUiDir devHost;
     JSON_stringify := @JSON_stringify devHost;
     ext_getSourcePlugins := @ext_getSourcePlugins devHost;
     ext_getPluginSourceFolders := @ext_getPluginSourceFolders devHost;
     ext_getAppWatchFolders := fun f => (Err "no watch folders", f);
     ext_getWatchFolders := @ext_getWatchFolders devHost;
     ext_runBuild := @ext_runBuild devHost;
     ext_stripSourceMapComment := @ext_stripSourceMapComment devHost;
     ext_Metro_loadConfig := @ext_Metro_loadConfig devHost;
     ext_Metro_runBuild := @ext_Metro_runBuild devHost |}.

(** The demo state after the main bundle's source map was lost. *)
Definition stateWithoutMainMap : State :=
  mkState (fun q => if path_eqb q ["repo"; "desktop"; "static"; "main.bundle.map"]
                    then None else Demo.disk q)
          (Demo.environment []).

(** The demo state with an override directory in the environment: the
    directory holds one plugin with its manifest, and a link to that
    plugin under a second name. *)
Definition stateWithOverride : State :=
  mkState (fun q =>
             if path_eqb q ["prebuilt"; "flipper-plugin-a"] then Some Dir
             else if path_eqb q ["prebuilt"; "flipper-plugin-a"; "package.json"]
             then Some (File "{}")
             else if path_eqb q ["prebuilt"; "latest"]
             then Some (Link ["prebuilt"; "flipper-plugin-a"] "dir")
             else Demo.disk q)
          (Demo.environment [("FLIPPER_DEFAULT_PLUGINS_DIR", "/prebuilt")]).

(** * Statements

    What the properties below are stated with: the events, calls and
    final state of a run, and what the script is expected to record. *)

(** The run [r] after the events [evs]. *)
Definition prepend {A} (evs : list Event) (r : Run A) : Run A :=
  mkRun (result_of r) (final r) (evs ++ events r).

(** [always P m]: from every state, every event [m] records satisfies [P]. *)
Definition always {A} (P : Event -> Prop) (m : M A) : Prop :=
  forall s, Forall P (events (m s)).

(** The calls among the events, in order. *)
Fixpoint calls_of (evs : list Event) : list Call :=
  match evs with
  | [] => []
  | Called c _ :: rest => c :: calls_of rest
  | _ :: rest => calls_of rest
  end.

(** [proceeds m s script]: the calls [m] makes from [s] are the calls of
    [script] up to the first one that throws, and all of them when [m]
    returns. *)
Definition proceeds {A} (m : M A) (s : State) (script : list Call) : Prop :=
  (exists n, calls_of (events (m s)) = firstn n script)
  /\ (forall a, result_of (m s) = Returned a -> calls_of (events (m s)) = script).

(** [ensures m s Q]: when [m] returns from [s], its value and final state
    satisfy [Q]. *)
Definition ensures {A} (m : M A) (s : State) (Q : A -> State -> Prop) : Prop :=
  match result_of (m s) with
  | Returned a => Q a (final (m s))
  | _ => True
  end.

(** [Subsequence l1 l2]: [l1] is [l2] with some elements left out. *)
Inductive Subsequence {A : Type} : list A -> list A -> Prop :=
| Subsequence_nil : Subsequence [] []
| Subsequence_skip x l1 l2 : Subsequence l1 l2 -> Subsequence l1 (x :: l2)
| Subsequence_keep x l1 l2 : Subsequence l1 l2 -> Subsequence (x :: l1) (x :: l2).

Section Statements.

Context {host : Host}.

(** The plugin ids of the manifest an event writes. *)
Definition manifest_ids (ev : Event) : list string :=
  match ev with
  | Called (WriteJSON _ obj) _ => map Bundled.id obj
  | _ => []
  end.

(** The loader module generated for a list of plugins. *)
Definition loader_text (l : list Installed.t) : string :=
  generatedIndex (join ("," ++ newline) (map pluginRequire (map bundledPlugin l))).

(** What a descriptor becomes in the manifest. *)
Definition promoted (p : Installed.t) (b : Bundled.t) : Prop :=
  (Installed.version p = "0.0.0" -> Bundled.version b = version)
  /\ (Installed.version p <> "0.0.0" -> Bundled.version b = Installed.version p)
  /\ (Installed.flipperSDKVersion p = Some "0.0.0" ->
      Bundled.flipperSDKVersion b = Some version)
  /\ (Installed.flipperSDKVersion p <> Some "0.0.0" ->
      Bundled.flipperSDKVersion b = Installed.flipperSDKVersion p)
  /\ Bundled.isBundled b = true
  /\ Bundled.dir b = None
  /\ Bundled.entry b = None
  /\ Bundled.id b = Installed.id p
  /\ Bundled.name b = Installed.name p
  /\ Bundled.details b = Installed.details p.

(** The manifest an event writes, as file and content. *)
Definition manifest_of (ev : Event) : option (path * string) :=
  match ev with
  | Called (WriteJSON file obj) _ => Some (file, manifest_text obj)
  | _ => None
  end.

(** The manifests written in a run, in order. *)
Definition manifests_written (evs : list Event) : list (path * string) :=
  flat_map (fun ev => match manifest_of ev with Some w => [w] | None => [] end) evs.

(** The load statement of one plugin in the loader module. *)
Definition loadStatement (name : string) : string :=
  "  '" ++ name ++ "': tryRequire('" ++ name ++ "', () => require('" ++ name ++ "'))".

(** The loader module an event writes. *)
Definition loader_of (ev : Event) : option string :=
  match ev with
  | Called (WriteFile _ data) _ => Some data
  | _ => None
  end.

(** The script of [prepareDefaultPlugins] after the directory is reset. *)
Definition prepare_after_reset (isInsidersBuild : bool) : M unit :=
  forcedDefaultPluginsDir <- process_env "FLIPPER_DEFAULT_PLUGINS_DIR" ;;
  (if truthy forcedDefaultPluginsDir then
     console_log ("⚙️  Copying the provided default plugins dir " ++ dquote
                  ++ shown forcedDefaultPluginsDir ++ dquote ++ "...") ;;
     fs_copy (shown forcedDefaultPluginsDir) defaultPluginsDir true true true ;;
     console_log "✅  Copied the provided default plugins dir." ;;
     generateDefaultPluginEntryPoints []
   else
     noDefaultPlugins <- process_env "FLIPPER_NO_DEFAULT_PLUGINS" ;;
     sourcePlugins <- (if truthy noDefaultPlugins then ret []
                       else getSourcePlugins) ;;
     let defaultPlugins := defaultPlugins_of isInsidersBuild sourcePlugins in
     noBundledPlugins <- process_env "FLIPPER_NO_BUNDLED_PLUGINS" ;;
     if truthy noBundledPlugins then
       buildDefaultPlugins defaultPlugins ;;
       generateDefaultPluginEntryPoints []
     else
       generateDefaultPluginEntryPoints defaultPlugins) ;;
  console_log "✅  Prepared default plugins.".

(** The disk as the reset of the default-plugins directory leaves it. *)
Definition reset_disk (s : State) : FS :=
  snd (fs.emptyDir defaultPluginsDir (files s)).

(** The entry the override directory holds at the names [r], as [fs.copy]
    with [dereference] reads it once the default-plugins directory is
    reset. *)
Definition override_entry (s : State) (r : list string) : option Entry :=
  fs.source true (reset_disk s)
    (path_base cwd (shown (env s "FLIPPER_DEFAULT_PLUGINS_DIR")))
    (segments (shown (env s "FLIPPER_DEFAULT_PLUGINS_DIR")))
    r.

(** The files the entry-point generator writes. *)
Definition generated (q : path) : Prop :=
  q = bundled_json \/ q = index_tsx appDir \/ q = index_tsx browserUiDir.

(** No plugin is enumerated, built or linked by the call. *)
Definition selects_builds_or_links (c : Call) : bool :=
  match c with
  | GetSourcePlugins | RunBuild _ _ | EnsureSymlink _ _ _ => true
  | _ => false
  end.

(** Whatever the event writes as manifest or loader module lists no plugin. *)
Definition writes_no_plugin (ev : Event) : Prop :=
  match ev with
  | Called (WriteJSON _ obj) _ => obj = []
  | Called (WriteFile _ data) _ => data = generatedIndex ""
  | _ => True
  end.

(** What one turn of the loop of [buildDefaultPlugins] does for a plugin:
    it builds unless rebuilding is off, links when the build went well,
    and reports the error of the step that threw. *)
Inductive attempt (noRebuild : bool) (plugin : Installed.t) : list Event -> Prop :=
| attempt_linked :
    noRebuild = true ->
    attempt noRebuild plugin
      [ Called (EnsureSymlink (path_resolve cwd (Installed.dir plugin))
                              (path_join defaultPluginsDir (Installed.name plugin))
                              "junction") None ]
| attempt_link_failed e :
    noRebuild = true ->
    attempt noRebuild plugin
      [ Called (EnsureSymlink (path_resolve cwd (Installed.dir plugin))
                              (path_join defaultPluginsDir (Installed.name plugin))
                              "junction") (Some e);
        LoggedError ("✖ Failed to build plugin " ++ Installed.id plugin) e ]
| attempt_built_linked msg :
    noRebuild = false ->
    attempt noRebuild plugin
      [ Logged msg;
        Called (RunBuild (path_resolve cwd (Installed.dir plugin)) dev) None;
        Called (EnsureSymlink (path_resolve cwd (Installed.dir plugin))
                              (path_join defaultPluginsDir (Installed.name plugin))
                              "junction") None ]
| attempt_built_link_failed msg e :
    noRebuild = false ->
    attempt noRebuild plugin
      [ Logged msg;
        Called (RunBuild (path_resolve cwd (Installed.dir plugin)) dev) None;
        Called (EnsureSymlink (path_resolve cwd (Installed.dir plugin))
                              (path_join defaultPluginsDir (Installed.name plugin))
                              "junction") (Some e);
        LoggedError ("✖ Failed to build plugin " ++ Installed.id plugin) e ]
| attempt_build_failed msg e :
    noRebuild = false ->
    attempt noRebuild plugin
      [ Logged msg;
        Called (RunBuild (path_resolve cwd (Installed.dir plugin)) dev) (Some e);
        LoggedError ("✖ Failed to build plugin " ++ Installed.id plugin) e ].

(** The body of the loop. *)
Definition build_and_link (plugin : Installed.t) : M unit :=
  try_catch
    (noRebuild <- process_env "FLIPPER_NO_REBUILD_PLUGINS" ;;
     when (negb (truthy noRebuild))
       (console_log ("⚙️  Building plugin " ++ Installed.id plugin
          ++ " to include it into the default plugins list...") ;;
        runBuild (path_resolve cwd (Installed.dir plugin)) dev) ;;
     fs_ensureSymlink (path_resolve cwd (Installed.dir plugin))
                      (path_join defaultPluginsDir (Installed.name plugin))
                      "junction")
    (fun err => console_error ("✖ Failed to build plugin " ++ Installed.id plugin) err).

(** The three bundles, with what the script fixes for each: the function
    that compiles it, the bundle file and the name of its source map. *)
Inductive BuildTarget : Type :=
| Renderer (buildFolder : string)
| Main
| Server.

Definition compileTarget (t : BuildTarget) : M unit :=
  match t with
  | Renderer buildFolder => compileRenderer buildFolder
  | Main => compileMain
  | Server => compileServerMain
  end.







End Statements.

(** ** Further statements *)

(** [lacks sep s]: the character does not occur in the string. *)
Fixpoint lacks (sep : ascii) (s : string) : Prop :=
  match s with
  | EmptyString => True
  | String c rest => Ascii.eqb c sep = false /\ lacks sep rest
  end.

(** The error of a call that threw. *)
Definition thrown_by (ev : Event) : option Error :=
  match ev with
  | Called _ r => r
  | _ => None
  end.

(** [escapes P m]: a call of [m] that throws is one of [P], or [m] throws
    its error. *)
Definition escapes {A} (P : Call -> Prop) (m : M A) : Prop :=
  forall s c e,
    In (Called c (Some e)) (events (m s)) -> P c \/ result_of (m s) = Thrown e.

(** [never_exits m]: [m] returns or throws, it does not end the process. *)
Definition never_exits {A} (m : M A) : Prop :=
  forall s code, result_of (m s) <> Exited code.

(** The call builds or links one plugin. *)
Definition builds_or_links (c : Call) : Prop :=
  match c with
  | RunBuild _ _ | EnsureSymlink _ _ _ => True
  | _ => False
  end.

(** A descriptor without the placeholder version, marked as bundled and
    without source location. *)
Definition settled (b : Bundled.t) : Prop :=
  Bundled.version b <> "0.0.0"
  /\ Bundled.flipperSDKVersion b <> Some "0.0.0"
  /\ Bundled.isBundled b = true
  /\ Bundled.dir b = None
  /\ Bundled.entry b = None.

(** The call is the build of a plugin. *)
Definition is_build_call (c : Call) : bool :=
  match c with
  | RunBuild _ _ => true
  | _ => false
  end.

(** The call is the link of a plugin. *)
Definition is_link_call (c : Call) : bool :=
  match c with
  | EnsureSymlink _ _ _ => true
  | _ => false
  end.

Section FurtherStatements.

Context {host : Host}.

(** The build and the link [buildDefaultPlugins] calls for a plugin. *)
Definition build_call (p : Installed.t) : Call :=
  RunBuild (path_resolve cwd (Installed.dir p)) dev.

Definition link_call (p : Installed.t) : Call :=
  EnsureSymlink (path_resolve cwd (Installed.dir p))
                (path_join defaultPluginsDir (Installed.name p)) "junction".

End FurtherStatements.

(** * Properties *)

(** ** Paths *)

Lemma path_eqb_eq (p q : path) : path_eqb p q = true <-> p = q.
Proof.
  revert q; induction p as [|a p IH]; intros [|b q]; simpl; split;
    try discriminate; try reflexivity.
  - intros H. apply andb_true_iff in H as [Hab Hpq].
    apply String.eqb_eq in Hab. apply IH in Hpq. now subst.
  - intros H. injection H as -> ->. rewrite String.eqb_refl. now apply IH.
Qed.

Lemma path_eqb_refl (p : path) : path_eqb p p = true.
Proof. now apply path_eqb_eq. Qed.

Lemma path_eqb_neq (p q : path) : p <> q -> path_eqb p q = false.
Proof.
  intros H. destruct (path_eqb p q) eqn:E; [|reflexivity].
  apply path_eqb_eq in E. contradiction.
Qed.

Lemma is_prefix_iff (p q : path) :
  is_prefix p q = true <-> exists r, q = (p ++ r)%list.
Proof.
  revert q; induction p as [|a p IH]; intros q; simpl.
  - split; [intros _; now exists q | reflexivity].
  - destruct q as [|b q].
    + split; [discriminate | intros [r Hr]; discriminate].
    + rewrite andb_true_iff, String.eqb_eq, IH. split.
      * intros [-> [r ->]]. now exists r.
      * intros [r Hr]. injection Hr as -> ->. split; [reflexivity | now exists r].
Qed.

Lemma is_prefix_refl (p : path) : is_prefix p p = true.
Proof. apply is_prefix_iff. exists []. now rewrite app_nil_r. Qed.

Lemma strip_prefix_iff (p q r : path) :
  strip_prefix p q = Some r <-> q = (p ++ r)%list.
Proof.
  revert q; induction p as [|a p IH]; intros q; simpl.
  - split; [now intros [= ->] | now intros ->].
  - destruct q as [|b q]; [split; discriminate|].
    destruct (String.eqb_spec a b) as [->|Hab].
    + rewrite IH. split; [now intros -> | now intros [= ->]].
    + split; [discriminate | intros [= Hb _]; now symmetry in Hb].
Qed.

Lemma is_prefix_ancestors (q p : path) :
  is_prefix q p = true -> In q (ancestors p).
Proof.
  revert q; induction p as [|a p IH]; intros [|b q]; simpl; try discriminate; auto.
  intros H. apply andb_true_iff in H as [Hab Hq]. apply String.eqb_eq in Hab. subst b.
  right. apply in_map. now apply IH.
Qed.

(** Two paths that end in different segments are different, and neither
    is a proper part of the other's final segment. *)
Lemma snoc_neq (p q : path) (a b : string) :
  a <> b -> (p ++ [a])%list <> (q ++ [b])%list.
Proof. intros Hab H. apply app_inj_tail in H as [_ H]. contradiction. Qed.

Lemma is_prefix_app_r (p d r : path) :
  is_prefix p d = true -> is_prefix p (d ++ r)%list = true.
Proof.
  intros H. apply is_prefix_iff in H as [r' ->]. apply is_prefix_iff.
  exists (r' ++ r)%list. now rewrite app_assoc.
Qed.

Lemma is_prefix_neq (p q : path) : is_prefix p q = false -> path_eqb q p = false.
Proof.
  intros H. apply path_eqb_neq. intros ->. now rewrite is_prefix_refl in H.
Qed.

Lemma segments_from_nonempty (s cur : string) : segments_from s cur <> [].
Proof.
  revert cur. induction s as [|c s IH]; intros cur; simpl; [discriminate|].
  destruct (Ascii.eqb c "/"); [discriminate | apply IH].
Qed.

Lemma named_from_last (segs : list string) :
  forall base, segs <> [] -> In (fold_left enter segs base) (named_from base segs).
Proof.
  induction segs as [|seg segs IH]; intros base Hne; [contradiction|].
  simpl. destruct segs as [|seg' segs]; [now left|].
  right. apply IH. discriminate.
Qed.

(** The place a path string resolves to is the last one it names. *)
Lemma path_resolve_named (cwd : path) (s : string) :
  In (path_resolve cwd s) (path_named cwd s).
Proof.
  unfold path_resolve, path_named, path_base, path_join, segments.
  destruct (is_absolute s); apply named_from_last, segments_from_nonempty.
Qed.

(** ** Runs *)

Lemma events_bind {A B} (m : M A) (k : A -> M B) (s : State) :
  events (bind m k s) =
  (events (m s) ++
   match result_of (m s) with
   | Returned a => events (k a (final (m s)))
   | _ => []
   end)%list.
Proof.
  unfold bind. destruct (result_of (m s)); simpl; now rewrite ?app_nil_r.
Qed.

Lemma result_bind {A B} (m : M A) (k : A -> M B) (s : State) :
  result_of (bind m k s) =
  match result_of (m s) with
  | Returned a => result_of (k a (final (m s)))
  | Thrown e => Thrown e
  | Exited c => Exited c
  end.
Proof. unfold bind. now destruct (result_of (m s)). Qed.

Lemma final_bind {A B} (m : M A) (k : A -> M B) (s : State) :
  final (bind m k s) =
  match result_of (m s) with
  | Returned a => final (k a (final (m s)))
  | _ => final (m s)
  end.
Proof. unfold bind. now destruct (result_of (m s)). Qed.

Lemma events_try_catch {A} (m : M A) (h : Error -> M A) (s : State) :
  events (try_catch m h s) =
  (events (m s) ++
   match result_of (m s) with
   | Thrown e => events (h e (final (m s)))
   | _ => []
   end)%list.
Proof.
  unfold try_catch. destruct (result_of (m s)); simpl; now rewrite ?app_nil_r.
Qed.

Lemma result_try_catch {A} (m : M A) (h : Error -> M A) (s : State) :
  result_of (try_catch m h s) =
  match result_of (m s) with
  | Thrown e => result_of (h e (final (m s)))
  | r => r
  end.
Proof.
  unfold try_catch. destruct (result_of (m s)) eqn:E; simpl; congruence.
Qed.

Lemma final_try_catch {A} (m : M A) (h : Error -> M A) (s : State) :
  final (try_catch m h s) =
  match result_of (m s) with
  | Thrown e => final (h e (final (m s)))
  | _ => final (m s)
  end.
Proof. unfold try_catch. now destruct (result_of (m s)). Qed.

(** A call records exactly one event, and never ends the process. *)
Lemma events_call {A} (c : Call) (sem : FS -> result A * FS) (s : State) :
  events (call c sem s) = [Called c (failure (fst (sem (files s))))].
Proof. unfold call. now destruct (sem (files s)). Qed.

Lemma result_call {A} (c : Call) (sem : FS -> result A * FS) (s : State) :
  result_of (call c sem s) =
  match fst (sem (files s)) with Ok a => Returned a | Err e => Thrown e end.
Proof. unfold call. now destruct (sem (files s)). Qed.

Lemma final_call {A} (c : Call) (sem : FS -> result A * FS) (s : State) :
  final (call c sem s) = mkState (snd (sem (files s))) (env s).
Proof. unfold call. now destruct (sem (files s)). Qed.

Lemma events_bind_log {B} (msg : string) (k : unit -> M B) (s : State) :
  events (bind (console_log msg) k s) = Logged msg :: events (k tt s).
Proof. reflexivity. Qed.

Lemma events_bind_call {A B} (c : Call) (sem : FS -> result A * FS)
    (k : A -> M B) (s : State) :
  events (bind (call c sem) k s) =
  Called c (failure (fst (sem (files s)))) ::
  match fst (sem (files s)) with
  | Ok a => events (k a (mkState (snd (sem (files s))) (env s)))
  | Err _ => []
  end.
Proof.
  rewrite events_bind, events_call, result_call, final_call.
  now destruct (fst (sem (files s))).
Qed.

Lemma result_bind_log {B} (msg : string) (k : unit -> M B) (s : State) :
  result_of (bind (console_log msg) k s) = result_of (k tt s).
Proof. reflexivity. Qed.

Lemma final_bind_log {B} (msg : string) (k : unit -> M B) (s : State) :
  final (bind (console_log msg) k s) = final (k tt s).
Proof. reflexivity. Qed.

Lemma result_bind_call {A B} (c : Call) (sem : FS -> result A * FS)
    (k : A -> M B) (s : State) :
  result_of (bind (call c sem) k s) =
  match fst (sem (files s)) with
  | Ok a => result_of (k a (mkState (snd (sem (files s))) (env s)))
  | Err e => Thrown e
  end.
Proof.
  rewrite result_bind, result_call, final_call.
  now destruct (fst (sem (files s))).
Qed.

Lemma bind_process_env {B} (var : string) (k : option string -> M B) (s : State) :
  bind (process_env var) k s = k (env s var) s.
Proof. unfold bind, process_env. simpl. now destruct (k (env s var) s). Qed.

(** *** Running a computation call by call *)

Lemma bind_log {B} (msg : string) (k : unit -> M B) (s : State) :
  bind (console_log msg) k s = prepend [Logged msg] (k tt s).
Proof. reflexivity. Qed.

Lemma bind_log_error {B} (msg : string) (e : Error) (k : unit -> M B) (s : State) :
  bind (console_error msg e) k s = prepend [LoggedError msg e] (k tt s).
Proof. reflexivity. Qed.

Lemma bind_call {A B} (c : Call) (sem : FS -> result A * FS) (k : A -> M B)
    (s : State) :
  bind (call c sem) k s =
  match sem (files s) with
  | (Ok a, f) => prepend [Called c None] (k a (mkState f (env s)))
  | (Err e, f) => mkRun (Thrown e) (mkState f (env s)) [Called c (Some e)]
  end.
Proof. unfold bind, call. now destruct (sem (files s)) as [[a|e] f]. Qed.

Lemma call_run {A} (c : Call) (sem : FS -> result A * FS) (s : State) :
  call c sem s =
  match sem (files s) with
  | (Ok a, f) => mkRun (Returned a) (mkState f (env s)) [Called c None]
  | (Err e, f) => mkRun (Thrown e) (mkState f (env s)) [Called c (Some e)]
  end.
Proof. unfold call. now destruct (sem (files s)) as [[a|e] f]. Qed.

Lemma bind_ret {A B} (a : A) (k : A -> M B) (s : State) :
  bind (ret a) k s = k a s.
Proof. unfold bind, ret. simpl. now destruct (k a s). Qed.

Lemma bind_process_env_set {B} (var value : string) (k : unit -> M B) (s : State) :
  bind (process_env_set var value) k s =
  k tt (mkState (files s) (fun v => if v =? var then Some value else env s v)).
Proof. unfold bind, process_env_set. simpl. now destruct (k tt _). Qed.

Lemma bind_assoc {A B C} (m : M A) (k : A -> M B) (k' : B -> M C) (s : State) :
  bind (bind m k) k' s = bind m (fun a => bind (k a) k') s.
Proof.
  unfold bind. destruct (m s) as [[a|e|c] s1 evs]; simpl; try reflexivity.
  destruct (k a s1) as [[b|e|c] s2 evs']; simpl; try reflexivity.
  destruct (k' b s2) as [r s3 evs'']; simpl. now rewrite app_assoc.
Qed.

Lemma try_catch_ext {A} (m m' : M A) (h : Error -> M A) (s : State) :
  m s = m' s -> try_catch m h s = try_catch m' h s.
Proof. unfold try_catch. now intros ->. Qed.

Lemma try_catch_bind_assoc {A B C} (m : M A) (k : A -> M B) (k' : B -> M C)
    (h : Error -> M C) (s : State) :
  try_catch (bind (bind m k) k') h s = try_catch (bind m (fun a => bind (k a) k')) h s.
Proof. apply try_catch_ext, bind_assoc. Qed.

Lemma try_catch_bind_log {B} (msg : string) (k : unit -> M B) (h : Error -> M B)
    (s : State) :
  try_catch (bind (console_log msg) k) h s = prepend [Logged msg] (try_catch (k tt) h s).
Proof.
  unfold try_catch, bind, console_log, prepend. simpl.
  destruct (k tt s) as [[b|e|c] s1 evs]; simpl; try reflexivity.
Qed.

Lemma try_catch_bind_call {A B} (c : Call) (sem : FS -> result A * FS)
    (k : A -> M B) (h : Error -> M B) (s : State) :
  try_catch (bind (call c sem) k) h s =
  match sem (files s) with
  | (Ok a, f) => prepend [Called c None] (try_catch (k a) h (mkState f (env s)))
  | (Err e, f) => prepend [Called c (Some e)] (h e (mkState f (env s)))
  end.
Proof.
  unfold try_catch, bind, call, prepend.
  destruct (sem (files s)) as [[a|e] f]; simpl.
  - destruct (k a _) as [[b|e|c'] s1 evs]; simpl; reflexivity.
  - reflexivity.
Qed.

Lemma try_catch_bind_ret {A B} (a : A) (k : A -> M B) (h : Error -> M B) (s : State) :
  try_catch (bind (ret a) k) h s = try_catch (k a) h s.
Proof. apply try_catch_ext, bind_ret. Qed.

Lemma try_catch_call {A} (c : Call) (sem : FS -> result A * FS) (h : Error -> M A)
    (s : State) :
  try_catch (call c sem) h s =
  match sem (files s) with
  | (Ok a, f) => mkRun (Returned a) (mkState f (env s)) [Called c None]
  | (Err e, f) => prepend [Called c (Some e)] (h e (mkState f (env s)))
  end.
Proof.
  unfold try_catch, call, prepend. now destruct (sem (files s)) as [[a|e] f].
Qed.

Lemma try_catch_log (msg : string) (h : Error -> M unit) (s : State) :
  try_catch (console_log msg) h s = console_log msg s.
Proof. reflexivity. Qed.

Lemma try_catch_ret {A} (a : A) (h : Error -> M A) (s : State) :
  try_catch (ret a) h s = ret a s.
Proof. reflexivity. Qed.

(** Runs the computation of the goal up to its next call and splits on
    whether the call returns or throws, until the run is through. *)
Ltac run_step :=
  first
    [ rewrite bind_assoc
    | rewrite try_catch_bind_assoc
    | rewrite bind_log
    | rewrite bind_log_error
    | rewrite bind_call
    | rewrite bind_ret
    | rewrite bind_process_env
    | rewrite bind_process_env_set
    | rewrite try_catch_bind_log
    | rewrite try_catch_bind_call
    | rewrite try_catch_bind_ret
    | rewrite try_catch_call
    | rewrite try_catch_ret
    | rewrite try_catch_log
    | rewrite call_run
    | match goal with
      | |- context [match ?x with pair _ _ => _ end] => destruct x as [[?|?] ?]
      end
    | progress cbn [when negb prepend result_of final events app ret console_log
                    console_error process_exit files env]
    | progress cbv beta zeta ].

Ltac run_through := repeat run_step.

(** *** Properties of every event of a computation *)

Lemma always_ret {A} (P : Event -> Prop) (a : A) : always P (ret a).
Proof. intros s. constructor. Qed.

Lemma always_bind {A B} (P : Event -> Prop) (m : M A) (k : A -> M B) :
  always P m -> (forall a, always P (k a)) -> always P (bind m k).
Proof.
  intros Hm Hk s. rewrite events_bind. apply Forall_app. split; [apply Hm|].
  destruct (result_of (m s)); [apply Hk | constructor | constructor].
Qed.

Lemma always_try_catch {A} (P : Event -> Prop) (m : M A) (h : Error -> M A) :
  always P m -> (forall e, always P (h e)) -> always P (try_catch m h).
Proof.
  intros Hm Hh s. rewrite events_try_catch. apply Forall_app. split; [apply Hm|].
  destruct (result_of (m s)); [constructor | apply Hh | constructor].
Qed.

Lemma always_for_of {A} (P : Event -> Prop) (l : list A) (body : A -> M unit) :
  (forall x, In x l -> always P (body x)) -> always P (for_of l body).
Proof.
  induction l as [|x l IH]; intros H; simpl.
  - apply always_ret.
  - apply always_bind; [apply H; now left | intros _; apply IH].
    intros y Hy. apply H. now right.
Qed.

Lemma always_when (P : Event -> Prop) (b : bool) (m : M unit) :
  always P m -> always P (when b m).
Proof. intros H. destruct b; [exact H | apply always_ret]. Qed.

Lemma always_call {A} (P : Event -> Prop) (c : Call) (sem : FS -> result A * FS) :
  (forall r, P (Called c r)) -> always P (call c sem).
Proof. intros H s. rewrite events_call. constructor; [apply H | constructor]. Qed.

Lemma always_console_log (P : Event -> Prop) (msg : string) :
  P (Logged msg) -> always P (console_log msg).
Proof. intros H s. simpl. constructor; [exact H | constructor]. Qed.

Lemma always_console_error (P : Event -> Prop) (msg : string) (e : Error) :
  P (LoggedError msg e) -> always P (console_error msg e).
Proof. intros H s. simpl. constructor; [exact H | constructor]. Qed.

Lemma always_process_exit (P : Event -> Prop) (code : Z) :
  P (ProcessExited code) -> always P (process_exit code).
Proof. intros H s. simpl. constructor; [exact H | constructor]. Qed.

Lemma always_process_env (P : Event -> Prop) (var : string) :
  always P (process_env var).
Proof. intros s. constructor. Qed.

Lemma always_process_env_set (P : Event -> Prop) (var value : string) :
  always P (process_env_set var value).
Proof. intros s. constructor. Qed.

(** Breaks a computation into its calls and leaves what [P] has to say
    about each recorded event. *)
Ltac each_event :=
  repeat first
    [ apply always_ret
    | apply always_process_env
    | apply always_process_env_set
    | apply always_bind; [|intros ?]
    | apply always_try_catch; [|intros ?]
    | apply always_for_of; intros ? ?
    | apply always_when
    | apply always_call; intros ?
    | apply always_console_log
    | apply always_console_error
    | apply always_process_exit
    | match goal with
      | |- always _ (if ?b then _ else _) => destruct b
      end ].

Lemma Forall_events_bind {A B} (P : Event -> Prop) (m : M A) (k : A -> M B)
    (s : State) :
  Forall P (events (m s)) ->
  (forall a, result_of (m s) = Returned a -> Forall P (events (k a (final (m s))))) ->
  Forall P (events (bind m k s)).
Proof.
  intros Hm Hk. rewrite events_bind. apply Forall_app. split; [exact Hm|].
  destruct (result_of (m s)); [now apply Hk | constructor | constructor].
Qed.

Lemma env_final_call {A} (c : Call) (sem : FS -> result A * FS) (s : State) :
  env (final (call c sem s)) = env s.
Proof. now rewrite final_call. Qed.

(** *** The calls of a computation, in order *)

Lemma calls_of_app (l1 l2 : list Event) :
  calls_of (l1 ++ l2) = (calls_of l1 ++ calls_of l2)%list.
Proof.
  induction l1 as [|ev l1 IH]; [reflexivity|].
  destruct ev; simpl; now rewrite IH.
Qed.

Lemma proceeds_bind {A B} (m : M A) (k : A -> M B) (s : State)
    (l1 l2 : list Call) :
  proceeds m s l1 ->
  (forall a, result_of (m s) = Returned a -> proceeds (k a) (final (m s)) l2) ->
  proceeds (bind m k) s (l1 ++ l2).
Proof.
  intros [[n Hn] Hm] Hk. unfold proceeds.
  rewrite events_bind, result_bind, calls_of_app.
  destruct (result_of (m s)) as [a|e|c] eqn:E.
  - destruct (Hk a eq_refl) as [[n' Hn'] Hk']. rewrite (Hm a eq_refl). split.
    + exists (length l1 + n'). rewrite firstn_app_2. now rewrite Hn'.
    + intros b Hb. now rewrite (Hk' b Hb).
  - split; [|discriminate]. exists (Nat.min n (length l1)).
    simpl. rewrite app_nil_r, Hn, firstn_app.
    replace (Nat.min n (length l1) - length l1) with 0 by lia.
    simpl. rewrite app_nil_r.
    destruct (Nat.le_ge_cases n (length l1)) as [Hle|Hge].
    + now rewrite Nat.min_l.
    + rewrite Nat.min_r by assumption. now rewrite !firstn_all2.
  - split; [|discriminate]. exists (Nat.min n (length l1)).
    simpl. rewrite app_nil_r, Hn, firstn_app.
    replace (Nat.min n (length l1) - length l1) with 0 by lia.
    simpl. rewrite app_nil_r.
    destruct (Nat.le_ge_cases n (length l1)) as [Hle|Hge].
    + now rewrite Nat.min_l.
    + rewrite Nat.min_r by assumption. now rewrite !firstn_all2.
Qed.

Lemma proceeds_call {A} (c : Call) (sem : FS -> result A * FS) (s : State) :
  proceeds (call c sem) s [c].
Proof.
  unfold proceeds. rewrite events_call. simpl. split; [now exists 1 | reflexivity].
Qed.

Lemma proceeds_console_log (msg : string) (s : State) :
  proceeds (console_log msg) s [].
Proof. split; [now exists 0 | reflexivity]. Qed.

Lemma proceeds_as {A} (m : M A) (s : State) (l l' : list Call) :
  proceeds m s l -> l = l' -> proceeds m s l'.
Proof. now intros H <-. Qed.

Lemma proceeds_In {A} (m : M A) (s : State) (script : list Call) (c : Call) :
  proceeds m s script -> In c (calls_of (events (m s))) -> In c script.
Proof.
  intros [[n Hn] _] Hc. rewrite Hn in Hc.
  rewrite <- (firstn_skipn n script). apply in_or_app. now left.
Qed.

Ltac script :=
  repeat first
    [ apply proceeds_console_log
    | apply proceeds_call
    | eapply proceeds_bind; [|intros ? ?] ].

(** *** What holds when a computation returns *)

Lemma ensures_ret {A} (a : A) (s : State) (Q : A -> State -> Prop) :
  Q a s -> ensures (ret a) s Q.
Proof. intros H. exact H. Qed.

Lemma ensures_bind {A B} (m : M A) (k : A -> M B) (s : State)
    (Q : B -> State -> Prop) :
  ensures m s (fun a s' => ensures (k a) s' Q) -> ensures (bind m k) s Q.
Proof.
  unfold ensures. rewrite result_bind, final_bind.
  destruct (result_of (m s)); auto.
Qed.

Lemma ensures_weaken {A} (m : M A) (s : State) (P Q : A -> State -> Prop) :
  (forall a s', P a s' -> Q a s') -> ensures m s P -> ensures m s Q.
Proof. unfold ensures. intros H. destruct (result_of (m s)); auto. Qed.

Lemma ensures_any {A} (m : M A) (s : State) (Q : A -> State -> Prop) :
  (forall a s', Q a s') -> ensures m s Q.
Proof. unfold ensures. intros H. destruct (result_of (m s)); auto. Qed.

Lemma ensures_call {A} (c : Call) (sem : FS -> result A * FS) (s : State)
    (Q : A -> State -> Prop) :
  (forall a f, sem (files s) = (Ok a, f) -> Q a (mkState f (env s))) ->
  ensures (call c sem) s Q.
Proof.
  unfold ensures, call. intros H.
  destruct (sem (files s)) as [[a|e] f]; simpl; auto.
Qed.

Lemma ensures_elim {A} (m : M A) (s : State) (Q : A -> State -> Prop) (a : A) :
  ensures m s Q -> result_of (m s) = Returned a -> Q a (final (m s)).
Proof. unfold ensures. intros H E. now rewrite E in H. Qed.

Lemma ensures_console_log (msg : string) (s : State) (Q : unit -> State -> Prop) :
  Q tt s -> ensures (console_log msg) s Q.
Proof. intros H. exact H. Qed.

Lemma ensures_process_env (var : string) (s : State)
    (Q : option string -> State -> Prop) :
  Q (env s var) s -> ensures (process_env var) s Q.
Proof. intros H. exact H. Qed.

(** Follows a computation call by call, keeping what each call that
    returned says about the file system. *)
Ltac follow :=
  repeat first
    [ apply ensures_bind
    | apply ensures_console_log
    | apply ensures_process_env
    | apply ensures_ret
    | apply ensures_call; intros ? ? ? ].

(** ** The file system operations *)

Lemma below_not_prefix (p q : path) : below p q = true -> is_prefix q p = false.
Proof.
  unfold below. intros H. apply andb_true_iff in H as [Hp Hne].
  destruct (is_prefix q p) eqn:E; [|reflexivity].
  apply is_prefix_iff in Hp as [r Hr]. apply is_prefix_iff in E as [r' Hr'].
  assert (r = []).
  { apply (f_equal (@length string)) in Hr'. rewrite Hr in Hr'.
    rewrite !length_app in Hr'. destruct r; [reflexivity | simpl in Hr'; lia]. }
  subst r. rewrite app_nil_r in Hr. subst q.
  now rewrite path_eqb_refl in Hne.
Qed.

Lemma blocked_false (f : FS) (p q : path) :
  fs.blocked f p = false -> is_prefix q p = true -> f q = None \/ f q = Some Dir.
Proof.
  unfold fs.blocked. intros Hb Hq.
  destruct (f q) as [[d| |t k]|] eqn:E; auto; exfalso;
    (assert (Hex : existsb (fun a => exists_entry (f a) && negb (is_dir (f a)))
                          (ancestors p) = true);
     [apply existsb_exists; exists q; split;
        [now apply is_prefix_ancestors | now rewrite E]
     | congruence]).
Qed.

Lemma ensureDir_inv (p : path) (f f' : FS) (a : unit) :
  fs.ensureDir p f = (Ok a, f') ->
  fs.blocked f p = false
  /\ f' = (fun q => if is_prefix q p then Some Dir else f q).
Proof.
  unfold fs.ensureDir. destruct (fs.blocked f p); [discriminate|].
  intros [= _ <-]. auto.
Qed.

Lemma ensureDir_keeps_file (p q : path) (f f' : FS) (a : unit) (d : string) :
  fs.ensureDir p f = (Ok a, f') -> f q = Some (File d) -> f' q = Some (File d).
Proof.
  intros H Hq. apply ensureDir_inv in H as [Hb ->].
  destruct (is_prefix q p) eqn:E; [|assumption].
  destruct (blocked_false f p q Hb E); congruence.
Qed.

Lemma ensureDir_dir (p : path) (f f' : FS) (a : unit) :
  fs.ensureDir p f = (Ok a, f') -> f' p = Some Dir.
Proof.
  intros H. apply ensureDir_inv in H as [_ ->]. now rewrite is_prefix_refl.
Qed.

Lemma ensureDir_keeps (p q : path) (f f' : FS) (a : unit) (e : Entry) :
  fs.ensureDir p f = (Ok a, f') -> f q = Some e -> f' q = Some e.
Proof.
  intros H Hq. apply ensureDir_inv in H as [Hb ->].
  destruct (is_prefix q p) eqn:E; [|assumption].
  destruct (blocked_false f p q Hb E); congruence.
Qed.

Lemma ensureDirs_keeps (ps : list path) (q : path) (e : Entry) :
  forall (f f' : FS) (a : unit),
    fs.ensureDirs ps f = (Ok a, f') -> f q = Some e -> f' q = Some e.
Proof.
  induction ps as [|p ps IH]; intros f f' a; simpl.
  - now intros [= _ <-].
  - destruct (fs.ensureDir p f) as [[u|e'] f1] eqn:E; [|discriminate].
    intros H Hq. apply (IH _ _ _ H). eapply ensureDir_keeps; eassumption.
Qed.

Lemma ensureDirs_elsewhere (ps : list path) (q : path) :
  forall (f f' : FS) (a : unit),
    fs.ensureDirs ps f = (Ok a, f') ->
    (forall p, In p ps -> is_prefix q p = false) ->
    f' q = f q.
Proof.
  induction ps as [|p ps IH]; intros f f' a; simpl.
  - now intros [= _ <-].
  - destruct (fs.ensureDir p f) as [[u|e'] f1] eqn:E; [|discriminate].
    intros H Hq. rewrite (IH _ _ _ H) by (intros p' Hp'; apply Hq; now right).
    apply ensureDir_inv in E as [_ ->]. rewrite Hq by now left. reflexivity.
Qed.

(** A path that is no link leads to itself. *)
Lemma follow_plain (n : nat) (f : FS) (p : path) :
  (forall t k, f p <> Some (Link t k)) -> fs.follow n f p = p.
Proof.
  intros H. destruct n as [|n]; [reflexivity|]. cbn [fs.follow].
  destruct (f p) as [[d| |t k]|] eqn:E; try reflexivity. now destruct (H t k).
Qed.

Lemma lead_plain (f : FS) (p : path) :
  (forall t k, f p <> Some (Link t k)) -> fs.lead f p = p.
Proof. apply follow_plain. Qed.

Lemma lead_dir (f : FS) (p : path) : is_dir (f p) = true -> fs.lead f p = p.
Proof.
  intros H. apply lead_plain. intros t k E. rewrite E in H. discriminate.
Qed.

(** Once [emptyDir] has returned, the directory the path leads to is
    there, and a directory that was there has lost its content. *)
Lemma emptyDir_inv (p : path) (f f' : FS) (a : unit) :
  fs.emptyDir p f = (Ok a, f') ->
  f' (fs.lead f p) = Some Dir
  /\ (is_dir (f (fs.lead f p)) = true ->
      forall q, below (fs.lead f p) q = true -> f' q = None).
Proof.
  unfold fs.emptyDir. destruct (is_dir (f (fs.lead f p))) eqn:E.
  - intros [= _ <-]. split.
    + unfold below. rewrite path_eqb_refl, andb_false_r.
      destruct (f (fs.lead f p)) as [[d| |t k]|]; try discriminate E. reflexivity.
    + intros _ q Hq. now rewrite Hq.
  - intros H. split; [|discriminate].
    apply ensureDir_inv in H as [Hb ->].
    assert (Hp : fs.lead f p = p).
    { apply lead_plain. intros t k Hl.
      destruct (blocked_false f p p Hb (is_prefix_refl p)); congruence. }
    now rewrite Hp, is_prefix_refl.
Qed.

(** What [remove] leaves when it returns, and when it does not. *)
Lemma remove_inv (p : path) (f f' : FS) (r : result unit) :
  fs.remove p f = (r, f') ->
  match r with
  | Ok _ => f' = fs.remove_tree p f
  | Err _ => f' = f
  end.
Proof.
  unfold fs.remove. destruct (fs.blocked f (dirname p)); now intros [= <- <-].
Qed.

(** A copy with [overwrite] that returned has placed every entry it
    read below its source. *)
Lemma copy_places (base : path) (src : list string) (dst : path) (dereference : bool)
    (f f' : FS) (a : unit) (r : list string) (e : Entry) :
  fs.copy base src dst true dereference f = (Ok a, f') ->
  r <> [] ->
  fs.source dereference f base src r = Some e ->
  f' (dst ++ r)%list = Some e.
Proof.
  unfold fs.copy. intros H Hr Hsrc.
  destruct (fs.source dereference f base src []); [|discriminate].
  destruct (exists_entry _ && path_eqb _ _); [discriminate|].
  destruct (exists_entry _ && negb _); [discriminate|].
  destruct (is_dir _ && is_prefix _ _); [discriminate|].
  destruct (fs.ensureDir (dirname dst) f) as [[u|e'] f1]; [|discriminate].
  injection H as _ <-. unfold fs.graft.
  rewrite (proj2 (strip_prefix_iff dst (dst ++ r)%list r) eq_refl), Hsrc.
  destruct r as [|x r]; [contradiction|].
  cbn [negb orb]. now rewrite andb_false_r, andb_false_r.
Qed.

Lemma writeFile_inv (p : path) (data : string) (f f' : FS) (a : unit) :
  fs.writeFile p data f = (Ok a, f') ->
  f' = (fun q => if path_eqb q p then Some (File data) else f q).
Proof.
  unfold fs.writeFile. destruct (negb (is_dir (f (dirname p)))); [discriminate|].
  destruct (f p) as [[d| |t k]|]; try discriminate; now intros [= _ <-].
Qed.

Lemma writeFile_same (p : path) (data : string) (f f' : FS) (a : unit) :
  fs.writeFile p data f = (Ok a, f') -> f' p = Some (File data).
Proof. intros H. apply writeFile_inv in H as ->. now rewrite path_eqb_refl. Qed.

Lemma writeFile_other (p q : path) (data : string) (f f' : FS) (a : unit) :
  fs.writeFile p data f = (Ok a, f') -> q <> p -> f' q = f q.
Proof.
  intros H Hq. apply writeFile_inv in H as ->. now rewrite path_eqb_neq.
Qed.

Lemma is_prefix_snoc_self (d : path) (x : string) :
  is_prefix (d ++ [x])%list d = false.
Proof.
  destruct (is_prefix (d ++ [x])%list d) eqn:E; [|reflexivity].
  apply is_prefix_iff in E as [r Hr].
  apply (f_equal (@length string)) in Hr. rewrite !length_app in Hr. simpl in Hr. lia.
Qed.

Lemma is_prefix_snoc_snoc (d : path) (x y : string) :
  x <> y -> is_prefix (d ++ [x])%list (d ++ [y])%list = false.
Proof.
  intros Hxy. destruct (is_prefix (d ++ [x])%list (d ++ [y])%list) eqn:E; [|reflexivity].
  apply is_prefix_iff in E as [r Hr]. rewrite <- app_assoc in Hr.
  apply app_inv_head in Hr. injection Hr as Hr _. congruence.
Qed.

Lemma dirname_snoc (d : path) (x : string) : dirname (d ++ [x])%list = d.
Proof. apply removelast_last. Qed.

Lemma file_not_on_the_way (f : FS) (p q : path) :
  fs.blocked f p = false -> is_file (f q) = true -> is_prefix q p = false.
Proof.
  intros Hb Hq. destruct (is_prefix q p) eqn:E; [|reflexivity].
  destruct (blocked_false f p q Hb E) as [H|H]; rewrite H in Hq; discriminate.
Qed.

(** What a successful [move] of a regular file with [overwrite] leaves. *)
Lemma move_file_inv (src dst : path) (f f' : FS) (a : unit) :
  fs.move src dst true f = (Ok a, f') ->
  is_file (f src) = true ->
  src <> dst
  /\ fs.blocked f (dirname dst) = false
  /\ forall q,
       f' q = if path_eqb q dst then f src
              else if path_eqb q src then None
              else if is_prefix dst q then None
              else if is_prefix q (dirname dst) then Some Dir
              else f q.
Proof.
  unfold fs.move, fs.checkPaths. intros H Hfile.
  destruct (f src) as [esrc|] eqn:Esrc; [|discriminate].
  destruct (path_eqb src dst) eqn:Eeq; [discriminate|].
  destruct (exists_entry (f dst) && _); [discriminate|].
  destruct (is_dir (Some esrc) && _); [discriminate|].
  destruct (fs.ensureDir (dirname dst) f) as [[u|e] f1] eqn:Edir; [|discriminate].
  apply ensureDir_inv in Edir as [Hb ->].
  rewrite andb_false_r in H. cbv beta in H.
  assert (Hway : is_prefix src (dirname dst) = false).
  { apply (file_not_on_the_way f _ _ Hb). now rewrite Esrc. }
  unfold fs.remove_tree, fs.rename in H. rewrite Hway, Esrc in H.
  destruct (is_prefix dst src) eqn:Eds; [discriminate|].
  simpl exists_entry in H. cbv iota in H.
  destruct esrc as [data| |t k]; try discriminate Hfile.
  simpl is_dir in H. cbv iota in H. injection H as _ <-.
  split; [intros ->; now rewrite path_eqb_refl in Eeq|]. split; [exact Hb|].
  intros q. reflexivity.
Qed.

(** The two moves of [moveSourceMaps], both done: the two files are at
    the destination and the rest of the disk is as it was. *)
Lemma both_moved (d a_dir b_dir : path) (ps : list path) (f0 f1 f2 f3 : FS)
    (u u1 u2 : unit) :
  fs.ensureDirs ps f0 = (Ok u, f1) ->
  fs.move (a_dir ++ ["bundle.map"])%list (d ++ ["bundle.map"])%list true f1 = (Ok u1, f2) ->
  fs.move (b_dir ++ ["main.bundle.map"])%list (d ++ ["main.bundle.map"])%list true f2
    = (Ok u2, f3) ->
  is_file (f0 (a_dir ++ ["bundle.map"])%list) = true ->
  is_file (f0 (b_dir ++ ["main.bundle.map"])%list) = true ->
  f3 (a_dir ++ ["bundle.map"])%list = None
  /\ f3 (b_dir ++ ["main.bundle.map"])%list = None
  /\ f3 (d ++ ["bundle.map"])%list = f0 (a_dir ++ ["bundle.map"])%list
  /\ f3 (d ++ ["main.bundle.map"])%list = f0 (b_dir ++ ["main.bundle.map"])%list
  /\ forall q,
       is_prefix (a_dir ++ ["bundle.map"])%list q = false ->
       is_prefix (b_dir ++ ["main.bundle.map"])%list q = false ->
       is_prefix (d ++ ["bundle.map"])%list q = false ->
       is_prefix (d ++ ["main.bundle.map"])%list q = false ->
       is_prefix q d = false ->
       (forall p, In p ps -> is_prefix q p = false) ->
       f3 q = f0 q.
Proof.
  intros Edir Emove1 Emove2 Ha Hb.
  assert (Hmaps : "bundle.map" <> "main.bundle.map") by discriminate.
  assert (Hmaps' : "main.bundle.map" <> "bundle.map") by discriminate.
  assert (F1a : f1 (a_dir ++ ["bundle.map"])%list = f0 (a_dir ++ ["bundle.map"])%list).
  { destruct (f0 (a_dir ++ ["bundle.map"])%list) as [[da| |t k]|] eqn:E;
      try discriminate Ha.
    eapply ensureDirs_keeps; eassumption. }
  assert (F1b : f1 (b_dir ++ ["main.bundle.map"])%list
                = f0 (b_dir ++ ["main.bundle.map"])%list).
  { destruct (f0 (b_dir ++ ["main.bundle.map"])%list) as [[db| |t k]|] eqn:E;
      try discriminate Hb.
    eapply ensureDirs_keeps; eassumption. }
  apply move_file_inv in Emove1 as (Hne1 & Hblocked & F2); [|now rewrite F1a].
  rewrite dirname_snoc in F2, Hblocked.
  assert (Hda : is_prefix (a_dir ++ ["bundle.map"])%list d = false)
    by (apply (file_not_on_the_way f1 _ _ Hblocked); now rewrite F1a).
  assert (Hdb : is_prefix (b_dir ++ ["main.bundle.map"])%list d = false)
    by (apply (file_not_on_the_way f1 _ _ Hblocked); now rewrite F1b).
  assert (F2b : f2 (b_dir ++ ["main.bundle.map"])%list
                = f0 (b_dir ++ ["main.bundle.map"])%list).
  { rewrite F2.
    rewrite (path_eqb_neq (snoc_neq _ _ Hmaps')), (path_eqb_neq (snoc_neq _ _ Hmaps')).
    destruct (is_prefix (d ++ ["bundle.map"])%list (b_dir ++ ["main.bundle.map"])%list)
      eqn:Eunder.
    - exfalso. unfold fs.move, fs.checkPaths in Emove2. rewrite F2 in Emove2.
      rewrite (path_eqb_neq (snoc_neq _ _ Hmaps')),
        (path_eqb_neq (snoc_neq _ _ Hmaps')), Eunder in Emove2.
      discriminate.
    - now rewrite Hdb. }
  apply move_file_inv in Emove2 as (Hne2 & _ & F3); [|now rewrite F2b].
  rewrite dirname_snoc in F3.
  split; [|split; [|split; [|split]]].
  - rewrite F3.
    rewrite (path_eqb_neq (snoc_neq _ _ Hmaps)), (path_eqb_neq (snoc_neq _ _ Hmaps)).
    destruct (is_prefix (d ++ ["main.bundle.map"])%list (a_dir ++ ["bundle.map"])%list);
      [reflexivity|].
    rewrite Hda, F2, (path_eqb_neq Hne1), path_eqb_refl. reflexivity.
  - rewrite F3. rewrite (path_eqb_neq Hne2), path_eqb_refl. reflexivity.
  - rewrite F3.
    rewrite (path_eqb_neq (snoc_neq _ _ Hmaps)), (path_eqb_neq (snoc_neq _ _ Hmaps)).
    rewrite (is_prefix_snoc_snoc _ Hmaps'), is_prefix_snoc_self.
    rewrite F2, path_eqb_refl. exact F1a.
  - rewrite F3, path_eqb_refl. exact F2b.
  - intros q Hqa Hqb Hqda Hqdb Hqd Hqps.
    rewrite F3, (is_prefix_neq _ _ Hqdb), (is_prefix_neq _ _ Hqb), Hqdb, Hqd.
    rewrite F2, (is_prefix_neq _ _ Hqda), (is_prefix_neq _ _ Hqa), Hqda, Hqd.
    eapply ensureDirs_elsewhere; eassumption.
Qed.

Section Properties.

Context {host : Host}.

(** ** The paths of the script *)

Lemma bundled_json_eq : bundled_json = (defaultPluginsDir ++ ["bundled.json"])%list.
Proof. reflexivity. Qed.

Lemma defaultPlugins_src_eq (tree : path) :
  defaultPlugins_src tree = ((tree ++ ["src"]) ++ ["defaultPlugins"])%list.
Proof. reflexivity. Qed.

Lemma index_tsx_eq (tree : path) :
  index_tsx tree = (defaultPlugins_src tree ++ ["index.tsx"])%list.
Proof. reflexivity. Qed.

(** ** Selection for insiders builds *)

Lemma filter_Subsequence {A} (f : A -> bool) (l : list A) :
  Subsequence (filter f l) l.
Proof.
  induction l as [|x l IH]; simpl; [constructor|].
  destruct (f x); now constructor.
Qed.

Lemma has_In (set : list string) (x : string) : has set x = true <-> In x set.
Proof.
  unfold has. rewrite existsb_exists. split.
  - intros [y [Hy E]]. apply String.eqb_eq in E. now subst.
  - intros H. exists x. split; [assumption | apply String.eqb_refl].
Qed.

Lemma always_generate (P : Event -> Prop) (l : list Installed.t) :
  (forall msg, P (Logged msg)) ->
  (forall r, P (Called (WriteJSON bundled_json (map bundledPlugin l)) r)) ->
  (forall c r, manifest_ids (Called c r) = [] -> P (Called c r)) ->
  always P (generateDefaultPluginEntryPoints l).
Proof.
  intros Hlog Hjson Hother.
  unfold generateDefaultPluginEntryPoints, fs_writeJSON, fs_ensureDir, fs_writeFile.
  each_event; auto.
Qed.

(** C1. With [isInsidersBuild] set, the selected plugins all have an id of
    the hardcoded allow-list and keep the relative order of the source
    enumeration; every manifest the run writes lists allow-listed ids only. *)
Theorem insiders_selection_allow_listed_in_order (sourcePlugins : list Installed.t) :
  Forall (fun p => In (Installed.id p) hardcodedPlugins)
         (defaultPlugins_of true sourcePlugins)
  /\ Subsequence (defaultPlugins_of true sourcePlugins) sourcePlugins
  /\ always (fun ev => Forall (fun i => In i hardcodedPlugins) (manifest_ids ev))
            (prepareDefaultPlugins true).
Proof.
  assert (Hsel : forall l, Forall (fun p => In (Installed.id p) hardcodedPlugins)
                                  (defaultPlugins_of true l)).
  { intros l. apply Forall_forall. intros p Hp.
    apply filter_In in Hp as [_ Hp]. simpl in Hp. now apply has_In. }
  split; [apply Hsel|]. split; [apply filter_Subsequence|].
  unfold prepareDefaultPlugins, buildDefaultPlugins, fs_emptyDir, fs_copy,
    getSourcePlugins, runBuild, fs_ensureSymlink.
  each_event; try (simpl; constructor);
    try (apply always_generate; intros; simpl;
         try match goal with H : manifest_ids _ = [] |- _ => rewrite H end;
         try constructor).
  simpl. rewrite map_map. simpl. apply Forall_map. apply Hsel.
Qed.

(** ** The entry-point generator *)

(** When the generator returns, the manifest and both loader modules are
    on disk with the content computed from the list. *)
Lemma generate_returns_files (l : list Installed.t) (s : State) :
  ensures (generateDefaultPluginEntryPoints l) s (fun _ s' =>
    files s' bundled_json = Some (File (manifest_text (map bundledPlugin l)))
    /\ files s' (index_tsx appDir) = Some (File (loader_text l))
    /\ files s' (index_tsx browserUiDir) = Some (File (loader_text l))
    /\ env s' = env s).
Proof.
  unfold generateDefaultPluginEntryPoints, fs_writeJSON, fs_ensureDir, fs_writeFile.
  fold (loader_text l).
  follow. simpl in *.
  rename H into Hjson, H0 into HdirA, H1 into HidxA, H2 into HdirB, H3 into HidxB.
  assert (Hne : forall tree, bundled_json <> index_tsx tree).
  { intros tree. rewrite bundled_json_eq, index_tsx_eq. now apply snoc_neq. }
  assert (E1 := writeFile_same _ _ _ Hjson).
  assert (E2 := ensureDir_keeps_file _ bundled_json _ HdirA E1).
  assert (E3 : f1 bundled_json = Some (File (manifest_text (map bundledPlugin l)))).
  { rewrite (writeFile_other _ _ HidxA); [exact E2 | apply Hne]. }
  assert (E4 := ensureDir_keeps_file _ bundled_json _ HdirB E3).
  assert (F3 := writeFile_same _ _ _ HidxA).
  assert (F4 := ensureDir_keeps_file _ (index_tsx appDir) _ HdirB F3).
  repeat split.
  - rewrite (writeFile_other _ _ HidxB); [exact E4 | apply Hne].
  - destruct (path_eqb (index_tsx appDir) (index_tsx browserUiDir)) eqn:E.
    + apply path_eqb_eq in E. rewrite E. apply (writeFile_same _ _ _ HidxB).
    + rewrite (writeFile_other _ _ HidxB); [exact F4|].
      intros C. apply path_eqb_eq in C. congruence.
  - apply (writeFile_same _ _ _ HidxB).
Qed.

Lemma bundledPlugin_promoted (p : Installed.t) : promoted p (bundledPlugin p).
Proof.
  unfold promoted, bundledPlugin; simpl. repeat split.
  - intros ->. reflexivity.
  - intros H. apply String.eqb_neq in H. now rewrite H.
  - intros ->. reflexivity.
  - intros H. destruct (Installed.flipperSDKVersion p) as [v|]; [|reflexivity].
    destruct (String.eqb_spec v "0.0.0") as [->|]; [contradiction | reflexivity].
Qed.

Lemma manifests_written_none (evs : list Event) :
  Forall (fun ev => manifest_of ev = None) evs -> manifests_written evs = [].
Proof.
  induction 1 as [|ev evs Hev _ IH]; [reflexivity|].
  unfold manifests_written in *. simpl. now rewrite Hev.
Qed.

Lemma generate_events (l : list Installed.t) (s : State) :
  exists msg r rest,
    events (generateDefaultPluginEntryPoints l s) =
      Logged msg :: Called (WriteJSON bundled_json (map bundledPlugin l)) r :: rest
    /\ Forall (fun ev => manifest_of ev = None) rest.
Proof.
  unfold generateDefaultPluginEntryPoints, fs_writeJSON. cbv zeta.
  rewrite events_bind_log, events_bind_call.
  do 3 eexists. split; [reflexivity|].
  destruct (fst _); [|constructor].
  match goal with |- Forall _ (events (?m ?s')) => generalize s' end.
  change (always (fun ev => manifest_of ev = None)
    (fs_ensureDir (defaultPlugins_src appDir) ;;
     fs_writeFile (index_tsx appDir) (loader_text l) ;;
     fs_ensureDir (defaultPlugins_src browserUiDir) ;;
     fs_writeFile (index_tsx browserUiDir) (loader_text l) ;;
     console_log "✅  Generated bundled plugin entry points.")).
  unfold fs_ensureDir, fs_writeFile. each_event; reflexivity.
Qed.

(** C2. Every descriptor of the manifest written by
    [generateDefaultPluginEntryPoints] has the tool's own version where the
    input's version is exactly 0.0.0 and the input's version otherwise, the
    same independently for [flipperSDKVersion]; [isBundled] is true and
    [dir] and [entry] are cleared. *)
Theorem generated_manifest_promotes_descriptors (l : list Installed.t) (s : State) :
  exists msg bundledPlugins r rest,
    events (generateDefaultPluginEntryPoints l s) =
      Logged msg :: Called (WriteJSON bundled_json bundledPlugins) r :: rest
    /\ Forall2 promoted l bundledPlugins.
Proof.
  destruct (generate_events l s) as (msg & r & rest & E & _).
  exists msg, (map bundledPlugin l), r, rest. split; [exact E|].
  clear E. induction l as [|p l IH]; simpl; constructor.
  - apply bundledPlugin_promoted.
  - apply IH.
Qed.

Lemma loader_text_statements (l : list Installed.t) :
  loader_text l =
  generatedIndex
    (join ("," ++ newline) (map (fun p => loadStatement (Installed.name p)) l)).
Proof. unfold loader_text. now rewrite map_map. Qed.

Lemma always_generate_loader (P : Event -> Prop) (l : list Installed.t) :
  (forall ev, loader_of ev = None -> P ev) ->
  (forall file r, P (Called (WriteFile file (loader_text l)) r)) ->
  always P (generateDefaultPluginEntryPoints l).
Proof.
  intros Hother Hloader.
  unfold generateDefaultPluginEntryPoints, fs_writeJSON, fs_ensureDir, fs_writeFile.
  fold (loader_text l). each_event; auto.
Qed.

(** C7. Two runs of [generateDefaultPluginEntryPoints] on the same list
    write the same manifest content, whatever the states they start from,
    and the load statements of the generated loader module follow the
    order of the list. *)
Theorem generated_entry_points_deterministic
    (l : list Installed.t) (s1 s2 : State) :
  manifests_written (events (generateDefaultPluginEntryPoints l s1)) =
    manifests_written (events (generateDefaultPluginEntryPoints l s2))
  /\ (result_of (generateDefaultPluginEntryPoints l s1) = Returned tt ->
      result_of (generateDefaultPluginEntryPoints l s2) = Returned tt ->
      files (final (generateDefaultPluginEntryPoints l s1)) bundled_json =
        files (final (generateDefaultPluginEntryPoints l s2)) bundled_json
      /\ is_file (files (final (generateDefaultPluginEntryPoints l s1)) bundled_json)
         = true)
  /\ always
       (fun ev =>
          match loader_of ev with
          | Some data =>
              data = generatedIndex
                       (join ("," ++ newline)
                             (map (fun p => loadStatement (Installed.name p)) l))
          | None => True
          end)
       (generateDefaultPluginEntryPoints l).
Proof.
  split; [|split].
  - destruct (generate_events l s1) as (m1 & r1 & rest1 & E1 & H1).
    destruct (generate_events l s2) as (m2 & r2 & rest2 & E2 & H2).
    rewrite E1, E2. unfold manifests_written. simpl.
    fold (manifests_written rest1). fold (manifests_written rest2).
    now rewrite (manifests_written_none H1), (manifests_written_none H2).
  - intros R1 R2.
    destruct (@ensures_elim _ _ _ _ _ (generate_returns_files l s1) R1) as (F1 & _).
    destruct (@ensures_elim _ _ _ _ _ (generate_returns_files l s2) R2) as (F2 & _).
    rewrite F1, F2. split; reflexivity.
  - apply always_generate_loader.
    + intros ev Hev. now rewrite Hev.
    + intros file r. simpl. apply loader_text_statements.
Qed.

(** ** Preparing the default plugins *)

Lemma prepareDefaultPlugins_unfold (isInsidersBuild : bool) :
  prepareDefaultPlugins isInsidersBuild =
  (console_log ("⚙️  Preparing default plugins (isInsidersBuild="
                ++ string_of_bool isInsidersBuild ++ ")...") ;;
   fs_emptyDir defaultPluginsDir ;;
   prepare_after_reset isInsidersBuild).
Proof. reflexivity. Qed.

(** C9. Whatever the branch, the first thing [prepareDefaultPlugins] does
    besides announcing itself is to call for the emptying of the
    default-plugins directory, whatever the outcome of that call.  When
    the call throws nothing else is done.  When it returns, the rest of
    the script, with all its branches, runs from the state the call has
    left: there the directory exists, and a directory that was there
    before has nothing left below it. *)
Theorem prepare_resets_directory_first (isInsidersBuild : bool) (s : State) :
  exists msg threw s1,
    prepareDefaultPlugins isInsidersBuild s
    = prepend [Logged msg; Called (EmptyDir defaultPluginsDir) threw]
        (match threw with
         | None => prepare_after_reset isInsidersBuild s1
         | Some e => mkRun (Thrown e) s1 []
         end)
    /\ env s1 = env s
    /\ (threw = None ->
        files s1 (fs.lead (files s) defaultPluginsDir) = Some Dir
        /\ (is_dir (files s (fs.lead (files s) defaultPluginsDir)) = true ->
            forall q, below (fs.lead (files s) defaultPluginsDir) q = true ->
                      files s1 q = None)).
Proof.
  rewrite prepareDefaultPlugins_unfold. unfold fs_emptyDir.
  rewrite bind_log, bind_call.
  destruct (fs.emptyDir defaultPluginsDir (files s)) as [[u|e] f1] eqn:E.
  - eexists. exists None, (mkState f1 (env s)).
    split; [reflexivity|]. split; [reflexivity|].
    intros _. cbn [files]. now apply emptyDir_inv in E.
  - eexists. exists (Some e), (mkState f1 (env s)).
    split; [reflexivity|]. split; [reflexivity|]. discriminate.
Qed.

Lemma generate_proceeds (l : list Installed.t) (s : State) :
  proceeds (generateDefaultPluginEntryPoints l) s
    [ WriteJSON bundled_json (map bundledPlugin l);
      EnsureDir (defaultPlugins_src appDir);
      WriteFile (index_tsx appDir) (loader_text l);
      EnsureDir (defaultPlugins_src browserUiDir);
      WriteFile (index_tsx browserUiDir) (loader_text l) ].
Proof.
  eapply proceeds_as.
  - unfold generateDefaultPluginEntryPoints, fs_writeJSON, fs_ensureDir, fs_writeFile.
    fold (loader_text l). script.
  - reflexivity.
Qed.

(** *** The override directory *)

Lemma after_reset_override_proceeds (isInsidersBuild : bool) (s : State) :
  truthy (env s "FLIPPER_DEFAULT_PLUGINS_DIR") = true ->
  proceeds (prepare_after_reset isInsidersBuild) s
    [ Copy (path_resolve cwd (shown (env s "FLIPPER_DEFAULT_PLUGINS_DIR")))
           defaultPluginsDir true true true;
      WriteJSON bundled_json [];
      EnsureDir (defaultPlugins_src appDir);
      WriteFile (index_tsx appDir) (generatedIndex "");
      EnsureDir (defaultPlugins_src browserUiDir);
      WriteFile (index_tsx browserUiDir) (generatedIndex "") ].
Proof.
  intros H. unfold prepare_after_reset, proceeds. rewrite bind_process_env, H.
  fold (proceeds
    ((console_log ("⚙️  Copying the provided default plugins dir " ++ dquote
                  ++ shown (env s "FLIPPER_DEFAULT_PLUGINS_DIR") ++ dquote ++ "...") ;;
      fs_copy (shown (env s "FLIPPER_DEFAULT_PLUGINS_DIR"))
              defaultPluginsDir true true true ;;
      console_log "✅  Copied the provided default plugins dir." ;;
      generateDefaultPluginEntryPoints []) ;;
     console_log "✅  Prepared default plugins.") s
    [ Copy (path_resolve cwd (shown (env s "FLIPPER_DEFAULT_PLUGINS_DIR")))
           defaultPluginsDir true true true;
      WriteJSON bundled_json [];
      EnsureDir (defaultPlugins_src appDir);
      WriteFile (index_tsx appDir) (generatedIndex "");
      EnsureDir (defaultPlugins_src browserUiDir);
      WriteFile (index_tsx browserUiDir) (generatedIndex "") ]).
  eapply proceeds_as.
  - eapply proceeds_bind; [|intros ? ?; apply proceeds_console_log].
    eapply proceeds_bind; [apply proceeds_console_log | intros ? ?].
    eapply proceeds_bind; [unfold fs_copy; apply proceeds_call | intros ? ?].
    eapply proceeds_bind; [apply proceeds_console_log | intros ? ?].
    apply (generate_proceeds []).
  - reflexivity.
Qed.

(** The generator leaves every entry that is not one of its own files. *)
Lemma generate_keeps (l : list Installed.t) (s : State) (q : path) (e : Entry) :
  files s q = Some e -> ~ generated q ->
  ensures (generateDefaultPluginEntryPoints l) s (fun _ s' => files s' q = Some e).
Proof.
  intros Hq Hgen.
  unfold generateDefaultPluginEntryPoints, fs_writeJSON, fs_ensureDir, fs_writeFile.
  follow. simpl in *.
  rename H into Hjson, H0 into HdirA, H1 into HidxA, H2 into HdirB, H3 into HidxB.
  rewrite (writeFile_other _ _ HidxB) by (intros ->; apply Hgen; right; now right).
  eapply ensureDir_keeps; [eassumption|].
  rewrite (writeFile_other _ _ HidxA) by (intros ->; apply Hgen; right; now left).
  eapply ensureDir_keeps; [eassumption|].
  rewrite (writeFile_other _ _ Hjson) by (intros ->; apply Hgen; now left).
  exact Hq.
Qed.

Lemma after_reset_override_files (isInsidersBuild : bool) (s : State) :
  truthy (env s "FLIPPER_DEFAULT_PLUGINS_DIR") = true ->
  ensures (prepare_after_reset isInsidersBuild) s (fun _ s' =>
    files s' bundled_json = Some (File ("[]" ++ newline))
    /\ files s' (index_tsx appDir) = Some (File (generatedIndex ""))
    /\ files s' (index_tsx browserUiDir) = Some (File (generatedIndex ""))
    /\ forall r e,
         r <> [] ->
         fs.source true (files s)
           (path_base cwd (shown (env s "FLIPPER_DEFAULT_PLUGINS_DIR")))
           (segments (shown (env s "FLIPPER_DEFAULT_PLUGINS_DIR"))) r = Some e ->
         ~ generated (defaultPluginsDir ++ r)%list ->
         files s' (defaultPluginsDir ++ r)%list = Some e).
Proof.
  intros H. unfold prepare_after_reset.
  apply ensures_bind, ensures_process_env. rewrite H.
  apply ensures_bind, ensures_bind, ensures_console_log, ensures_bind.
  unfold fs_copy. apply ensures_call. intros a f Hf.
  apply ensures_bind, ensures_console_log.
  assert (Hfiles := generate_returns_files [] (mkState f (env s))).
  assert (Hkept := fun q e Hq Hgen =>
            @generate_keeps [] (mkState f (env s)) q e Hq Hgen).
  unfold ensures in *.
  destruct (result_of (generateDefaultPluginEntryPoints [] (mkState f (env s))));
    try exact I.
  destruct Hfiles as (H1 & H2 & H3 & _). cbn [result_of console_log final].
  repeat split; try assumption.
  intros r e Hr Hsrc Hgen. apply Hkept; [|exact Hgen]. cbn [files].
  eapply copy_places; eassumption.
Qed.

(** C8. With an override directory in the environment,
    [prepareDefaultPlugins] resets the default-plugins directory, copies
    the override over it and runs the generator on the empty list.  No
    plugin is enumerated, built or linked.  When the run returns the
    manifest and both loader modules are on disk empty, and every entry
    the override held below it is in the default-plugins directory under
    the same names, but for the files the generator has written. *)
Theorem override_copies_and_generates_empty (isInsidersBuild : bool) (s : State) :
  truthy (env s "FLIPPER_DEFAULT_PLUGINS_DIR") = true ->
  proceeds (prepareDefaultPlugins isInsidersBuild) s
    [ EmptyDir defaultPluginsDir;
      Copy (path_resolve cwd (shown (env s "FLIPPER_DEFAULT_PLUGINS_DIR")))
           defaultPluginsDir true true true;
      WriteJSON bundled_json [];
      EnsureDir (defaultPlugins_src appDir);
      WriteFile (index_tsx appDir) (generatedIndex "");
      EnsureDir (defaultPlugins_src browserUiDir);
      WriteFile (index_tsx browserUiDir) (generatedIndex "") ]
  /\ Forall (fun c => selects_builds_or_links c = false)
            (calls_of (events (prepareDefaultPlugins isInsidersBuild s)))
  /\ (result_of (prepareDefaultPlugins isInsidersBuild s) = Returned tt ->
      let disk := files (final (prepareDefaultPlugins isInsidersBuild s)) in
      disk bundled_json = Some (File ("[]" ++ newline))
      /\ disk (index_tsx appDir) = Some (File (generatedIndex ""))
      /\ disk (index_tsx browserUiDir) = Some (File (generatedIndex ""))
      /\ forall r e,
           r <> [] ->
           override_entry s r = Some e ->
           ~ generated (defaultPluginsDir ++ r)%list ->
           disk (defaultPluginsDir ++ r)%list = Some e).
Proof.
  intros H.
  assert (Hscript : proceeds (prepareDefaultPlugins isInsidersBuild) s
    [ EmptyDir defaultPluginsDir;
      Copy (path_resolve cwd (shown (env s "FLIPPER_DEFAULT_PLUGINS_DIR")))
           defaultPluginsDir true true true;
      WriteJSON bundled_json [];
      EnsureDir (defaultPlugins_src appDir);
      WriteFile (index_tsx appDir) (generatedIndex "");
      EnsureDir (defaultPlugins_src browserUiDir);
      WriteFile (index_tsx browserUiDir) (generatedIndex "") ]).
  { rewrite prepareDefaultPlugins_unfold. eapply proceeds_as.
    - eapply proceeds_bind; [apply proceeds_console_log | intros ? ?].
      eapply proceeds_bind; [unfold fs_emptyDir; apply proceeds_call | intros ? ?].
      apply after_reset_override_proceeds.
      unfold fs_emptyDir. now rewrite env_final_call.
    - unfold fs_emptyDir. now rewrite env_final_call. }
  split; [exact Hscript|]. split.
  - apply Forall_forall. intros c Hc.
    eapply proceeds_In in Hc; [|exact Hscript]. cbn [In] in Hc.
    repeat (destruct Hc as [<-|Hc]; [reflexivity|]). contradiction.
  - intros R. cbv zeta.
    apply (@ensures_elim _ (prepareDefaultPlugins isInsidersBuild) s
             (fun _ s' =>
                files s' bundled_json = Some (File ("[]" ++ newline))
                /\ files s' (index_tsx appDir) = Some (File (generatedIndex ""))
                /\ files s' (index_tsx browserUiDir) = Some (File (generatedIndex ""))
                /\ forall r e,
                     r <> [] ->
                     override_entry s r = Some e ->
                     ~ generated (defaultPluginsDir ++ r)%list ->
                     files s' (defaultPluginsDir ++ r)%list = Some e)
             tt); [|exact R].
    rewrite prepareDefaultPlugins_unfold.
    apply ensures_bind, ensures_console_log, ensures_bind.
    unfold fs_emptyDir. apply ensures_call. intros a f Hf.
    unfold override_entry, reset_disk. rewrite Hf. cbn [snd].
    apply (after_reset_override_files isInsidersBuild (mkState f (env s))). exact H.
Qed.

(** *** Pre-bundling disabled *)

Lemma always_build_writes_no_plugin (l : list Installed.t) :
  always writes_no_plugin (buildDefaultPlugins l).
Proof.
  unfold buildDefaultPlugins, runBuild, fs_ensureSymlink.
  each_event; exact I.
Qed.

Lemma always_generate_empty_writes_no_plugin :
  always writes_no_plugin (generateDefaultPluginEntryPoints []).
Proof.
  unfold generateDefaultPluginEntryPoints, fs_writeJSON, fs_ensureDir, fs_writeFile.
  each_event; first [exact I | reflexivity].
Qed.

Lemma after_reset_nobundled_events (isInsidersBuild : bool) (s : State) :
  truthy (env s "FLIPPER_DEFAULT_PLUGINS_DIR") = false ->
  truthy (env s "FLIPPER_NO_BUNDLED_PLUGINS") = true ->
  Forall writes_no_plugin (events (prepare_after_reset isInsidersBuild s)).
Proof.
  intros Hdir Hnb. unfold prepare_after_reset.
  rewrite bind_process_env, Hdir.
  apply Forall_events_bind; [|intros; repeat constructor].
  rewrite bind_process_env.
  apply Forall_events_bind.
  - destruct (truthy (env s "FLIPPER_NO_DEFAULT_PLUGINS")).
    + constructor.
    + unfold getSourcePlugins. rewrite events_call. repeat constructor.
  - intros sourcePlugins _. cbv zeta. rewrite bind_process_env.
    replace (env (final ((if truthy (env s "FLIPPER_NO_DEFAULT_PLUGINS")
                          then ret [] else getSourcePlugins) s)))
      with (env s).
    + rewrite Hnb. apply always_bind.
      * apply always_build_writes_no_plugin.
      * intros _. apply always_generate_empty_writes_no_plugin.
    + destruct (truthy (env s "FLIPPER_NO_DEFAULT_PLUGINS")); [reflexivity|].
      unfold getSourcePlugins. now rewrite env_final_call.
Qed.

Lemma after_reset_nobundled_files (isInsidersBuild : bool) (s : State) :
  truthy (env s "FLIPPER_DEFAULT_PLUGINS_DIR") = false ->
  truthy (env s "FLIPPER_NO_BUNDLED_PLUGINS") = true ->
  ensures (prepare_after_reset isInsidersBuild) s (fun _ s' =>
    files s' bundled_json = Some (File ("[]" ++ newline))
    /\ files s' (index_tsx appDir) = Some (File (generatedIndex ""))
    /\ files s' (index_tsx browserUiDir) = Some (File (generatedIndex ""))).
Proof.
  intros Hdir Hnb. unfold prepare_after_reset.
  apply ensures_bind, ensures_process_env. rewrite Hdir.
  apply ensures_bind, ensures_bind, ensures_process_env, ensures_bind.
  assert (Hrest : forall sourcePlugins s1, env s1 = env s ->
    ensures
      (noBundledPlugins <- process_env "FLIPPER_NO_BUNDLED_PLUGINS" ;;
       if truthy noBundledPlugins then
         buildDefaultPlugins (defaultPlugins_of isInsidersBuild sourcePlugins) ;;
         generateDefaultPluginEntryPoints []
       else
         generateDefaultPluginEntryPoints
           (defaultPlugins_of isInsidersBuild sourcePlugins))
      s1
      (fun _ s' =>
         ensures (console_log "✅  Prepared default plugins.") s' (fun _ s'' =>
           files s'' bundled_json = Some (File ("[]" ++ newline))
           /\ files s'' (index_tsx appDir) = Some (File (generatedIndex ""))
           /\ files s'' (index_tsx browserUiDir) = Some (File (generatedIndex ""))))).
  { intros sourcePlugins s1 Henv.
    apply ensures_bind, ensures_process_env. rewrite Henv, Hnb.
    apply ensures_bind, ensures_any. intros _ s2.
    eapply ensures_weaken; [|apply generate_returns_files].
    intros _ s' (H1 & H2 & H3 & _). apply ensures_console_log. auto. }
  destruct (truthy (env s "FLIPPER_NO_DEFAULT_PLUGINS")).
  - apply ensures_ret. now apply Hrest.
  - unfold getSourcePlugins. apply ensures_call. intros sourcePlugins f _.
    now apply Hrest.
Qed.

(** C10. With pre-bundling disabled and no override directory, the run
    writes the manifest and both loader modules from the empty list,
    whichever plugins were selected, built and linked before: every
    manifest written is the empty array, every loader module written
    loads no plugin, and that is what is on disk when the run returns. *)
Theorem no_bundled_plugins_generates_empty (isInsidersBuild : bool) (s : State) :
  truthy (env s "FLIPPER_DEFAULT_PLUGINS_DIR") = false ->
  truthy (env s "FLIPPER_NO_BUNDLED_PLUGINS") = true ->
  Forall writes_no_plugin (events (prepareDefaultPlugins isInsidersBuild s))
  /\ (result_of (prepareDefaultPlugins isInsidersBuild s) = Returned tt ->
      let disk := files (final (prepareDefaultPlugins isInsidersBuild s)) in
      disk bundled_json = Some (File ("[]" ++ newline))
      /\ disk (index_tsx appDir) = Some (File (generatedIndex ""))
      /\ disk (index_tsx browserUiDir) = Some (File (generatedIndex ""))).
Proof.
  intros Hdir Hnb. rewrite prepareDefaultPlugins_unfold. split.
  - unfold fs_emptyDir. rewrite events_bind_log, events_bind_call.
    constructor; [exact I|]. constructor; [exact I|].
    destruct (fst _); [|constructor].
    now apply after_reset_nobundled_events.
  - intros R. cbv zeta.
    apply (@ensures_elim _ _ s
             (fun _ s' =>
                files s' bundled_json = Some (File ("[]" ++ newline))
                /\ files s' (index_tsx appDir) = Some (File (generatedIndex ""))
                /\ files s' (index_tsx browserUiDir) = Some (File (generatedIndex "")))
             tt); [|exact R].
    apply ensures_bind, ensures_console_log, ensures_bind.
    unfold fs_emptyDir. apply ensures_call. intros a f Hf.
    now apply after_reset_nobundled_files.
Qed.

(** ** Building and linking the default plugins *)

Lemma build_and_link_run (plugin : Installed.t) (s : State) :
  result_of (build_and_link plugin s) = Returned tt
  /\ env (final (build_and_link plugin s)) = env s
  /\ attempt (truthy (env s "FLIPPER_NO_REBUILD_PLUGINS")) plugin
             (events (build_and_link plugin s)).
Proof.
  unfold build_and_link, try_catch, bind, when, runBuild, fs_ensureSymlink, call,
    console_log, console_error, process_env.
  cbn -[path_resolve path_join String.append fs.ensureSymlink].
  destruct (truthy (env s "FLIPPER_NO_REBUILD_PLUGINS")) eqn:Hnr;
    cbn -[path_resolve path_join String.append fs.ensureSymlink].
  - destruct (fs.ensureSymlink _ _ _ _) as [[[]|e] f];
      cbn -[path_resolve path_join String.append];
      repeat split; now constructor.
  - destruct (ext_runBuild _ _ _) as [[[]|e] f];
      cbn -[path_resolve path_join String.append fs.ensureSymlink].
    + destruct (fs.ensureSymlink _ _ _ _) as [[[]|e] f'];
        cbn -[path_resolve path_join String.append];
        repeat split; now constructor.
    + repeat split; now constructor.
Qed.

Lemma for_of_build_and_link (l : list Installed.t) (s : State) :
  result_of (for_of l build_and_link s) = Returned tt
  /\ exists chunks,
       events (for_of l build_and_link s) = concat chunks
       /\ Forall2 (attempt (truthy (env s "FLIPPER_NO_REBUILD_PLUGINS"))) l chunks.
Proof.
  revert s. induction l as [|plugin l IH]; intros s; simpl.
  - split; [reflexivity|]. exists []. split; [reflexivity | constructor].
  - destruct (build_and_link_run plugin s) as (R & E & A).
    rewrite result_bind, events_bind, R.
    destruct (IH (final (build_and_link plugin s))) as (R' & chunks & Ev & F).
    split; [exact R'|].
    exists (events (build_and_link plugin s) :: chunks). split.
    + simpl. now rewrite Ev.
    + constructor; [exact A|]. now rewrite E in F.
Qed.

(** C5. [buildDefaultPlugins] always returns: it goes through the whole
    list in order, each plugin gets its attempt, and an error thrown by a
    build or a link is logged for that plugin and goes no further. *)
Theorem build_failures_are_isolated (defaultPlugins : list Installed.t) (s : State) :
  result_of (buildDefaultPlugins defaultPlugins s) = Returned tt
  /\ exists intro chunks,
       events (buildDefaultPlugins defaultPlugins s) = (intro ++ concat chunks)%list
       /\ calls_of intro = []
       /\ Forall2 (attempt (truthy (env s "FLIPPER_NO_REBUILD_PLUGINS")))
                  defaultPlugins chunks.
Proof.
  unfold buildDefaultPlugins. fold build_and_link.
  rewrite bind_process_env, result_bind, events_bind.
  destruct (for_of_build_and_link defaultPlugins s) as (R & chunks & Ev & F).
  destruct (truthy (env s "FLIPPER_NO_REBUILD_PLUGINS")) eqn:Hnr.
  - cbn [when]. split; [exact R|].
    eexists. exists chunks. split; [|split; [|exact F]].
    + cbn [result_of final events console_log]. now rewrite Ev.
    + reflexivity.
  - cbn [when]. split; [exact R|].
    exists [], chunks. split; [|split; [reflexivity | exact F]].
    cbn [result_of final events ret]. now rewrite Ev.
Qed.

(** ** Compiling the bundles *)

Ltac unfold_compile :=
  unfold compileTarget, compileRenderer, compileMain, compileServerMain, compile, die,
    getAppWatchFolders, getPluginSourceFolders, getWatchFolders, Metro_loadConfig,
    Metro_runBuild, stripSourceMapComment, fs_mkdir.






(** *** Failing compilations *)

(** One of the recorded events is the given one: decided case by case. *)
Ltac among H :=
  cbn [In] in H;
  repeat match type of H with
         | _ \/ _ => destruct H as [H|H]
         | False => contradiction
         | _ = _ => first [discriminate H | injection H as ? ? ?; subst
                           | injection H as ? ?; subst ]
         end.

Lemma renderer_engine_failure_is_fatal (buildFolder : string) (s : State)
    (config : Metro.Config) (options : Metro.Options) (e : Error) :
  In (Called (MetroRunBuild config options) (Some e))
     (events (compileRenderer buildFolder s)) ->
  result_of (compileRenderer buildFolder s) = Exited 1
  /\ In (LoggedError "Script termnated." e) (events (compileRenderer buildFolder s))
  /\ In (ProcessExited 1) (events (compileRenderer buildFolder s)).
Proof.
  unfold_compile; destruct dev; run_through; intros H; among H;
    cbn [In]; repeat split; auto 10.
Qed.

Lemma main_engine_failure_is_fatal (s : State)
    (config : Metro.Config) (options : Metro.Options) (e : Error) :
  In (Called (MetroRunBuild config options) (Some e)) (events (compileMain s)) ->
  result_of (compileMain s) = Exited 1
  /\ In (LoggedError "Script termnated." e) (events (compileMain s))
  /\ In (ProcessExited 1) (events (compileMain s)).
Proof.
  unfold_compile; destruct dev; run_through; intros H; among H;
    cbn [In]; repeat split; auto 10.
Qed.

Lemma server_engine_failure_propagates (s : State)
    (config : Metro.Config) (options : Metro.Options) (e : Error) :
  In (Called (MetroRunBuild config options) (Some e)) (events (compileServerMain s)) ->
  result_of (compileServerMain s) = Thrown e.
Proof.
  unfold_compile; destruct dev; run_through; intros H; among H;
    reflexivity.
Qed.

Lemma main_never_throws (s : State) (e : Error) :
  result_of (compileMain s) <> Thrown e.
Proof.
  unfold_compile; destruct dev; run_through; discriminate.
Qed.

Lemma renderer_throws_before_compiling (buildFolder : string) (s : State) (e : Error) :
  result_of (compileRenderer buildFolder s) = Thrown e ->
  calls_of (events (compileRenderer buildFolder s)) = [GetAppWatchFolders]
  \/ calls_of (events (compileRenderer buildFolder s))
     = [GetAppWatchFolders; GetPluginSourceFolders].
Proof.
  unfold_compile; destruct dev; run_through; intros H;
    try discriminate H; auto.
Qed.

(** C6. When the engine throws while compiling the renderer or the main
    bundle, [die] logs the error and ends the process with code 1, and
    the caller sees no error: [compileMain] never throws, and
    [compileRenderer] throws only from the watch-folder lookups made
    before compiling.  When the engine throws while compiling the server
    bundle, [compileServerMain] throws that same error. *)
Theorem compile_failure_policy (s : State)
    (config : Metro.Config) (options : Metro.Options) (e : Error) :
  (forall buildFolder,
      In (Called (MetroRunBuild config options) (Some e))
         (events (compileRenderer buildFolder s)) ->
      result_of (compileRenderer buildFolder s) = Exited 1
      /\ In (LoggedError "Script termnated." e) (events (compileRenderer buildFolder s))
      /\ In (ProcessExited 1) (events (compileRenderer buildFolder s)))
  /\ (In (Called (MetroRunBuild config options) (Some e)) (events (compileMain s)) ->
      result_of (compileMain s) = Exited 1
      /\ In (LoggedError "Script termnated." e) (events (compileMain s))
      /\ In (ProcessExited 1) (events (compileMain s)))
  /\ (In (Called (MetroRunBuild config options) (Some e))
         (events (compileServerMain s)) ->
      result_of (compileServerMain s) = Thrown e)
  /\ result_of (compileMain s) <> Thrown e
  /\ (forall buildFolder,
      result_of (compileRenderer buildFolder s) = Thrown e ->
      calls_of (events (compileRenderer buildFolder s)) = [GetAppWatchFolders]
      \/ calls_of (events (compileRenderer buildFolder s))
         = [GetAppWatchFolders; GetPluginSourceFolders]).
Proof.
  split; [|split; [|split; [|split]]].
  - intros buildFolder H. eapply renderer_engine_failure_is_fatal; eassumption.
  - intros H. eapply main_engine_failure_is_fatal; eassumption.
  - apply server_engine_failure_propagates.
  - apply main_never_throws.
  - intros buildFolder. apply renderer_throws_before_compiling.
Qed.

(** ** Moving the source maps *)

(** C4. Given a destination (a non-empty string), once [moveSourceMaps]
    has returned the two source-map files, regular files before the call,
    are gone from the build folder and the static directory and are in
    the destination directory with their content; given none, once it
    has returned neither of the two is left. *)
Theorem source_maps_moved_or_removed
    (buildFolder : string) (sourceMapFolder : option string) (s : State) :
  let mainBundleMap := path_join (path_resolve cwd buildFolder) "bundle.map" in
  let rendererBundleMap := path_join staticDir "main.bundle.map" in
  let destination := path_resolve cwd (shown sourceMapFolder) in
  let after := files (final (moveSourceMaps buildFolder sourceMapFolder s)) in
  (truthy sourceMapFolder = true ->
   is_file (files s mainBundleMap) = true ->
   is_file (files s rendererBundleMap) = true ->
   result_of (moveSourceMaps buildFolder sourceMapFolder s) = Returned tt ->
   after mainBundleMap = None
   /\ after rendererBundleMap = None
   /\ after (path_join destination "bundle.map") = files s mainBundleMap
   /\ after (path_join destination "main.bundle.map") = files s rendererBundleMap)
  /\ (truthy sourceMapFolder = false ->
      result_of (moveSourceMaps buildFolder sourceMapFolder s) = Returned tt ->
      after mainBundleMap = None
      /\ after rendererBundleMap = None).
Proof.
  cbv zeta. unfold moveSourceMaps.
  change (path_join (path_resolve cwd buildFolder) "bundle.map")
    with (path_resolve cwd buildFolder ++ ["bundle.map"])%list.
  change (path_join staticDir "main.bundle.map")
    with (staticDir ++ ["main.bundle.map"])%list.
  change (path_join (path_resolve cwd (shown sourceMapFolder)) "bundle.map")
    with (path_resolve cwd (shown sourceMapFolder) ++ ["bundle.map"])%list.
  change (path_join (path_resolve cwd (shown sourceMapFolder)) "main.bundle.map")
    with (path_resolve cwd (shown sourceMapFolder) ++ ["main.bundle.map"])%list.
  generalize (path_resolve cwd buildFolder) as bf.
  generalize (path_resolve cwd (shown sourceMapFolder)) as d.
  intros d bf. split.
  - intros Htruthy Ha Hb. rewrite Htruthy.
    unfold fs_ensureDir_at, fs_move.
    rewrite bind_log, bind_call.
    destruct (fs.ensureDirs (path_named cwd (shown sourceMapFolder)) (files s))
      as [[u|e] f1] eqn:Edir;
      cbn [prepend result_of final files env]; [|discriminate].
    rewrite bind_call. cbn [files env].
    destruct (fs.move (bf ++ ["bundle.map"])%list (d ++ ["bundle.map"])%list true f1)
      as [[u1|e1] f2] eqn:Emove1;
      cbn [prepend result_of final files env]; [|discriminate].
    rewrite bind_call. cbn [files env].
    destruct (fs.move (staticDir ++ ["main.bundle.map"])%list
                      (d ++ ["main.bundle.map"])%list true f2)
      as [[u2|e2] f3] eqn:Emove2;
      cbn [prepend result_of final files env console_log]; [|discriminate].
    intros _.
    destruct (@both_moved d bf staticDir _ _ _ _ _ _ _ _ Edir Emove1 Emove2 Ha Hb)
      as (G1 & G2 & G3 & G4 & _).
    auto.
  - intros Hfalsy. rewrite Hfalsy. unfold fs_remove.
    rewrite bind_log, bind_call.
    destruct (fs.remove (bf ++ ["bundle.map"])%list (files s))
      as [[u1|e1] f1] eqn:Eremove1;
      cbn [prepend result_of final files env]; [|discriminate].
    rewrite bind_call. cbn [files env].
    destruct (fs.remove (staticDir ++ ["main.bundle.map"])%list f1)
      as [[u2|e2] f2] eqn:Eremove2;
      cbn [prepend result_of final files env console_log]; [|discriminate].
    intros _.
    apply remove_inv in Eremove1, Eremove2. subst f1 f2.
    unfold fs.remove_tree. rewrite !is_prefix_refl. split; [|reflexivity].
    now destruct (is_prefix _ _).
Qed.

End Properties.

(** * Further properties *)

(** ** Splitting and joining *)

Lemma lacks_app (sep : ascii) (s t : string) :
  lacks sep s -> lacks sep t -> lacks sep (s ++ t).
Proof.
  induction s as [|c s IH]; simpl; [auto|]. intros [Hc Hs] Ht. auto.
Qed.

Lemma append_assoc (s t u : string) : (s ++ t) ++ u = s ++ (t ++ u).
Proof. induction s as [|c s IH]; simpl; [reflexivity | now rewrite IH]. Qed.

Lemma append_empty_r (s : string) : s ++ "" = s.
Proof. induction s as [|c s IH]; simpl; [reflexivity | now rewrite IH]. Qed.

Lemma split_from_lacking (sep : ascii) (x rest cur : string) :
  lacks sep x -> split_from sep (x ++ rest) cur = split_from sep rest (cur ++ x).
Proof.
  revert cur. induction x as [|c x IH]; intros cur; simpl.
  - intros _. now rewrite append_empty_r.
  - intros [Hc Hx]. rewrite Hc, IH by assumption.
    now rewrite append_assoc.
Qed.

Lemma split_from_lacks (sep : ascii) (s cur : string) :
  lacks sep cur -> Forall (lacks sep) (split_from sep s cur).
Proof.
  revert cur. induction s as [|c s IH]; intros cur Hcur; simpl.
  - now constructor.
  - destruct (Ascii.eqb c sep) eqn:E.
    + constructor; [assumption | now apply IH].
    + apply IH. apply lacks_app; [assumption | simpl; auto].
Qed.

Lemma split_lacks (sep : ascii) (s : string) : Forall (lacks sep) (split sep s).
Proof. apply split_from_lacks. exact I. Qed.

(** Joining and splitting again gives the parts back, the last one split
    where it holds the separator itself. *)
Lemma split_join_last (sep : ascii) (l : list string) (t : string) :
  Forall (lacks sep) l ->
  split sep (join (String sep "") (l ++ [t])) = (l ++ split sep t)%list.
Proof.
  intros Hl. induction Hl as [|x l Hx Hl IH]; [reflexivity|].
  unfold split in *.
  assert (E : join (String sep "") ((x :: l) ++ [t])
              = x ++ String sep (join (String sep "") (l ++ [t]))).
  { simpl. destruct (l ++ [t])%list eqn:El; [|reflexivity].
    now apply app_eq_nil in El as [_ El]. }
  rewrite E, split_from_lacking by assumption. simpl.
  rewrite Ascii.eqb_refl. f_equal. exact IH.
Qed.

Lemma split_lacking (sep : ascii) (s : string) : lacks sep s -> split sep s = [s].
Proof.
  intros H. unfold split. rewrite <- (append_empty_r s) at 1.
  now rewrite split_from_lacking.
Qed.

Lemma string_of_uint_lacks_dot (d : Decimal.uint) :
  lacks "." (NilEmpty.string_of_uint d).
Proof. induction d; simpl; auto. Qed.

Lemma string_of_Z_lacks_dot (z : Z) : lacks "." (string_of_Z z).
Proof.
  unfold string_of_Z, NilZero.string_of_int, NilZero.string_of_uint.
  destruct (Z.to_int z) as [d|d]; [|split; [reflexivity|]];
    destruct d; try apply string_of_uint_lacks_dot; simpl; auto.
Qed.

(** ** Lists made of chunks *)

(** An element of a list made of chunks lies in one of the chunks. *)
Lemma concat_split {A} (chunks : list (list A)) :
  forall (pre post : list A) (x : A),
    concat chunks = (pre ++ x :: post)%list ->
    exists cs1 c cs2 a b,
      chunks = (cs1 ++ c :: cs2)%list
      /\ c = (a ++ x :: b)%list
      /\ pre = (concat cs1 ++ a)%list
      /\ post = (b ++ concat cs2)%list.
Proof.
  induction chunks as [|c chunks IH]; intros pre post x H.
  - destruct pre; discriminate.
  - simpl in H. apply app_eq_app in H as [l [[Hc Hrest]|[Hpre Hrest]]].
    + destruct l as [|y l].
      * rewrite app_nil_r in Hc. subst c. simpl in Hrest. symmetry in Hrest.
        destruct (IH [] post x Hrest) as (cs1 & c' & cs2 & a & b & E1 & E2 & E3 & E4).
        exists (pre :: cs1), c', cs2, a, b. subst chunks.
        split; [reflexivity|]. split; [assumption|]. split; [|assumption].
        simpl. now rewrite <- app_assoc, <- E3, app_nil_r.
      * injection Hrest as <- ->.
        exists [], c, chunks, pre, l. repeat split. assumption.
    + destruct (IH l post x Hrest) as (cs1 & c' & cs2 & a & b & E1 & E2 & E3 & E4).
      exists (c :: cs1), c', cs2, a, b. subst chunks l.
      split; [reflexivity|]. split; [assumption|]. split; [|assumption].
      rewrite Hpre. simpl. now rewrite app_assoc.
Qed.

(** ** Actions that leave no event *)

Lemma try_catch_outside {A} (sem : FS -> result A * FS) (h : Error -> M A) (s : State) :
  try_catch (outside sem) h s =
  match sem (files s) with
  | (Ok a, f) => mkRun (Returned a) (mkState f (env s)) []
  | (Err e, f) => prepend [] (h e (mkState f (env s)))
  end.
Proof.
  unfold try_catch, outside, prepend. now destruct (sem (files s)) as [[a|e] f].
Qed.

Lemma try_catch_bind_outside {A B} (sem : FS -> result A * FS) (k : A -> M B)
    (h : Error -> M B) (s : State) :
  try_catch (bind (outside sem) k) h s =
  match sem (files s) with
  | (Ok a, f) => prepend [] (try_catch (k a) h (mkState f (env s)))
  | (Err e, f) => prepend [] (h e (mkState f (env s)))
  end.
Proof.
  unfold try_catch, bind, outside, prepend.
  destruct (sem (files s)) as [[a|e] f]; simpl; [|reflexivity].
  destruct (k a _) as [[b|e|c] s1 evs]; reflexivity.
Qed.

Lemma bind_process_exit {B} (code : Z) (k : unit -> M B) (s : State) :
  bind (process_exit code) k s = mkRun (Exited code) s [ProcessExited code].
Proof. reflexivity. Qed.

Ltac run_on :=
  repeat first
    [ run_step
    | rewrite try_catch_bind_outside
    | rewrite try_catch_outside
    | rewrite bind_process_exit ].

(** ** Scripts through the reading of the environment *)

Lemma proceeds_process_env {B} (var : string) (k : option string -> M B) (s : State)
    (script : list Call) :
  proceeds (k (env s var)) s script -> proceeds (bind (process_env var) k) s script.
Proof. unfold proceeds. now rewrite bind_process_env. Qed.

Lemma proceeds_ret {A} (a : A) (s : State) : proceeds (ret a) s [].
Proof. split; [now exists 0 | reflexivity]. Qed.

(** ** Where the error of a failing call goes *)

Lemma escapes_bind {A B} (P : Call -> Prop) (m : M A) (k : A -> M B) :
  escapes P m -> (forall a, escapes P (k a)) -> escapes P (bind m k).
Proof.
  intros Hm Hk s c e. rewrite events_bind, result_bind. intros H.
  apply in_app_or in H as [H|H].
  - destruct (Hm s c e H) as [HP|Hr]; [now left | right; now rewrite Hr].
  - destruct (result_of (m s)) as [a| |]; [|contradiction|contradiction].
    now apply (Hk a).
Qed.

Lemma escapes_call {A} (P : Call -> Prop) (c : Call) (sem : FS -> result A * FS) :
  escapes P (call c sem).
Proof.
  intros s c' e. rewrite events_call, result_call. intros [H|[]].
  injection H as _ H. right. destruct (fst (sem (files s))); [discriminate|].
  simpl in H. now injection H as ->.
Qed.

Lemma escapes_quiet {A} (P : Call -> Prop) (m : M A) :
  always (fun ev => match ev with
                    | Called c (Some _) => P c
                    | _ => True
                    end) m ->
  escapes P m.
Proof.
  intros H s c e Hin. left.
  apply (proj1 (Forall_forall _ _) (H s)) in Hin. exact Hin.
Qed.

(** ** Computations that do not end the process *)

Lemma never_exits_bind {A B} (m : M A) (k : A -> M B) :
  never_exits m -> (forall a, never_exits (k a)) -> never_exits (bind m k).
Proof.
  intros Hm Hk s code. rewrite result_bind.
  destruct (result_of (m s)) eqn:E; [apply Hk | discriminate |].
  intros H. apply (Hm s code0). congruence.
Qed.

Lemma never_exits_try_catch {A} (m : M A) (h : Error -> M A) :
  never_exits m -> (forall e, never_exits (h e)) -> never_exits (try_catch m h).
Proof.
  intros Hm Hh s code. rewrite result_try_catch.
  destruct (result_of (m s)) eqn:E; [discriminate | apply Hh |].
  intros H. apply (Hm s code0). congruence.
Qed.

Lemma never_exits_for_of {A} (l : list A) (body : A -> M unit) :
  (forall x, never_exits (body x)) -> never_exits (for_of l body).
Proof.
  intros H. induction l as [|x l IH]; simpl.
  - intros s code. discriminate.
  - apply never_exits_bind; [apply H | intros _; exact IH].
Qed.

Lemma never_exits_when (b : bool) (m : M unit) :
  never_exits m -> never_exits (when b m).
Proof. intros H. destruct b; [exact H|]. intros s code. discriminate. Qed.

Lemma never_exits_call {A} (c : Call) (sem : FS -> result A * FS) :
  never_exits (call c sem).
Proof.
  intros s code. rewrite result_call. destruct (fst (sem (files s))); discriminate.
Qed.

Lemma never_exits_quiet {A} (m : M A) :
  (forall s, exists a, result_of (m s) = Returned a) -> never_exits m.
Proof. intros H s code. destruct (H s) as [a ->]. discriminate. Qed.

Ltac no_exit :=
  repeat first
    [ apply never_exits_call
    | apply never_exits_bind; [|intros ?]
    | apply never_exits_try_catch; [|intros ?]
    | apply never_exits_for_of; intros ?
    | apply never_exits_when
    | match goal with
      | |- never_exits (if ?b then _ else _) => destruct b
      end
    | (apply never_exits_quiet; intros ?; eexists; reflexivity) ].

Section FurtherProperties.

Context {host : Host} {tools : Tools}.

Ltac unfold_targets :=
  unfold compileRenderer, compileMain, compileServerMain, compile, die,
    getAppWatchFolders, getPluginSourceFolders, getWatchFolders, Metro_loadConfig,
    Metro_runBuild, stripSourceMapComment, fs_mkdir.

(** Finds the given event among the recorded ones, case by case. *)
Ltac found H :=
  cbn [In] in H;
  repeat match type of H with
         | _ \/ _ => destruct H as [H|H]
         | False => contradiction
         | _ = _ => first [ discriminate H
                          | injection H as ? ?; subst
                          | injection H as ?; subst ]
         end.

(** ** The version number *)

(** X1. Without a build number, and with a falsy one (0 and NaN are),
    [getVersionNumber] is the package version.  With any other number the
    result, split at the dots, is the first two components of the package
    version followed by the components of the string the number converts
    to: by that string alone when it holds no dot, as for the integers of
    magnitude up to 2^53, which convert to their plain decimal form. *)
Theorem getVersionNumber_replaces_patch (buildNumber : option Number) :
  match buildNumber with
  | Some n =>
      if is_falsy n then getVersionNumber buildNumber = version
      else split "." (getVersionNumber buildNumber)
           = (firstn 2 (split "." version) ++ split "." (toString n))%list
  | None => getVersionNumber buildNumber = version
  end
  /\ forall z,
       (Z.abs z <= 2 ^ 53)%Z -> z <> 0%Z -> buildNumber = Some (Number_of_Z z) ->
       split "." (getVersionNumber buildNumber)
       = (firstn 2 (split "." version) ++ [string_of_Z z])%list.
Proof.
  assert (Hparts : Forall (lacks ".") (firstn 2 (split "." version))).
  { apply Forall_forall. intros x Hx.
    apply (proj1 (Forall_forall _ _) (split_lacks "." version)).
    rewrite <- (firstn_skipn 2). apply in_or_app. now left. }
  assert (Hany : forall n, is_falsy n = false ->
    split "." (getVersionNumber (Some n))
    = (firstn 2 (split "." version) ++ split "." (toString n))%list).
  { intros n Hn. unfold getVersionNumber. rewrite Hn. now apply split_join_last. }
  split.
  - destruct buildNumber as [n|]; [|reflexivity].
    destruct (is_falsy n) eqn:Hn; [|now apply Hany].
    unfold getVersionNumber. now rewrite Hn.
  - intros z _ Hz ->. rewrite Hany.
    + cbn [Number_of_Z toString]. now rewrite (split_lacking _ _ (string_of_Z_lacks_dot z)).
    + cbn [Number_of_Z is_falsy]. now apply Z.eqb_neq.
Qed.

(** ** The workspace *)

(** X2. [buildFolder] never throws: it returns the directory the platform
    created, or, when none could be created, logs the error through [die]
    and ends the process with code 1. *)
Theorem buildFolder_returns_or_dies (s : State) :
  match ext_tmp_dir "flipper-build-" (files s) with
  | (Ok folder, f) =>
      result_of (buildFolder s) = Returned folder
      /\ events (buildFolder s) = [Logged "Creating build directory"]
      /\ files (final (buildFolder s)) = f
  | (Err e, _) =>
      result_of (buildFolder s) = Exited 1
      /\ events (buildFolder s)
         = [ Logged "Creating build directory";
             LoggedError "Script termnated." e;
             ProcessExited 1 ]
  end.
Proof.
  unfold buildFolder, tmp_dir, die. rewrite bind_log, try_catch_outside.
  destruct (ext_tmp_dir "flipper-build-" (files s)) as [[folder|e] f].
  - repeat split.
  - run_on. repeat split.
Qed.

(** ** The revision *)

(** X3. [genMercurialRevision] always returns and logs nothing: the
    revision is what the process wrote to its standard output, and there
    is none when the process could not be run or wrote nothing. *)
Theorem genMercurialRevision_is_best_effort (s : State) :
  events (genMercurialRevision s) = []
  /\ match fst (ext_spawn "hg" ["log"; "-r"; "."; "-T"; "{node}"] (files s)) with
     | Ok (Some res) =>
         match stdout_string res with
         | Some out =>
             result_of (genMercurialRevision s)
             = Returned (if out =? "" then None else Some out)
         | None => result_of (genMercurialRevision s) = Returned None
         end
     | _ => result_of (genMercurialRevision s) = Returned None
     end.
Proof.
  unfold genMercurialRevision, spawn.
  rewrite try_catch_bind_outside.
  destruct (ext_spawn _ _ _) as [[[res|]|e] f]; cbn; [|auto|auto].
  destruct (stdout_string res) as [out|]; cbn; [|auto].
  destruct (out =? ""); cbn; auto.
Qed.

(** ** Failing calls of the plugin preparation *)

Ltac unfold_prepare :=
  unfold prepareDefaultPlugins, generateDefaultPluginEntryPoints, buildDefaultPlugins,
    fs_emptyDir, fs_copy, fs_writeJSON, fs_ensureDir, fs_writeFile, fs_ensureSymlink,
    getSourcePlugins, runBuild.

(** X8. [prepareDefaultPlugins] never ends the process, and the only
    errors it keeps from its caller are those of the build and the link
    of a single plugin: when any other call throws (emptying the
    directory, copying the override, enumerating the plugins, writing
    the manifest or a loader module) it throws that error. *)
Theorem prepareDefaultPlugins_failures_reach_caller (isInsidersBuild : bool) (s : State) :
  (forall c e,
      In (Called c (Some e)) (events (prepareDefaultPlugins isInsidersBuild s)) ->
      builds_or_links c
      \/ result_of (prepareDefaultPlugins isInsidersBuild s) = Thrown e)
  /\ (forall code,
      result_of (prepareDefaultPlugins isInsidersBuild s) <> Exited code).
Proof.
  split.
  - revert s. change (escapes builds_or_links (prepareDefaultPlugins isInsidersBuild)).
    unfold prepareDefaultPlugins, generateDefaultPluginEntryPoints,
      fs_emptyDir, fs_copy, fs_writeJSON, fs_ensureDir, fs_writeFile, getSourcePlugins.
    repeat first
      [ apply escapes_call
      | (apply escapes_quiet;
         cbv delta [buildDefaultPlugins runBuild fs_ensureSymlink];
         each_event;
         first [ exact I
               | match goal with r : option Error |- _ => destruct r end; exact I ])
      | apply escapes_bind; [|intros ?]
      | match goal with
        | |- escapes _ (if ?b then _ else _) => destruct b
        end ].
  - revert s. change (never_exits (prepareDefaultPlugins isInsidersBuild)).
    unfold_prepare. no_exit.
Qed.

(** ** The plugins that get bundled *)

Lemma buildDefaultPlugins_nothing (s : State) : proceeds (buildDefaultPlugins []) s [].
Proof.
  unfold buildDefaultPlugins. apply proceeds_process_env.
  change (@nil Call) with (@nil Call ++ [])%list.
  apply proceeds_bind; [|intros; apply proceeds_ret].
  destruct (truthy _); [apply proceeds_console_log | apply proceeds_ret].
Qed.

(** X9. With no override directory and neither of the two default-plugin
    switches, once the directory is reset and the enumeration has
    returned, [prepareDefaultPlugins] writes the manifest and both loader
    modules for the plugins it keeps of the enumeration: all of them, in
    the order of the enumeration, unless the build is for insiders. *)
Theorem prepareDefaultPlugins_bundles_the_enumeration
    (isInsidersBuild : bool) (s : State) (f1 f2 : FS) (sourcePlugins : list Installed.t) :
  truthy (env s "FLIPPER_DEFAULT_PLUGINS_DIR") = false ->
  truthy (env s "FLIPPER_NO_DEFAULT_PLUGINS") = false ->
  truthy (env s "FLIPPER_NO_BUNDLED_PLUGINS") = false ->
  fs.emptyDir defaultPluginsDir (files s) = (Ok tt, f1) ->
  ext_getSourcePlugins f1 = (Ok sourcePlugins, f2) ->
  proceeds (prepareDefaultPlugins isInsidersBuild) s
    [ EmptyDir defaultPluginsDir;
      GetSourcePlugins;
      WriteJSON bundled_json
        (map bundledPlugin (defaultPlugins_of isInsidersBuild sourcePlugins));
      EnsureDir (defaultPlugins_src appDir);
      WriteFile (index_tsx appDir)
        (loader_text (defaultPlugins_of isInsidersBuild sourcePlugins));
      EnsureDir (defaultPlugins_src browserUiDir);
      WriteFile (index_tsx browserUiDir)
        (loader_text (defaultPlugins_of isInsidersBuild sourcePlugins)) ]
  /\ defaultPlugins_of false sourcePlugins = sourcePlugins.
Proof.
  intros Hdir Hnd Hnb Hempty Hsource. split.
  - rewrite prepareDefaultPlugins_unfold. eapply proceeds_as.
    + eapply proceeds_bind; [apply proceeds_console_log | intros ? _].
      eapply proceeds_bind; [unfold fs_emptyDir; apply proceeds_call | intros ? _].
      unfold fs_emptyDir. rewrite final_call.
      cbn [final console_log files env]. rewrite Hempty. cbn [snd].
      unfold prepare_after_reset.
      apply proceeds_process_env. cbn [env]. rewrite Hdir.
      eapply proceeds_bind; [|intros ? _; apply proceeds_console_log].
      apply proceeds_process_env. cbn [env]. rewrite Hnd.
      eapply proceeds_bind; [unfold getSourcePlugins; apply proceeds_call|].
      intros sp Hsp. unfold getSourcePlugins in *.
      rewrite result_call in Hsp. rewrite final_call. cbn [files env] in *.
      rewrite Hsource in *. cbn [fst snd] in *. injection Hsp as <-.
      cbv zeta. apply proceeds_process_env. cbn [env]. rewrite Hnb.
      apply generate_proceeds.
    + reflexivity.
  - clear Hsource. unfold defaultPlugins_of. cbn [negb orb].
    induction sourcePlugins as [|p l IH]; [reflexivity | simpl; now rewrite IH].
Qed.

(** X10. With [FLIPPER_NO_DEFAULT_PLUGINS] and no override directory the
    plugins are not enumerated and none is built or linked, whether or
    not pre-bundling is disabled: after the reset only the manifest and
    the two loader modules are written, for the empty list. *)
Theorem no_default_plugins_skips_the_enumeration (isInsidersBuild : bool) (s : State) :
  truthy (env s "FLIPPER_DEFAULT_PLUGINS_DIR") = false ->
  truthy (env s "FLIPPER_NO_DEFAULT_PLUGINS") = true ->
  proceeds (prepareDefaultPlugins isInsidersBuild) s
    [ EmptyDir defaultPluginsDir;
      WriteJSON bundled_json [];
      EnsureDir (defaultPlugins_src appDir);
      WriteFile (index_tsx appDir) (generatedIndex "");
      EnsureDir (defaultPlugins_src browserUiDir);
      WriteFile (index_tsx browserUiDir) (generatedIndex "") ].
Proof.
  intros Hdir Hnd.
  rewrite prepareDefaultPlugins_unfold. eapply proceeds_as.
  - eapply proceeds_bind; [apply proceeds_console_log | intros ? _].
    eapply proceeds_bind; [unfold fs_emptyDir; apply proceeds_call | intros ? _].
    unfold fs_emptyDir. rewrite final_call. cbn [final console_log files env].
    unfold prepare_after_reset.
    apply proceeds_process_env. cbn [env]. rewrite Hdir.
    eapply proceeds_bind; [|intros ? _; apply proceeds_console_log].
    apply proceeds_process_env. cbn [env]. rewrite Hnd.
    eapply proceeds_bind; [apply proceeds_ret | intros sp Hsp].
    injection Hsp as <-. cbn [final ret].
    cbv zeta. apply proceeds_process_env.
    change (defaultPlugins_of isInsidersBuild []) with (@nil Installed.t).
    destruct (truthy (env _ "FLIPPER_NO_BUNDLED_PLUGINS")).
    + eapply proceeds_bind; [apply buildDefaultPlugins_nothing | intros ? _].
      apply (generate_proceeds []).
    + apply (generate_proceeds []).
  - reflexivity.
Qed.

(** ** What the manifest carries *)

Lemma bundledPlugin_settled (p : Installed.t) :
  version <> "0.0.0" -> settled (bundledPlugin p).
Proof.
  intros Hv. unfold settled, bundledPlugin; simpl. repeat split.
  - destruct (String.eqb_spec (Installed.version p) "0.0.0"); assumption.
  - destruct (Installed.flipperSDKVersion p) as [v|]; [|discriminate].
    destruct (String.eqb_spec v "0.0.0"); congruence.
Qed.

(** X11. Unless the tool's own version is the placeholder 0.0.0, no
    manifest written by [prepareDefaultPlugins] carries the placeholder,
    as version or as SDK version, and every descriptor in it is marked as
    bundled and has lost its directory and entry. *)
Theorem manifests_carry_no_placeholder (isInsidersBuild : bool) :
  version <> "0.0.0" ->
  always (fun ev => match ev with
                    | Called (WriteJSON _ obj) _ => Forall settled obj
                    | _ => True
                    end)
         (prepareDefaultPlugins isInsidersBuild).
Proof.
  intros Hv. unfold_prepare. each_event; try exact I;
    apply Forall_forall; intros b Hb; apply in_map_iff in Hb as (p & <- & _);
    now apply bundledPlugin_settled.
Qed.

(** X12. When [generateDefaultPluginEntryPoints] returns, the manifest
    and the loader module of both trees are on disk with the content made
    from the list, the two loader modules being the same text; its calls
    are the writing of the manifest, then for the application tree and
    for the browser tree the making of the directory and the writing of
    the loader module. *)
Theorem generated_files_are_on_disk (l : list Installed.t) (s : State) :
  proceeds (generateDefaultPluginEntryPoints l) s
    [ WriteJSON bundled_json (map bundledPlugin l);
      EnsureDir (defaultPlugins_src appDir);
      WriteFile (index_tsx appDir) (loader_text l);
      EnsureDir (defaultPlugins_src browserUiDir);
      WriteFile (index_tsx browserUiDir) (loader_text l) ]
  /\ (result_of (generateDefaultPluginEntryPoints l s) = Returned tt ->
      files (final (generateDefaultPluginEntryPoints l s)) bundled_json
        = Some (File (manifest_text (map bundledPlugin l)))
      /\ files (final (generateDefaultPluginEntryPoints l s)) (index_tsx appDir)
         = Some (File (loader_text l))
      /\ files (final (generateDefaultPluginEntryPoints l s)) (index_tsx browserUiDir)
         = Some (File (loader_text l))).
Proof.
  split; [apply generate_proceeds|]. intros R.
  destruct (@ensures_elim _ _ _ _ _ (generate_returns_files l s) R) as (H1 & H2 & H3 & _).
  auto.
Qed.

(** ** The calls of the plugin builds *)

Lemma buildDefaultPlugins_attempts (l : list Installed.t) (s : State) :
  exists intro chunks,
    events (buildDefaultPlugins l s) = (intro ++ concat chunks)%list
    /\ calls_of intro = []
    /\ Forall2 (attempt (truthy (env s "FLIPPER_NO_REBUILD_PLUGINS"))) l chunks.
Proof.
  unfold buildDefaultPlugins. fold build_and_link.
  rewrite bind_process_env, events_bind.
  destruct (for_of_build_and_link l s) as (R & chunks & Ev & F).
  destruct (truthy (env s "FLIPPER_NO_REBUILD_PLUGINS")) eqn:Hnr; cbn [when].
  - eexists. exists chunks. split; [|split; [|exact F]].
    + cbn [result_of final events console_log]. now rewrite Ev.
    + reflexivity.
  - exists [], chunks. split; [|split; [reflexivity | exact F]].
    cbn [result_of final events ret]. now rewrite Ev.
Qed.

Lemma links_only (l : list Installed.t) (chunks : list (list Event)) :
  Forall2 (attempt true) l chunks -> calls_of (concat chunks) = map link_call l.
Proof.
  induction 1 as [|p chunk l chunks Ha _ IH]; [reflexivity|].
  simpl. rewrite calls_of_app, IH.
  inversion Ha; subst; try discriminate; reflexivity.
Qed.

Lemma builds_in_order (l : list Installed.t) (chunks : list (list Event)) :
  Forall2 (attempt false) l chunks ->
  filter is_build_call (calls_of (concat chunks)) = map build_call l.
Proof.
  induction 1 as [|p chunk l chunks Ha _ IH]; [reflexivity|].
  simpl. rewrite calls_of_app, filter_app, IH.
  inversion Ha; subst; try discriminate; reflexivity.
Qed.

Lemma no_call_among (intro : list Event) (c : Call) (r : option Error) :
  calls_of intro = [] -> ~ In (Called c r) intro.
Proof.
  induction intro as [|ev intro IH]; [intros _ []|].
  destruct ev; simpl; try discriminate; intros H [E|Hin];
    try discriminate E; now apply IH.
Qed.

(** A link among the attempts of a rebuilding run is the last step of
    the attempt of one plugin, right after the build of that plugin has
    returned. *)
Lemma link_follows_build (l : list Installed.t) (chunks : list (list Event))
    (before after : list Event) (c : Call) (r : option Error) :
  Forall2 (attempt false) l chunks ->
  concat chunks = (before ++ Called c r :: after)%list ->
  is_link_call c = true ->
  exists p earlier,
    In p l /\ c = link_call p
    /\ before = (earlier ++ [Called (build_call p) None])%list.
Proof.
  intros F H Hc.
  apply concat_split in H as (cs1 & ch & cs2 & a & b & E1 & E2 & E3 & E4).
  subst chunks. apply Forall2_app_inv_r in F as (l1 & l2 & _ & F & ->).
  inversion F as [|p ch' l2' cs2' Ha _]; subst. exists p.
  assert (Hp : In p (l1 ++ p :: l2')%list) by (apply in_or_app; right; now left).
  clear F. remember (a ++ Called c r :: b)%list as ch eqn:Ech.
  destruct Ha as [Hnr|e Hnr|msg Hnr|msg e Hnr|msg e Hnr]; try discriminate Hnr;
    repeat (destruct a as [|? a]; simpl in Ech;
            [ injection Ech as Ex Eb | injection Ech as ? Ech ]);
    try (destruct a; discriminate Ech);
    try discriminate Ex; subst; try discriminate Hc;
    (exists (concat cs1 ++ [Logged msg])%list;
     split; [exact Hp|]; split; [reflexivity|]; now rewrite <- app_assoc).
Qed.

(** X13. When rebuilding is off, [buildDefaultPlugins] builds nothing and
    calls for one link per plugin, in the order of the list.  Otherwise
    it calls for the build of every plugin, in the order of the list, and
    every link it calls for is the link of a plugin of the list whose
    build has returned as the event just before. *)
Theorem buildDefaultPlugins_builds_then_links
    (defaultPlugins : list Installed.t) (s : State) :
  if truthy (env s "FLIPPER_NO_REBUILD_PLUGINS")
  then calls_of (events (buildDefaultPlugins defaultPlugins s))
       = map link_call defaultPlugins
  else filter is_build_call (calls_of (events (buildDefaultPlugins defaultPlugins s)))
       = map build_call defaultPlugins
       /\ forall before c r after,
            events (buildDefaultPlugins defaultPlugins s)
            = (before ++ Called c r :: after)%list ->
            is_link_call c = true ->
            exists p earlier,
              In p defaultPlugins
              /\ c = link_call p
              /\ before = (earlier ++ [Called (build_call p) None])%list.
Proof.
  destruct (buildDefaultPlugins_attempts defaultPlugins s)
    as (intro & chunks & Ev & Hintro & F).
  rewrite Ev, calls_of_app, Hintro. cbn [app].
  destruct (truthy (env s "FLIPPER_NO_REBUILD_PLUGINS")).
  - now apply links_only.
  - split; [now apply builds_in_order|].
    intros before c r after H Hc.
    apply app_eq_app in H as [rest [[Hi Hrest]|[Hb Hrest]]].
    + destruct rest as [|ev rest].
      * simpl in Hrest. symmetry in Hrest.
        destruct (@link_follows_build _ _ [] after c r F Hrest Hc)
          as (p & earlier & _ & _ & E).
        destruct earlier; discriminate E.
      * simpl in Hrest. injection Hrest as <- _. exfalso.
        apply (@no_call_among intro c r Hintro). rewrite Hi.
        apply in_or_app. right. now left.
    + destruct (@link_follows_build _ _ rest after c r F Hrest Hc)
        as (p & earlier & Hp & Hlink & E).
      exists p, (intro ++ earlier)%list. split; [exact Hp|]. split; [exact Hlink|].
      now rewrite Hb, E, app_assoc.
Qed.

(** ** The rest of the disk when the source maps move *)

(** X14. Once [moveSourceMaps] has returned it has left the rest of the
    disk alone.  Without a destination every path that is not one of the
    two source maps, nor below one, keeps its entry.  With a destination,
    both maps being regular files, the same holds for every path that is
    also neither one of the two destination files, nor below one, nor one
    of the directories the destination string names on the way or an
    ancestor of one: those are made by [fs.ensureDir], [maps/out] as well
    for [maps/out/..]. *)
Theorem moveSourceMaps_touches_nothing_else
    (buildFolder : string) (sourceMapFolder : option string) (s : State) (q : path) :
  let mainBundleMap := path_join (path_resolve cwd buildFolder) "bundle.map" in
  let rendererBundleMap := path_join staticDir "main.bundle.map" in
  let destination := path_resolve cwd (shown sourceMapFolder) in
  let after := files (final (moveSourceMaps buildFolder sourceMapFolder s)) in
  is_prefix mainBundleMap q = false ->
  is_prefix rendererBundleMap q = false ->
  result_of (moveSourceMaps buildFolder sourceMapFolder s) = Returned tt ->
  (truthy sourceMapFolder = false -> after q = files s q)
  /\ (truthy sourceMapFolder = true ->
      is_file (files s mainBundleMap) = true ->
      is_file (files s rendererBundleMap) = true ->
      is_prefix (path_join destination "bundle.map") q = false ->
      is_prefix (path_join destination "main.bundle.map") q = false ->
      (forall p, In p (path_named cwd (shown sourceMapFolder)) -> is_prefix q p = false) ->
      after q = files s q).
Proof.
  cbv zeta. unfold moveSourceMaps.
  change (path_join (path_resolve cwd buildFolder) "bundle.map")
    with (path_resolve cwd buildFolder ++ ["bundle.map"])%list.
  change (path_join staticDir "main.bundle.map")
    with (staticDir ++ ["main.bundle.map"])%list.
  change (path_join (path_resolve cwd (shown sourceMapFolder)) "bundle.map")
    with (path_resolve cwd (shown sourceMapFolder) ++ ["bundle.map"])%list.
  change (path_join (path_resolve cwd (shown sourceMapFolder)) "main.bundle.map")
    with (path_resolve cwd (shown sourceMapFolder) ++ ["main.bundle.map"])%list.
  assert (Hd := path_resolve_named cwd (shown sourceMapFolder)). revert Hd.
  generalize (path_resolve cwd buildFolder) as bf.
  generalize (path_resolve cwd (shown sourceMapFolder)) as d.
  intros d bf Hd Hqa Hqb.
  destruct (truthy sourceMapFolder) eqn:Htruthy.
  - unfold fs_ensureDir_at, fs_move.
    rewrite bind_log, bind_call.
    destruct (fs.ensureDirs (path_named cwd (shown sourceMapFolder)) (files s))
      as [[u|e] f1] eqn:Edir;
      cbn [prepend result_of final files env]; [|discriminate].
    rewrite bind_call. cbn [files env].
    destruct (fs.move (bf ++ ["bundle.map"])%list (d ++ ["bundle.map"])%list true f1)
      as [[u1|e1] f2] eqn:Emove1;
      cbn [prepend result_of final files env]; [|discriminate].
    rewrite bind_call. cbn [files env].
    destruct (fs.move (staticDir ++ ["main.bundle.map"])%list
                      (d ++ ["main.bundle.map"])%list true f2)
      as [[u2|e2] f3] eqn:Emove2;
      cbn [prepend result_of final files env console_log]; [|discriminate].
    intros _. split; [discriminate|]. intros _ Ha Hb Hqda Hqdb Hnamed.
    destruct (@both_moved d bf staticDir _ _ _ _ _ _ _ _ Edir Emove1 Emove2 Ha Hb)
      as (_ & _ & _ & _ & Hrest).
    apply Hrest; auto.
  - unfold fs_remove. rewrite bind_log, bind_call.
    destruct (fs.remove (bf ++ ["bundle.map"])%list (files s))
      as [[u1|e1] f1] eqn:Eremove1; apply remove_inv in Eremove1; subst f1;
      cbn [prepend result_of final files env]; [|discriminate].
    rewrite bind_call. cbn [files env].
    destruct (fs.remove (staticDir ++ ["main.bundle.map"])%list
                        (fs.remove_tree (bf ++ ["bundle.map"])%list (files s)))
      as [[u2|e2] f2] eqn:Eremove2; apply remove_inv in Eremove2; subst f2;
      cbn [prepend result_of final files env console_log]; [|discriminate].
    intros _. split; [|discriminate]. intros _.
    unfold fs.remove_tree. now rewrite Hqa, Hqb.
Qed.

(** X15. [moveSourceMaps] is not atomic.  With a destination that does
    not lead through the place of the static directory's map, when the
    map of the build folder is a regular file and gets moved but the
    static directory, a directory, holds no map, the function throws
    after the first move: the map of the build folder is then already
    gone from the build folder and in the destination directory. *)
Theorem moveSourceMaps_is_not_atomic
    (buildFolder : string) (sourceMapFolder : option string) (s : State) :
  let mainBundleMap := path_join (path_resolve cwd buildFolder) "bundle.map" in
  let rendererBundleMap := path_join staticDir "main.bundle.map" in
  let destination := path_resolve cwd (shown sourceMapFolder) in
  let after := files (final (moveSourceMaps buildFolder sourceMapFolder s)) in
  truthy sourceMapFolder = true ->
  is_file (files s mainBundleMap) = true ->
  is_dir (files s staticDir) = true ->
  files s rendererBundleMap = None ->
  (forall p, In p (path_named cwd (shown sourceMapFolder)) ->
             is_prefix rendererBundleMap p = false) ->
  In (Called (Move mainBundleMap (path_join destination "bundle.map") true) None)
     (events (moveSourceMaps buildFolder sourceMapFolder s)) ->
  (exists e, result_of (moveSourceMaps buildFolder sourceMapFolder s) = Thrown e)
  /\ after mainBundleMap = None
  /\ after (path_join destination "bundle.map") = files s mainBundleMap.
Proof.
  cbv zeta. unfold moveSourceMaps.
  change (path_join (path_resolve cwd buildFolder) "bundle.map")
    with (path_resolve cwd buildFolder ++ ["bundle.map"])%list.
  change (path_join staticDir "main.bundle.map")
    with (staticDir ++ ["main.bundle.map"])%list.
  change (path_join (path_resolve cwd (shown sourceMapFolder)) "bundle.map")
    with (path_resolve cwd (shown sourceMapFolder) ++ ["bundle.map"])%list.
  change (path_join (path_resolve cwd (shown sourceMapFolder)) "main.bundle.map")
    with (path_resolve cwd (shown sourceMapFolder) ++ ["main.bundle.map"])%list.
  assert (Hd := path_resolve_named cwd (shown sourceMapFolder)). revert Hd.
  generalize (path_resolve cwd buildFolder) as bf.
  generalize (path_resolve cwd (shown sourceMapFolder)) as d.
  intros d bf Hd Htruthy Ha _ Hb Hnamed. rewrite Htruthy. unfold fs_ensureDir_at, fs_move.
  assert (Hmaps' : "main.bundle.map" <> "bundle.map") by discriminate.
  rewrite bind_log, bind_call.
  destruct (fs.ensureDirs (path_named cwd (shown sourceMapFolder)) (files s))
    as [[u|e] f1] eqn:Edir;
    cbn [prepend result_of final files env events app];
    [|intros H; found H].
  rewrite bind_call. cbn [files env].
  destruct (fs.move (bf ++ ["bundle.map"])%list (d ++ ["bundle.map"])%list true f1)
    as [[u1|e1] f2] eqn:Emove1;
    cbn [prepend result_of final files env events app];
    [|intros H; found H].
  intros _.
  assert (F1a : f1 (bf ++ ["bundle.map"])%list = files s (bf ++ ["bundle.map"])%list).
  { destruct (files s (bf ++ ["bundle.map"])%list) as [[da| |t k]|] eqn:E;
      try discriminate Ha.
    eapply ensureDirs_keeps; eassumption. }
  assert (F1b : f1 (staticDir ++ ["main.bundle.map"])%list = None).
  { rewrite <- Hb. eapply ensureDirs_elsewhere; eassumption. }
  apply move_file_inv in Emove1 as (Hne1 & _ & F2); [|now rewrite F1a].
  rewrite dirname_snoc in F2.
  assert (F2b : f2 (staticDir ++ ["main.bundle.map"])%list = None).
  { rewrite F2.
    rewrite (path_eqb_neq (snoc_neq _ _ Hmaps')), (path_eqb_neq (snoc_neq _ _ Hmaps')).
    destruct (is_prefix (d ++ ["bundle.map"])%list _); [reflexivity|].
    now rewrite (Hnamed d Hd). }
  assert (Hfails :
    fs.move (staticDir ++ ["main.bundle.map"])%list (d ++ ["main.bundle.map"])%list
            true f2 = (Err "ENOENT: no such file or directory", f2)).
  { unfold fs.move, fs.checkPaths. now rewrite F2b. }
  rewrite bind_call. cbn [files env]. rewrite Hfails.
  cbn [prepend result_of final files env].
  split; [eexists; reflexivity|]. split.
  - rewrite F2, (path_eqb_neq Hne1), path_eqb_refl. reflexivity.
  - rewrite F2, path_eqb_refl. exact F1a.
Qed.

(** ** Failing calls of the compilations *)

(** X5. In [compileMain] every call that throws is fatal, whether it is
    the loading of the configuration, the watch-folder lookup, the engine
    or the stripping: the error is logged through [die] and the process
    ends with code 1. *)
Theorem compileMain_every_failure_is_fatal (s : State) (c : Call) (e : Error) :
  In (Called c (Some e)) (events (compileMain s)) ->
  result_of (compileMain s) = Exited 1
  /\ In (LoggedError "Script termnated." e) (events (compileMain s))
  /\ In (ProcessExited 1) (events (compileMain s)).
Proof.
  unfold_targets; destruct dev; run_through; intros H; found H;
    cbn [In]; repeat split; auto 10.
Qed.

(** X6. [compileServerMain] handles no error: a call that throws ends it
    with that very error, and it returns exactly when no call threw. *)
Theorem compileServerMain_throws_what_fails (s : State) :
  (forall c e, In (Called c (Some e)) (events (compileServerMain s)) ->
               result_of (compileServerMain s) = Thrown e)
  /\ (result_of (compileServerMain s) = Returned tt <->
      Forall (fun ev => thrown_by ev = None) (events (compileServerMain s))).
Proof.
  split.
  - intros c e. unfold_targets; destruct dev; run_through; intros H; found H;
      reflexivity.
  - unfold_targets; destruct dev; run_through;
      repeat match goal with u : unit |- _ => destruct u end;
      split; intros H;
      try discriminate H; try reflexivity; repeat constructor;
      repeat match goal with
             | H : Forall _ (_ :: _) |- _ => inversion H; clear H; subst
             end;
      cbn [thrown_by] in *; congruence.
Qed.

(** X7. In [compileRenderer] the two watch-folder lookups come before the
    [try]: when one of them throws, the error reaches the caller, nothing
    is logged through [die], the process goes on and the engine is not
    invoked. *)
Theorem compileRenderer_lookup_failure_is_thrown
    (buildFolder : string) (s : State) (e : Error) :
  In (Called GetAppWatchFolders (Some e)) (events (compileRenderer buildFolder s))
  \/ In (Called GetPluginSourceFolders (Some e)) (events (compileRenderer buildFolder s)) ->
  result_of (compileRenderer buildFolder s) = Thrown e
  /\ Forall (fun ev => match ev with
                       | Called (MetroRunBuild _ _) _ => False
                       | LoggedError _ _ => False
                       | ProcessExited _ => False
                       | _ => True
                       end)
            (events (compileRenderer buildFolder s)).
Proof.
  unfold_targets; destruct dev; run_through; intros [H|H]; found H;
    split; try reflexivity; repeat constructor.
Qed.

End FurtherProperties.

(** * The script on the concrete host *)

Lemma generated_entry_points_deterministic_witness :
  result_of (@generateDefaultPluginEntryPoints devHost Demo.plugins (Demo.state []))
    = Returned tt
  /\ result_of (@generateDefaultPluginEntryPoints devHost Demo.plugins
                  (Demo.state [("FLIPPER_NO_REBUILD_PLUGINS", "1")]))
    = Returned tt
  /\ files (final (@generateDefaultPluginEntryPoints devHost Demo.plugins (Demo.state [])))
           (@bundled_json devHost)
     = files (final (@generateDefaultPluginEntryPoints devHost Demo.plugins
                       (Demo.state [("FLIPPER_NO_REBUILD_PLUGINS", "1")])))
             (@bundled_json devHost).
Proof.
  split; [vm_compute; reflexivity|]. split; [vm_compute; reflexivity|].
  apply (@generated_entry_points_deterministic devHost Demo.plugins
           (Demo.state []) (Demo.state [("FLIPPER_NO_REBUILD_PLUGINS", "1")]));
    vm_compute; reflexivity.
Defined.

(** The manifest an earlier run has left is gone when the rest of the
    script starts. *)
Lemma prepare_resets_directory_first_witness :
  files (Demo.state []) (@bundled_json devHost) = Some (File "old")
  /\ exists s1,
       final (@prepareDefaultPlugins devHost true (Demo.state []))
       = final (@prepare_after_reset devHost true s1)
       /\ files s1 (@bundled_json devHost) = None.
Proof.
  split; [reflexivity|].
  destruct (@prepare_resets_directory_first devHost true (Demo.state []))
    as (msg & threw & s1 & Hrun & _ & Hdisk).
  exists s1. destruct threw as [e|].
  - assert (R : result_of (@prepareDefaultPlugins devHost true (Demo.state []))
                = Returned tt) by (vm_compute; reflexivity).
    rewrite Hrun in R. discriminate R.
  - split; [now rewrite Hrun|].
    apply (proj2 (Hdisk eq_refl)); reflexivity.
Defined.

(** The plugin of the override arrives with its manifest, under its own
    name and under the name of the link. *)
Lemma override_copies_and_generates_empty_witness :
  truthy (env stateWithOverride "FLIPPER_DEFAULT_PLUGINS_DIR") = true
  /\ result_of (@prepareDefaultPlugins devHost false stateWithOverride) = Returned tt
  /\ @override_entry devHost stateWithOverride ["latest"; "package.json"]
     = Some (File "{}")
  /\ files (final (@prepareDefaultPlugins devHost false stateWithOverride))
           (@defaultPluginsDir devHost ++ ["latest"; "package.json"])%list
     = Some (File "{}")
  /\ files (final (@prepareDefaultPlugins devHost false stateWithOverride))
           (@bundled_json devHost)
     = Some (File ("[]" ++ newline)).
Proof.
  assert (R : result_of (@prepareDefaultPlugins devHost false stateWithOverride)
              = Returned tt) by (vm_compute; reflexivity).
  destruct (@override_copies_and_generates_empty devHost false stateWithOverride eq_refl)
    as (_ & _ & Hdisk).
  destruct (Hdisk R) as (Hjson & _ & _ & Harrive).
  split; [reflexivity|]. split; [exact R|]. split; [vm_compute; reflexivity|].
  split; [|exact Hjson].
  apply Harrive; [discriminate | vm_compute; reflexivity |].
  intros [H|[H|H]]; vm_compute in H; discriminate H.
Defined.

(** With pre-bundling disabled the second and third demo plugins get
    linked into the default-plugins directory and the manifest is empty. *)
Lemma no_bundled_plugins_generates_empty_witness :
  truthy (env (Demo.state [("FLIPPER_NO_BUNDLED_PLUGINS", "1")])
              "FLIPPER_DEFAULT_PLUGINS_DIR") = false
  /\ truthy (env (Demo.state [("FLIPPER_NO_BUNDLED_PLUGINS", "1")])
                "FLIPPER_NO_BUNDLED_PLUGINS") = true
  /\ result_of (@prepareDefaultPlugins brokenPluginHost false
                  (Demo.state [("FLIPPER_NO_BUNDLED_PLUGINS", "1")]))
     = Returned tt
  /\ files (final (@prepareDefaultPlugins brokenPluginHost false
                     (Demo.state [("FLIPPER_NO_BUNDLED_PLUGINS", "1")])))
           (path_join (@defaultPluginsDir brokenPluginHost) "flipper-plugin-Inspector")
     = Some (Link ["repo"; "plugins"; "layout"] "junction")
  /\ files (final (@prepareDefaultPlugins brokenPluginHost false
                     (Demo.state [("FLIPPER_NO_BUNDLED_PLUGINS", "1")])))
           (@bundled_json brokenPluginHost)
     = Some (File ("[]" ++ newline)).
Proof.
  split; [reflexivity|]. split; [reflexivity|].
  split; [vm_compute; reflexivity|]. split; [vm_compute; reflexivity|].
  apply (@no_bundled_plugins_generates_empty brokenPluginHost false
           (Demo.state [("FLIPPER_NO_BUNDLED_PLUGINS", "1")]));
    vm_compute; reflexivity.
Defined.

Lemma source_maps_moved_or_removed_witness :
  (truthy (Some "/tmp/maps") = true
   /\ is_file (files (Demo.state []) ["tmp"; "flipper-build-1"; "bundle.map"]) = true
   /\ is_file (files (Demo.state []) ["repo"; "desktop"; "static"; "main.bundle.map"])
      = true
   /\ result_of (@moveSourceMaps devHost "/tmp/flipper-build-1" (Some "/tmp/maps")
                   (Demo.state [])) = Returned tt
   /\ files (final (@moveSourceMaps devHost "/tmp/flipper-build-1" (Some "/tmp/maps")
                      (Demo.state [])))
            ["tmp"; "flipper-build-1"; "bundle.map"] = None)
  /\ (truthy None = false
      /\ result_of (@moveSourceMaps devHost "/tmp/flipper-build-1" None (Demo.state []))
         = Returned tt
      /\ files (final (@moveSourceMaps devHost "/tmp/flipper-build-1" None
                         (Demo.state [])))
               ["repo"; "desktop"; "static"; "main.bundle.map"] = None).
Proof.
  split.
  - split; [reflexivity|]. split; [reflexivity|]. split; [reflexivity|].
    split; [vm_compute; reflexivity|].
    apply (proj1 (@source_maps_moved_or_removed devHost "/tmp/flipper-build-1"
                    (Some "/tmp/maps") (Demo.state []))); vm_compute; reflexivity.
  - split; [reflexivity|]. split; [vm_compute; reflexivity|].
    apply (proj2 (@source_maps_moved_or_removed devHost "/tmp/flipper-build-1"
                    None (Demo.state []))); vm_compute; reflexivity.
Defined.


Lemma compile_failure_policy_witness :
  (exists config options,
      In (Called (MetroRunBuild config options) (Some "engine failed"))
         (events (@compileMain failingEngineHost (Demo.state [])))
      /\ result_of (@compileMain failingEngineHost (Demo.state [])) = Exited 1)
  /\ (exists config options,
         In (Called (MetroRunBuild config options) (Some "engine failed"))
            (events (@compileServerMain failingEngineHost (Demo.state [])))
         /\ result_of (@compileServerMain failingEngineHost (Demo.state []))
            = Thrown "engine failed").
Proof.
  split.
  - do 2 eexists.
    assert (H : forall A B : Prop, A -> (A -> B) -> A /\ B) by tauto.
    apply H.
    + cbv. do 3 right. left. reflexivity.
    + intros Hin.
      apply (proj1 (proj2 (@compile_failure_policy failingEngineHost
                             (Demo.state []) _ _ _)) Hin).
  - do 2 eexists.
    assert (H : forall A B : Prop, A -> (A -> B) -> A /\ B) by tauto.
    apply H.
    + cbv. do 3 right. left. reflexivity.
    + intros Hin.
      apply (proj1 (proj2 (proj2 (@compile_failure_policy failingEngineHost
                                    (Demo.state []) _ _ _))) Hin).
Defined.

(** ** Further runs *)

(** Build number 4711, and ten to the power 21. *)
Lemma getVersionNumber_replaces_patch_witness :
  (Z.abs 4711 <= 2 ^ 53)%Z
  /\ 4711%Z <> 0%Z
  /\ split "." (@getVersionNumber devHost (Some (Number_of_Z 4711)))
     = ["0"; "150"; "4711"]
  /\ split "." (@getVersionNumber devHost
                  (Some {| is_falsy := false; toString := "1e+21" |}))
     = ["0"; "150"; "1e+21"].
Proof.
  assert (Hsmall : (Z.abs 4711 <= 2 ^ 53)%Z) by (vm_compute; discriminate).
  assert (Hnot : 4711%Z <> 0%Z) by discriminate.
  split; [exact Hsmall|]. split; [exact Hnot|]. split.
  - rewrite (proj2 (@getVersionNumber_replaces_patch devHost
                      (Some (Number_of_Z 4711))) 4711%Z Hsmall Hnot eq_refl).
    reflexivity.
  - apply (proj1 (@getVersionNumber_replaces_patch devHost
                    (Some {| is_falsy := false; toString := "1e+21" |}))).
Defined.

Lemma compileMain_every_failure_is_fatal_witness :
  exists c,
    In (Called c (Some "engine failed"))
       (events (@compileMain failingEngineHost (Demo.state [])))
    /\ result_of (@compileMain failingEngineHost (Demo.state [])) = Exited 1.
Proof.
  eexists.
  assert (H : forall A B : Prop, A -> (A -> B) -> A /\ B) by tauto.
  apply H.
  - cbv. do 3 right. left. reflexivity.
  - intros Hin.
    apply (proj1 (@compileMain_every_failure_is_fatal failingEngineHost
                    (Demo.state []) _ _ Hin)).
Defined.

Lemma compileServerMain_throws_what_fails_witness :
  (exists c,
      In (Called c (Some "engine failed"))
         (events (@compileServerMain failingEngineHost (Demo.state [])))
      /\ result_of (@compileServerMain failingEngineHost (Demo.state []))
         = Thrown "engine failed")
  /\ result_of (@compileServerMain productionHost (Demo.state [])) = Returned tt
  /\ Forall (fun ev => thrown_by ev = None)
            (events (@compileServerMain productionHost (Demo.state []))).
Proof.
  split.
  - eexists.
    assert (H : forall A B : Prop, A -> (A -> B) -> A /\ B) by tauto.
    apply H.
    + cbv. do 3 right. left. reflexivity.
    + intros Hin.
      apply (proj1 (@compileServerMain_throws_what_fails failingEngineHost
                      (Demo.state [])) _ _ Hin).
  - assert (R : result_of (@compileServerMain productionHost (Demo.state []))
                = Returned tt) by (vm_compute; reflexivity).
    split; [exact R|].
    apply (proj1 (proj2 (@compileServerMain_throws_what_fails productionHost
                           (Demo.state []))) R).
Defined.

Lemma compileRenderer_lookup_failure_is_thrown_witness :
  In (Called GetAppWatchFolders (Some "no watch folders"))
     (events (@compileRenderer lostFoldersHost "/tmp/flipper-build-1" (Demo.state [])))
  /\ result_of (@compileRenderer lostFoldersHost "/tmp/flipper-build-1" (Demo.state []))
     = Thrown "no watch folders".
Proof.
  assert (Hin : In (Called GetAppWatchFolders (Some "no watch folders"))
                   (events (@compileRenderer lostFoldersHost "/tmp/flipper-build-1"
                              (Demo.state [])))).
  { cbv. right. left. reflexivity. }
  split; [exact Hin|].
  apply (proj1 (@compileRenderer_lookup_failure_is_thrown lostFoldersHost
                  "/tmp/flipper-build-1" (Demo.state []) _ (or_introl Hin))).
Defined.

Lemma prepareDefaultPlugins_failures_reach_caller_witness :
  exists c e,
    In (Called c (Some e))
       (events (@prepareDefaultPlugins devHost false
                  (Demo.state [("FLIPPER_DEFAULT_PLUGINS_DIR", "/missing")])))
    /\ ~ builds_or_links c
    /\ result_of (@prepareDefaultPlugins devHost false
                    (Demo.state [("FLIPPER_DEFAULT_PLUGINS_DIR", "/missing")]))
       = Thrown e.
Proof.
  do 2 eexists.
  assert (H : forall A B C : Prop, A -> B -> (A -> B -> C) -> A /\ B /\ C) by tauto.
  apply H.
  - cbv. do 3 right. left. reflexivity.
  - intros Hc. exact Hc.
  - intros Hin Hnot.
    destruct (proj1 (@prepareDefaultPlugins_failures_reach_caller devHost false
                       (Demo.state [("FLIPPER_DEFAULT_PLUGINS_DIR", "/missing")]))
                    _ _ Hin) as [Hc|Hr]; [contradiction | exact Hr].
Defined.

Lemma prepareDefaultPlugins_bundles_the_enumeration_witness :
  truthy (env (Demo.state []) "FLIPPER_DEFAULT_PLUGINS_DIR") = false
  /\ truthy (env (Demo.state []) "FLIPPER_NO_DEFAULT_PLUGINS") = false
  /\ truthy (env (Demo.state []) "FLIPPER_NO_BUNDLED_PLUGINS") = false
  /\ @ext_getSourcePlugins devHost
       (snd (fs.emptyDir (@defaultPluginsDir devHost) (files (Demo.state []))))
     = (Ok Demo.plugins,
        snd (fs.emptyDir (@defaultPluginsDir devHost) (files (Demo.state []))))
  /\ defaultPlugins_of false Demo.plugins = Demo.plugins.
Proof.
  split; [reflexivity|]. split; [reflexivity|]. split; [reflexivity|].
  split; [reflexivity|].
  apply (@prepareDefaultPlugins_bundles_the_enumeration devHost false (Demo.state [])
           (snd (fs.emptyDir (@defaultPluginsDir devHost) (files (Demo.state []))))
           (snd (fs.emptyDir (@defaultPluginsDir devHost) (files (Demo.state []))))
           Demo.plugins); reflexivity.
Defined.

Lemma no_default_plugins_skips_the_enumeration_witness :
  truthy (env (Demo.state [("FLIPPER_NO_DEFAULT_PLUGINS", "true")])
              "FLIPPER_DEFAULT_PLUGINS_DIR") = false
  /\ truthy (env (Demo.state [("FLIPPER_NO_DEFAULT_PLUGINS", "true")])
                "FLIPPER_NO_DEFAULT_PLUGINS") = true
  /\ proceeds (@prepareDefaultPlugins devHost true)
       (Demo.state [("FLIPPER_NO_DEFAULT_PLUGINS", "true")])
       [ EmptyDir (@defaultPluginsDir devHost);
         WriteJSON (@bundled_json devHost) [];
         EnsureDir (@defaultPlugins_src (@appDir devHost));
         WriteFile (index_tsx (@appDir devHost)) (generatedIndex "");
         EnsureDir (@defaultPlugins_src (@browserUiDir devHost));
         WriteFile (index_tsx (@browserUiDir devHost)) (generatedIndex "") ].
Proof.
  split; [reflexivity|]. split; [reflexivity|].
  apply (@no_default_plugins_skips_the_enumeration devHost true
           (Demo.state [("FLIPPER_NO_DEFAULT_PLUGINS", "true")])); reflexivity.
Defined.

Lemma manifests_carry_no_placeholder_witness :
  @version devHost <> "0.0.0"
  /\ Forall (fun ev => match ev with
                       | Called (WriteJSON _ obj) _ => Forall settled obj
                       | _ => True
                       end)
            (events (@prepareDefaultPlugins devHost false (Demo.state []))).
Proof.
  split; [discriminate|].
  apply (@manifests_carry_no_placeholder devHost false). discriminate.
Defined.

Lemma generated_files_are_on_disk_witness :
  result_of (@generateDefaultPluginEntryPoints devHost Demo.plugins (Demo.state []))
    = Returned tt
  /\ files (final (@generateDefaultPluginEntryPoints devHost Demo.plugins (Demo.state [])))
           (index_tsx (@appDir devHost))
     = Some (File (@loader_text devHost Demo.plugins)).
Proof.
  assert (R : result_of (@generateDefaultPluginEntryPoints devHost Demo.plugins
                           (Demo.state [])) = Returned tt) by (vm_compute; reflexivity).
  split; [exact R|].
  apply (proj2 (@generated_files_are_on_disk devHost Demo.plugins (Demo.state [])) R).
Defined.

(** The manifest of the default plugins is left alone, also when the
    destination is given as [/tmp/maps/out/..]: then both [/tmp/maps] and
    [/tmp/maps/out] are directories afterwards. *)
Lemma moveSourceMaps_touches_nothing_else_witness :
  (truthy None = false
   /\ files (final (@moveSourceMaps devHost "/tmp/flipper-build-1" None (Demo.state [])))
            ["repo"; "desktop"; "static"; "defaultPlugins"; "bundled.json"]
      = Some (File "old"))
  /\ (truthy (Some "/tmp/maps/out/..") = true
      /\ result_of (@moveSourceMaps devHost "/tmp/flipper-build-1"
                      (Some "/tmp/maps/out/..") (Demo.state [])) = Returned tt
      /\ files (final (@moveSourceMaps devHost "/tmp/flipper-build-1"
                         (Some "/tmp/maps/out/..") (Demo.state [])))
               ["tmp"; "maps"; "out"]
         = Some Dir
      /\ files (final (@moveSourceMaps devHost "/tmp/flipper-build-1"
                         (Some "/tmp/maps/out/..") (Demo.state [])))
               ["repo"; "desktop"; "static"; "defaultPlugins"; "bundled.json"]
         = Some (File "old")).
Proof.
  split.
  - split; [reflexivity|].
    rewrite (proj1 (@moveSourceMaps_touches_nothing_else devHost "/tmp/flipper-build-1"
                      None (Demo.state [])
                      ["repo"; "desktop"; "static"; "defaultPlugins"; "bundled.json"]
                      eq_refl eq_refl eq_refl) eq_refl).
    reflexivity.
  - split; [reflexivity|]. split; [vm_compute; reflexivity|].
    split; [vm_compute; reflexivity|].
    rewrite (proj2 (@moveSourceMaps_touches_nothing_else devHost "/tmp/flipper-build-1"
                      (Some "/tmp/maps/out/..") (Demo.state [])
                      ["repo"; "desktop"; "static"; "defaultPlugins"; "bundled.json"]
                      eq_refl eq_refl eq_refl)); try reflexivity;
      try (intros p Hp; vm_compute in Hp;
           repeat (destruct Hp as [<-|Hp]; [reflexivity|]); contradiction);
      vm_compute; reflexivity.
Defined.

Lemma moveSourceMaps_is_not_atomic_witness :
  truthy (Some "/tmp/maps") = true
  /\ files stateWithoutMainMap ["repo"; "desktop"; "static"; "main.bundle.map"] = None
  /\ (exists e, result_of (@moveSourceMaps devHost "/tmp/flipper-build-1"
                             (Some "/tmp/maps") stateWithoutMainMap) = Thrown e)
  /\ files (final (@moveSourceMaps devHost "/tmp/flipper-build-1" (Some "/tmp/maps")
                     stateWithoutMainMap))
           ["tmp"; "flipper-build-1"; "bundle.map"] = None
  /\ files (final (@moveSourceMaps devHost "/tmp/flipper-build-1" (Some "/tmp/maps")
                     stateWithoutMainMap))
           ["tmp"; "maps"; "bundle.map"] = Some (File "old").
Proof.
  split; [reflexivity|]. split; [reflexivity|].
  destruct (@moveSourceMaps_is_not_atomic devHost "/tmp/flipper-build-1"
              (Some "/tmp/maps") stateWithoutMainMap) as (Hthrown & Hgone & Hthere).
  - reflexivity.
  - reflexivity.
  - reflexivity.
  - reflexivity.
  - intros p Hp. vm_compute in Hp.
    repeat (destruct Hp as [<-|Hp]; [reflexivity|]). contradiction.
  - cbv. do 2 right. left. reflexivity.
  - split; [exact Hthrown|]. split; [exact Hgone|].
    etransitivity; [exact Hthere | reflexivity].
Defined.

(** A destination that leads through the place of the missing map:
    [fs.ensureDir] makes a directory there, the second move moves that
    directory, and the function returns. *)
Lemma moveSourceMaps_moves_a_made_directory :
  files stateWithoutMainMap ["repo"; "desktop"; "static"; "main.bundle.map"] = None
  /\ result_of (@moveSourceMaps devHost "/tmp/flipper-build-1"
                  (Some "../static/main.bundle.map/../../maps") stateWithoutMainMap)
     = Returned tt
  /\ files (final (@moveSourceMaps devHost "/tmp/flipper-build-1"
                     (Some "../static/main.bundle.map/../../maps") stateWithoutMainMap))
           ["repo"; "desktop"; "maps"; "main.bundle.map"]
     = Some Dir.
Proof. repeat split; vm_compute; reflexivity. Qed.

(** The link of the third demo plugin is the ninth event of the run; the
    eighth is the build of that plugin, which has returned. *)
Lemma buildDefaultPlugins_builds_then_links_witness :
  let evs := events (@buildDefaultPlugins brokenPluginHost Demo.plugins (Demo.state [])) in
  let inspector := Demo.plugin "Inspector" "/repo/plugins/layout" "0.0.0" in
  evs = (firstn 8 evs ++ Called (@link_call brokenPluginHost inspector) None
                         :: skipn 9 evs)%list
  /\ exists p earlier,
       In p Demo.plugins
       /\ @link_call brokenPluginHost inspector = @link_call brokenPluginHost p
       /\ firstn 8 evs = (earlier ++ [Called (@build_call brokenPluginHost p) None])%list.
Proof.
  cbv zeta.
  assert (E : events (@buildDefaultPlugins brokenPluginHost Demo.plugins (Demo.state []))
              = (firstn 8 (events (@buildDefaultPlugins brokenPluginHost Demo.plugins
                                     (Demo.state [])))
                 ++ Called (@link_call brokenPluginHost
                              (Demo.plugin "Inspector" "/repo/plugins/layout" "0.0.0"))
                           None
                 :: skipn 9 (events (@buildDefaultPlugins brokenPluginHost Demo.plugins
                                       (Demo.state []))))%list)
    by (vm_compute; reflexivity).
  split; [exact E|].
  apply (proj2 (@buildDefaultPlugins_builds_then_links brokenPluginHost Demo.plugins
                  (Demo.state [])) _ _ _ _ E eq_refl).
Defined.
